(** * Camel Care: a shallow embedding of [app.py]

    The application is a single-file Flask program over SQLite (through
    SQLAlchemy), Flask-Login, WTForms and passlib.  The embedding follows the
    request handlers of [app.py] one by one.  The persisted store is a record
    of tables, each table the list of its rows in insertion order; a handler is
    a function from the store, the request and the inputs the environment
    supplies (clock, salt, session identity) to a response, the flashed
    messages and the new store.

    Characters are modelled as [ascii], read as code points below 256. *)

From Stdlib Require Import ZArith List String Ascii Bool Lia.
From Stdlib Require Import Sorted Permutation.
From Stdlib Require Import Floats.SpecFloat.
Import ListNotations.

Open Scope string_scope.
Open Scope Z_scope.

(* ------------------------------------------------------------------ *)
(** ** Python values *)

(** [if s:] on a [str]: the empty string is falsy. *)
Definition str_truthy (s : string) : bool :=
  match s with EmptyString => false | String _ _ => true end.

(** [if x:] on a [float]: [0.0] and [-0.0] are falsy, everything else
    (infinities and NaN included) is truthy. *)
Definition float_truthy (x : spec_float) : bool :=
  match x with S754_zero _ => false | _ => true end.

(** [x or None] on an optional float, as in [price=form.price.data or None]. *)
Definition or_None (x : option spec_float) : option spec_float :=
  match x with
  | Some v => if float_truthy v then Some v else None
  | None => None
  end.

(** [datetime.datetime]: naive date and time. *)
Record datetime : Type := mkDatetime {
  year : Z; month : Z; day : Z;
  hour : Z; minute : Z; second : Z; microsecond : Z
}.

Definition datetime_fields (d : datetime) : list Z :=
  [year d; month d; day d; hour d; minute d; second d; microsecond d].

Fixpoint lex_compare (a b : list Z) : comparison :=
  match a, b with
  | [], [] => Eq
  | [], _ :: _ => Lt
  | _ :: _, [] => Gt
  | x :: a', y :: b' =>
      match x ?= y with
      | Eq => lex_compare a' b'
      | c => c
      end
  end.

(** Comparison of two datetimes, field by field from the year down; it is
    also the order of their ISO texts, which is what SQLite compares. *)
Definition datetime_compare (a b : datetime) : comparison :=
  lex_compare (datetime_fields a) (datetime_fields b).

Definition datetime_leb (a b : datetime) : bool :=
  match datetime_compare a b with Gt => false | _ => true end.

(** JSON values as [jsonify] receives them. *)
#[local] Unset Elimination Schemes.
Inductive json : Type :=
| JNull
| JInt (n : Z)
| JFloat (x : spec_float)
| JStr (s : string)
| JArr (items : list json)
| JObj (fields : list (string * json)).
#[local] Set Elimination Schemes.

Definition json_of_opt_str (o : option string) : json :=
  match o with Some s => JStr s | None => JNull end.

Definition json_of_opt_float (o : option spec_float) : json :=
  match o with Some x => JFloat x | None => JNull end.

(** [d[k]] on a JSON object. *)
Fixpoint json_get (k : string) (fields : list (string * json)) : option json :=
  match fields with
  | [] => None
  | (k', v) :: rest => if String.eqb k k' then Some v else json_get k rest
  end.

(* ------------------------------------------------------------------ *)
(** ** SQL operators used by the queries *)

Module Sql.

(** SQLite folds only the 26 ASCII capitals when it compares for [LIKE]. *)
Definition to_lower (c : ascii) : ascii :=
  let n := N_of_ascii c in
  if ((65 <=? n) && (n <=? 90))%N then ascii_of_N (n + 32) else c.

Fixpoint lower (s : string) : string :=
  match s with
  | EmptyString => EmptyString
  | String c s' => String (to_lower c) (lower s')
  end.

Definition is_percent (c : ascii) : bool := Ascii.eqb c "%".
Definition is_underscore (c : ascii) : bool := Ascii.eqb c "_".

(** SQLite's [LIKE] takes pattern and text as NUL-terminated: what follows
    the first NUL character of either is not read. *)
Fixpoint until_nul (s : string) : string :=
  match s with
  | EmptyString => EmptyString
  | String c s' => if Ascii.eqb c zero then EmptyString else String c (until_nul s')
  end.

Fixpoint nul_free (s : string) : bool :=
  match s with
  | EmptyString => true
  | String c s' => negb (Ascii.eqb c zero) && nul_free s'
  end.

(** The matcher on the characters that are read: [%] matches any run of
    characters, [_] any one character, other characters match themselves up
    to ASCII case; there is no escape character. *)
Fixpoint like_text (pat s : string) : bool :=
  match pat with
  | EmptyString => match s with EmptyString => true | String _ _ => false end
  | String c pat' =>
      if is_percent c then
        (fix skip (s : string) : bool :=
           like_text pat' s ||
           match s with
           | EmptyString => false
           | String _ s' => skip s'
           end) s
      else
        match s with
        | EmptyString => false
        | String d s' =>
            (is_underscore c || Ascii.eqb (to_lower c) (to_lower d)) && like_text pat' s'
        end
  end.

(** [s LIKE pat] with SQLite's defaults, for a pattern within SQLite's length
    limit (see [pattern_fits] below). *)
Definition like (pat s : string) : bool := like_text (until_nul pat) (until_nul s).

(** [column.contains(q)]: SQLAlchemy renders [column LIKE '%' || q || '%'],
    with no escaping of [q] ([autoescape] is off by default). *)
Definition contains (column q : string) : bool :=
  like ("%" ++ q ++ "%") column.

(** The same on a nullable column: [NULL LIKE _] is [NULL], which a [WHERE]
    clause treats as false. *)
Definition contains_null (column : option string) (q : string) : bool :=
  match column with Some s => contains s q | None => false end.

(** [column = v] on a nullable text column (binary collation: the whole
    texts are compared, NUL characters included). *)
Definition eq_null (column : option string) (v : string) : bool :=
  match column with Some s => String.eqb s v | None => false end.

(** [ORDER BY]: rows sorted by [leb]; insertion from the right keeps rows
    with equal keys in table order (SQLite leaves their order open; nothing
    below depends on it). *)
Fixpoint insert_by {A : Type} (leb : A -> A -> bool) (x : A) (l : list A) : list A :=
  match l with
  | [] => [x]
  | y :: l' => if leb x y then x :: l else y :: insert_by leb x l'
  end.

Definition order_by {A : Type} (leb : A -> A -> bool) (rows : list A) : list A :=
  fold_right (insert_by leb) [] rows.

Definition limit {A : Type} (n : nat) (rows : list A) : list A := firstn n rows.

(** Ascending order on a nullable datetime column: SQLite puts [NULL] first. *)
Definition null_datetime_leb (a b : option datetime) : bool :=
  match a, b with
  | None, _ => true
  | Some _, None => false
  | Some x, Some y => datetime_leb x y
  end.

(** What a [REAL] column keeps of a bound float: SQLite stores a NaN as
    [NULL] and a negative zero as zero. *)
Definition real_stored (v : option spec_float) : option spec_float :=
  match v with
  | Some S754_nan => None
  | Some (S754_zero _) => Some (S754_zero false)
  | _ => v
  end.

(** An [INTEGER] parameter is a signed 64-bit number; binding a Python [int]
    outside that range raises [OverflowError]. *)
Definition fits_INTEGER (n : Z) : bool := (- 2 ^ 63 <=? n) && (n <? 2 ^ 63).

(** [INTEGER PRIMARY KEY] without [AUTOINCREMENT]: the next rowid is one more
    than the largest in the table, 1 for an empty table. *)
Definition next_id (ids : list Z) : Z := 1 + fold_right Z.max 0 ids.

End Sql.

(* ------------------------------------------------------------------ *)
(** ** Models *)

(** Nullable columns are [option]s.  [created_at] has [default=utcnow] and no
    constructor call of the program passes it, so it is always populated. *)

Module User.
Record t : Type := mk {
  id : Z;
  username : string;
  email : string;
  password_hash : string;
  role : string;
  created_at : datetime
}.
End User.

Module Profile.
Record t : Type := mk {
  id : Z;
  user_id : option Z;
  full_name : option string;
  phone : option string;
  location : option string;
  bio : option string
}.
End Profile.

Module Listing.
Record t : Type := mk {
  id : Z;
  title : string;
  description : option string;
  owner_id : option Z;
  category : option string;
  price : option spec_float;
  quantity : option string;
  location : option string;
  created_at : datetime
}.
End Listing.

Module Message.
Record t : Type := mk {
  id : Z;
  sender_id : option Z;
  receiver_id : option Z;
  subject : option string;
  body : option string;
  created_at : datetime
}.
End Message.

Module Event.
Record t : Type := mk {
  id : Z;
  title : option string;
  description : option string;
  date : option datetime;
  organizer_id : option Z;
  created_at : datetime
}.
End Event.

(** The persisted store: one list of rows per table, in insertion order. *)
Record Db : Type := mkDb {
  users : list User.t;
  profiles : list Profile.t;
  listings : list Listing.t;
  messages : list Message.t;
  events : list Event.t
}.

Definition add_user (db : Db) (u : User.t) : Db :=
  mkDb (users db ++ [u]) (profiles db) (listings db) (messages db) (events db).
Definition add_profile (db : Db) (p : Profile.t) : Db :=
  mkDb (users db) (profiles db ++ [p]) (listings db) (messages db) (events db).
Definition add_listing (db : Db) (l : Listing.t) : Db :=
  mkDb (users db) (profiles db) (listings db ++ [l]) (messages db) (events db).
Definition add_message (db : Db) (m : Message.t) : Db :=
  mkDb (users db) (profiles db) (listings db) (messages db ++ [m]) (events db).
Definition add_event (db : Db) (e : Event.t) : Db :=
  mkDb (users db) (profiles db) (listings db) (messages db) (events db ++ [e]).

(** [User.query.get(id)] and the [get_or_404] built on it, for an [id] that
    SQLite can bind ([Sql.fits_INTEGER]). *)
Definition get_user (db : Db) (user_id : Z) : option User.t :=
  find (fun u => User.id u =? user_id) (users db).

(** [User.query.filter_by(username=name).first()]. *)
Definition user_by_username (db : Db) (name : string) : option User.t :=
  find (fun u => String.eqb (User.username u) name) (users db).

(** The relationship [User.profile] ([uselist=False]): the profile row whose
    [user_id] is the user's id, if any. *)
Definition profile_of (db : Db) (u : User.t) : option Profile.t :=
  find (fun p => match Profile.user_id p with
                 | Some i => i =? User.id u
                 | None => false
                 end) (profiles db).

(** The relationship [Listing.owner]. *)
Definition owner_of (db : Db) (l : Listing.t) : option User.t :=
  match Listing.owner_id l with
  | Some i => get_user db i
  | None => None
  end.

(** [Listing.created_at.desc()] and [Event.date.asc()] as sort orders. *)
Definition created_at_desc (a b : Listing.t) : bool :=
  datetime_leb (Listing.created_at b) (Listing.created_at a).

Definition date_asc (a b : Event.t) : bool :=
  Sql.null_datetime_leb (Event.date a) (Event.date b).

(* ------------------------------------------------------------------ *)
(** ** Password hashing: [passlib.hash.bcrypt] *)

Module Passlib.

(** The bcrypt key-derivation itself (Blowfish key schedule, 2^12 rounds) is
    the backend's; it is taken as a parameter: from the 22-character salt and
    the key bytes to the checksum text. *)
Class BcryptBackend : Type := { bcrypt_digest : string -> string -> string }.

(** UTF-8 of a code point below 256: one byte below 128, two bytes above. *)
Definition utf8_char (c : ascii) : string :=
  let n := N_of_ascii c in
  if (n <? 128)%N then String c EmptyString
  else String (ascii_of_N (192 + n / 64))
         (String (ascii_of_N (128 + n mod 64)) EmptyString).

Fixpoint utf8 (s : string) : string :=
  match s with
  | EmptyString => EmptyString
  | String c s' => utf8_char c ++ utf8 s'
  end.

Fixpoint has_nul (bytes : string) : bool :=
  match bytes with
  | EmptyString => false
  | String c rest => Ascii.eqb c zero || has_nul rest
  end.

(** bcrypt reads at most the first 72 bytes of the key. *)
Definition truncate72 (bytes : string) : string := substring 0 72 bytes.

Definition ident_rounds : string := "$2b$12$".

Fixpoint strip_prefix (p s : string) : option string :=
  match p with
  | EmptyString => Some s
  | String c p' =>
      match s with
      | String d s' => if Ascii.eqb c d then strip_prefix p' s' else None
      | EmptyString => None
      end
  end.

(** passlib refuses a secret longer than [MAX_PASSWORD_SIZE] with
    [PasswordSizeError]: [hash] and [verify] check the text they are given,
    in characters, before anything else, and the bcrypt handler checks the
    encoded key, in bytes, before it looks for a NUL. *)
Definition MAX_PASSWORD_SIZE : Z := 4096.

Definition validate_secret (secret : string) : bool :=
  Z.of_nat (String.length secret) <=? MAX_PASSWORD_SIZE.

(** [bcrypt.hash(secret)] with a freshly drawn [salt]; [None] stands for the
    exception passlib raises on a secret that is too long or has a NUL
    byte. *)
Definition hash `{BcryptBackend} (salt secret : string) : option string :=
  if negb (validate_secret secret) then None
  else
    let key := utf8 secret in
    if negb (validate_secret key) then None
    else if has_nul key then None
    else Some (ident_rounds ++ salt ++ bcrypt_digest salt (truncate72 key)).

(** [bcrypt.verify(secret, hash)]: the salt is read back from the stored text
    and the checksum recomputed and compared; [None] stands for an exception
    (a secret that is too long or has a NUL byte, or a stored text that is
    not a [$2b$12$] hash, which this program never stores). *)
Definition verify `{BcryptBackend} (secret stored : string) : option bool :=
  if negb (validate_secret secret) then None
  else
    let key := utf8 secret in
    if negb (validate_secret key) then None
    else if has_nul key then None
    else
      match strip_prefix ident_rounds stored with
      | None => None
      | Some rest =>
          if (String.length rest <? 22)%nat then None
          else
            let salt := substring 0 22 rest in
            let checksum := substring 22 (String.length rest - 22) rest in
            Some (String.eqb (bcrypt_digest salt (truncate72 key)) checksum)
      end.

End Passlib.

(** [User.set_password]: the text stored in [password_hash]. *)
Definition set_password `{Passlib.BcryptBackend} (salt password : string) : option string :=
  Passlib.hash salt password.

(** [User.check_password]. *)
Definition check_password `{Passlib.BcryptBackend} (password_hash password : string)
  : option bool :=
  Passlib.verify password password_hash.

(* ------------------------------------------------------------------ *)
(** ** [datetime.strptime(text, "%Y-%m-%d")] *)

Module Strptime.

Definition digit (c : ascii) : option Z :=
  let n := Z.of_N (N_of_ascii c) in
  if (48 <=? n) && (n <=? 57) then Some (n - 48) else None.

(** A character class [[lo-hi]] of digits. *)
Definition in_class (lo hi : Z) (c : ascii) : option Z :=
  match digit c with
  | Some v => if (lo <=? v) && (v <=? hi) then Some v else None
  | None => None
  end.

Definition orelse {A : Type} (x y : option A) : option A :=
  match x with Some _ => x | None => y end.

(** One alternative of two digit classes, then the rest of the pattern [k]. *)
Definition two {R : Type} (lo1 hi1 lo2 hi2 : Z) (s : string)
    (k : Z -> string -> option R) : option R :=
  match s with
  | String a (String b rest) =>
      match in_class lo1 hi1 a, in_class lo2 hi2 b with
      | Some x, Some y => k (10 * x + y) rest
      | _, _ => None
      end
  | _ => None
  end.

Definition one {R : Type} (lo hi : Z) (s : string)
    (k : Z -> string -> option R) : option R :=
  match s with
  | String a rest =>
      match in_class lo hi a with
      | Some x => k x rest
      | None => None
      end
  | EmptyString => None
  end.

Definition lit {R : Type} (c : ascii) (s : string) (k : string -> option R) : option R :=
  match s with
  | String d rest => if Ascii.eqb c d then k rest else None
  | EmptyString => None
  end.

(** [(?P<Y>\d\d\d\d)] *)
Definition re_Y {R : Type} (s : string) (k : Z -> string -> option R) : option R :=
  match s with
  | String a (String b (String c (String d rest))) =>
      match digit a, digit b, digit c, digit d with
      | Some x1, Some x2, Some x3, Some x4 =>
          k (1000 * x1 + 100 * x2 + 10 * x3 + x4) rest
      | _, _, _, _ => None
      end
  | _ => None
  end.

(** [(?P<m>1[0-2]|0[1-9]|[1-9])]: alternatives in order, the next one tried
    when the rest of the pattern fails after the previous. *)
Definition re_m {R : Type} (s : string) (k : Z -> string -> option R) : option R :=
  orelse (two 1 1 0 2 s k) (orelse (two 0 0 1 9 s k) (one 1 9 s k)).

(** [(?P<d>3[0-1]|[1-2]\d|0[1-9]|[1-9]| [1-9])] *)
Definition re_d {R : Type} (s : string) (k : Z -> string -> option R) : option R :=
  orelse (two 3 3 0 1 s k)
    (orelse (two 1 2 0 9 s k)
       (orelse (two 0 0 1 9 s k)
          (orelse (one 1 9 s k)
             (lit " " s (fun s' => one 1 9 s' k))))).

(** [format_regex.match(text)]: the groups and the unmatched remainder. *)
Definition regex_match (s : string) : option (Z * Z * Z * string) :=
  re_Y s (fun y s1 =>
  lit "-" s1 (fun s2 =>
  re_m s2 (fun m s3 =>
  lit "-" s3 (fun s4 =>
  re_d s4 (fun d rest => Some (y, m, d, rest)))))).

Definition is_leap (y : Z) : bool :=
  (y mod 4 =? 0) && (negb (y mod 100 =? 0) || (y mod 400 =? 0)).

Definition days_in_month (y m : Z) : Z :=
  if m =? 2 then (if is_leap y then 29 else 28)
  else if (m =? 4) || (m =? 6) || (m =? 9) || (m =? 11) then 30
  else 31.

(** The checks of the [date] constructor ([MINYEAR = 1], [MAXYEAR = 9999]). *)
Definition valid_date (y m d : Z) : bool :=
  (1 <=? y) && (y <=? 9999) && (1 <=? m) && (m <=? 12) &&
  (1 <=? d) && (d <=? days_in_month y m).

(** [datetime.strptime(s, "%Y-%m-%d")]; [None] stands for [ValueError]: no
    match, unconverted data left over, or a day that is not in the calendar. *)
Definition strptime (s : string) : option datetime :=
  match regex_match s with
  | None => None
  | Some (y, m, d, rest) =>
      if str_truthy rest then None
      else if valid_date y m d then Some (mkDatetime y m d 0 0 0 0)
      else None
  end.

End Strptime.

(* ------------------------------------------------------------------ *)
(** ** Forms *)

Inductive RoleEnum : Type :=
| FARMER | PRODUCER | CONSUMER | RESEARCHER | VET | TRANSPORTER | ENTREPRENEUR | GOV.

Definition RoleEnum_value (r : RoleEnum) : string :=
  match r with
  | FARMER => "farmer"
  | PRODUCER => "producer"
  | CONSUMER => "consumer"
  | RESEARCHER => "researcher"
  | VET => "vet"
  | TRANSPORTER => "transporter"
  | ENTREPRENEUR => "entrepreneur"
  | GOV => "gov"
  end.

Definition RoleEnum_members : list RoleEnum :=
  [FARMER; PRODUCER; CONSUMER; RESEARCHER; VET; TRANSPORTER; ENTREPRENEUR; GOV].

Inductive http_method : Type := GET | POST.

(** A request to a form view: its method, whether the CSRF token that
    [FlaskForm] adds checks out, and the submitted fields. *)
Record Request (F : Type) : Type := mkRequest {
  method : http_method;
  csrf_ok : bool;
  form : F
}.
Arguments mkRequest {F} _ _ _.
Arguments method {F} _.
Arguments csrf_ok {F} _.
Arguments form {F} _.

Module Validators.

(** The [Email()] validator delegates to the [email_validator] package; it is
    taken as a parameter. *)
Class EmailValidator : Type := { Email : string -> bool }.

(** [InputRequired()]: the submitted text is there and not empty.  A text
    field that was not submitted and one submitted empty are both refused, so
    a required field is modelled by its text, empty when missing. *)
Definition InputRequired (raw : string) : bool := str_truthy raw.

(** [Length(min, max)] *)
Definition Length (min max : Z) (data : string) : bool :=
  let n := Z.of_nat (String.length data) in
  (min <=? n) && (n <=? max).

(** [SelectField]: the value is one of the choices. *)
Definition choice (choices : list string) (data : string) : bool :=
  existsb (String.eqb data) choices.

End Validators.

(** What a [FloatField] makes of its input. *)
Inductive float_input : Type :=
| FloatMissing                  (* the field was not submitted *)
| FloatValue (x : spec_float)   (* [float(text)] returned [x] *)
| FloatInvalid.                 (* [float(text)] raised, the empty text included *)

Definition float_data (i : float_input) : option spec_float :=
  match i with FloatValue x => Some x | _ => None end.

Definition float_processed (i : float_input) : bool :=
  match i with FloatInvalid => false | _ => true end.

Module RegisterForm.
Record t : Type := mk {
  username : string;
  email : string;
  password : string;
  role : string
}.
Definition validate `{Validators.EmailValidator} (f : t) : bool :=
  Validators.InputRequired (username f) && Validators.Length 3 80 (username f) &&
  Validators.InputRequired (email f) && Validators.Email (email f) &&
  Validators.InputRequired (password f) && Validators.Length 6 128 (password f) &&
  Validators.choice (map RoleEnum_value RoleEnum_members) (role f).
End RegisterForm.

Module ListingForm.
Record t : Type := mk {
  title : string;
  description : string;
  category : string;
  price : float_input;
  quantity : option string;
  location : option string
}.
Definition choices : list string := ["milk"; "transport"; "vet"; "research"; "other"].
Definition validate (f : t) : bool :=
  Validators.InputRequired (title f) && Validators.Length 2 200 (title f) &&
  Validators.InputRequired (description f) && Validators.Length 10 2000 (description f) &&
  Validators.choice choices (category f) &&
  float_processed (price f).
End ListingForm.

Module MessageForm.
Record t : Type := mk {
  receiver : string;
  subject : string;
  body : string
}.
Definition validate (f : t) : bool :=
  Validators.InputRequired (receiver f) &&
  Validators.InputRequired (subject f) && Validators.Length 1 200 (subject f) &&
  Validators.InputRequired (body f) && Validators.Length 1 2000 (body f).
End MessageForm.

Module EventForm.
Record t : Type := mk {
  title : string;
  description : string;
  date : string
}.
Definition validate (f : t) : bool :=
  Validators.InputRequired (title f) && Validators.Length 2 200 (title f) &&
  Validators.InputRequired (description f) && Validators.Length 10 2000 (description f) &&
  Validators.InputRequired (date f).
End EventForm.

(** [form.validate_on_submit()] *)
Definition validate_on_submit {F : Type} (validate : F -> bool) (req : Request F) : bool :=
  match method req with
  | POST => csrf_ok req && validate (form req)
  | GET => false
  end.

(* ------------------------------------------------------------------ *)
(** ** Responses *)

(** A value passed to a template. *)
Inductive ctx_value : Type :=
| CtxStr (s : string)
| CtxListings (rows : list Listing.t)
| CtxEvents (rows : list Event.t)
| CtxForm.   (* the bound form, with the errors of its fields *)

Inductive Response : Type :=
| Render (template : string) (context : list (string * ctx_value))
| Redirect (endpoint : string)
| Json (body : json)
| NotFound        (* 404 *)
| ServerError.    (* 500: an exception left the view *)

(** What a view that may write leaves behind. *)
Record Result : Type := mkResult {
  response : Response;
  flashed : list (string * string);
  store : Db
}.

(** [@login_required]: without an identity Flask-Login flashes its message
    and redirects to [login_manager.login_view]. *)
Definition login_required (current_user : option User.t) (db : Db)
    (view : User.t -> Result) : Result :=
  match current_user with
  | Some u => view u
  | None => mkResult (Redirect "login")
              [("Please log in to access this page.", "message")] db
  end.

(* ------------------------------------------------------------------ *)
(** ** Routes *)

(** [GET /]: the rows of [listings] and [events] the template receives.
    The two listing queries are modelled for a [q] whose pattern SQLite
    accepts ([pattern_fits] below); a longer one makes the query fail on a
    table that has a row. *)
Definition index_listings (db : Db) (q cat : string) : list Listing.t :=
  let listings0 := listings db in
  let listings1 :=
    if str_truthy q then
      filter (fun l => Sql.contains (Listing.title l) q
                       || Sql.contains_null (Listing.description l) q) listings0
    else listings0 in
  let listings2 :=
    if str_truthy cat then
      filter (fun l => Sql.eq_null (Listing.category l) cat) listings1
    else listings1 in
  Sql.limit 30 (Sql.order_by created_at_desc listings2).

Definition index_events (db : Db) : list Event.t :=
  Sql.limit 10 (Sql.order_by date_asc (events db)).


Definition register `{Passlib.BcryptBackend} `{Validators.EmailValidator}
    (db : Db) (now : datetime) (salt : string) (req : Request RegisterForm.t) : Result :=
  let f := form req in
  if validate_on_submit RegisterForm.validate req then
    if existsb (fun u => String.eqb (User.username u) (RegisterForm.username f)
                         || String.eqb (User.email u) (RegisterForm.email f)) (users db)
    then mkResult (Redirect "register") [("Username or email already exists", "danger")] db
    else
      match set_password salt (RegisterForm.password f) with
      | None => mkResult ServerError [] db
      | Some h =>
          let u := User.mk (Sql.next_id (map User.id (users db)))
                     (RegisterForm.username f) (RegisterForm.email f) h
                     (RegisterForm.role f) now in
          let db1 := add_user db u in
          (* create empty profile *)
          let prof := Profile.mk (Sql.next_id (map Profile.id (profiles db1)))
                        (Some (User.id u)) (Some "") (Some "") (Some "") (Some "") in
          let db2 := add_profile db1 prof in
          mkResult (Redirect "login") [("Account created. Please log in.", "success")] db2
      end
  else mkResult (Render "register.html" [("form", CtxForm)]) [] db.

Definition new_listing (db : Db) (now : datetime) (current_user : option User.t)
    (req : Request ListingForm.t) : Result :=
  login_required current_user db (fun cu =>
    let f := form req in
    if validate_on_submit ListingForm.validate req then
      let l := Listing.mk (Sql.next_id (map Listing.id (listings db)))
                 (ListingForm.title f)
                 (Some (ListingForm.description f))
                 (Some (User.id cu))
                 (Some (ListingForm.category f))
                 (Sql.real_stored (or_None (float_data (ListingForm.price f))))
                 (ListingForm.quantity f)
                 (ListingForm.location f)
                 now in
      mkResult (Redirect "dashboard") [("Listing created.", "success")] (add_listing db l)
    else mkResult (Render "new_listing.html" [("form", CtxForm)]) [] db).

Definition new_message (db : Db) (now : datetime) (current_user : option User.t)
    (req : Request MessageForm.t) : Result :=
  login_required current_user db (fun cu =>
    let f := form req in
    if validate_on_submit MessageForm.validate req then
      match user_by_username db (MessageForm.receiver f) with
      | None => mkResult (Redirect "new_message") [("Receiver not found.", "danger")] db
      | Some receiver =>
          let msg := Message.mk (Sql.next_id (map Message.id (messages db)))
                       (Some (User.id cu))
                       (Some (User.id receiver))
                       (Some (MessageForm.subject f))
                       (Some (MessageForm.body f))
                       now in
          mkResult (Redirect "dashboard") [("Message sent.", "success")] (add_message db msg)
      end
    else mkResult (Render "new_message.html" [("form", CtxForm)]) [] db).

Definition new_event (db : Db) (now : datetime) (current_user : option User.t)
    (req : Request EventForm.t) : Result :=
  login_required current_user db (fun cu =>
    let f := form req in
    if validate_on_submit EventForm.validate req then
      match Strptime.strptime (EventForm.date f) with
      | None =>
          mkResult (Redirect "new_event")
            [("Invalid date format. Use YYYY-MM-DD.", "danger")] db
      | Some dt =>
          let ev := Event.mk (Sql.next_id (map Event.id (events db)))
                      (Some (EventForm.title f))
                      (Some (EventForm.description f))
                      (Some dt)
                      (Some (User.id cu))
                      now in
          mkResult (Redirect "dashboard") [("Event created.", "success")] (add_event db ev)
      end
    else mkResult (Render "new_event.html" [("form", CtxForm)]) [] db).

(** [GET /api/listings]: the rows the loop runs over. *)
Definition api_listings_rows (db : Db) (q cat : string) : list Listing.t :=
  let qry0 := listings db in
  let qry1 :=
    if str_truthy q then
      filter (fun l => Sql.contains (Listing.title l) q
                       || Sql.contains_null (Listing.description l) q) qry0
    else qry0 in
  let qry2 :=
    if str_truthy cat then
      filter (fun l => Sql.eq_null (Listing.category l) cat) qry1
    else qry1 in
  Sql.limit 200 (Sql.order_by created_at_desc qry2).

(** The dictionary built for one row; [l.owner.id] raises when the row has
    no owner. *)
Definition listing_json (db : Db) (l : Listing.t) : option json :=
  match owner_of db l with
  | None => None
  | Some o =>
      Some (JObj [("id", JInt (Listing.id l)); ("title", JStr (Listing.title l));
                  ("description", json_of_opt_str (Listing.description l));
                  ("category", json_of_opt_str (Listing.category l));
                  ("price", json_of_opt_float (Listing.price l));
                  ("quantity", json_of_opt_str (Listing.quantity l));
                  ("location", json_of_opt_str (Listing.location l));
                  ("owner", JObj [("id", JInt (User.id o));
                                  ("username", JStr (User.username o))])])
  end.

Fixpoint results_loop (db : Db) (rows : list Listing.t) : option (list json) :=
  match rows with
  | [] => Some []
  | l :: rest =>
      match listing_json db l, results_loop db rest with
      | Some j, Some js => Some (j :: js)
      | _, _ => None
      end
  end.

Definition api_listings (db : Db) (q cat : string) : Response :=
  match results_loop db (api_listings_rows db q cat) with
  | Some results => Json (JArr results)
  | None => ServerError
  end.

(** [GET /api/users/<int:user_id>]: the view function, once the id is bound
    to the query. *)
Definition api_user (db : Db) (user_id : Z) : Response :=
  match get_user db user_id with
  | None => NotFound
  | Some u =>
      let profile := profile_of db u in
      Json (JObj
        [("id", JInt (User.id u)); ("username", JStr (User.username u));
         ("email", JStr (User.email u)); ("role", JStr (User.role u));
         ("profile", JObj
            [("full_name", match profile with
                           | Some p => json_of_opt_str (Profile.full_name p)
                           | None => JStr "" end);
             ("phone", match profile with
                       | Some p => json_of_opt_str (Profile.phone p)
                       | None => JStr "" end);
             ("location", match profile with
                          | Some p => json_of_opt_str (Profile.location p)
                          | None => JStr "" end);
             ("bio", match profile with
                     | Some p => json_of_opt_str (Profile.bio p)
                     | None => JStr "" end)])])
  end.

(** The ids that a route with an [<int:...>] segment hands to its view and
    that SQLite binds: the converter matches a run of digits, so none is
    negative, and SQLite takes a signed 64-bit integer. *)
Definition bindable_id (n : Z) : bool := (0 <=? n) && Sql.fits_INTEGER n.

(** The same route from the URL on: no URL of the route has a negative id
    (the answer is 404), and binding an id that does not fit a signed 64-bit
    integer raises [OverflowError], which [handle_500] answers. *)
Definition api_user_route (db : Db) (user_id : Z) : Response :=
  if user_id <? 0 then NotFound
  else if Sql.fits_INTEGER user_id then api_user db user_id
  else ServerError.

(* ------------------------------------------------------------------ *)
(** ** The vocabulary of the specification *)

(** [q] occurs in [s] as a substring, up to the case of ASCII letters. *)
Definition ci_substring (q s : string) : Prop :=
  exists pre m post, s = pre ++ m ++ post /\ Sql.lower m = Sql.lower q.

Fixpoint ci_prefixb (q s : string) : bool :=
  match q with
  | EmptyString => true
  | String c q' =>
      match s with
      | EmptyString => false
      | String d s' => Ascii.eqb (Sql.to_lower c) (Sql.to_lower d) && ci_prefixb q' s'
      end
  end.

(** The same as a test. *)
Fixpoint ci_substringb (q s : string) : bool :=
  ci_prefixb q s ||
  match s with
  | EmptyString => false
  | String _ s' => ci_substringb q s'
  end.

(** [q] has none of the two characters [LIKE] reads as wildcards. *)
Fixpoint no_wildcard (q : string) : bool :=
  match q with
  | EmptyString => true
  | String c q' => negb (Sql.is_percent c) && negb (Sql.is_underscore c) && no_wildcard q'
  end.

(** A text in the strict shape YYYY-MM-DD (four, two and two digits) that
    names a day of the calendar. *)
Definition strict_ymd (s : string) : option (Z * Z * Z) :=
  match s with
  | String y1 (String y2 (String y3 (String y4 (String h1
      (String m1 (String m2 (String h2 (String d1 (String d2 EmptyString))))))))) =>
      match Strptime.digit y1, Strptime.digit y2, Strptime.digit y3, Strptime.digit y4,
            Strptime.digit m1, Strptime.digit m2, Strptime.digit d1, Strptime.digit d2 with
      | Some a, Some b, Some c, Some d, Some e, Some f, Some g, Some h =>
          let y := 1000 * a + 100 * b + 10 * c + d in
          let m := 10 * e + f in
          let dd := 10 * g + h in
          if Ascii.eqb h1 "-" && Ascii.eqb h2 "-" && Strptime.valid_date y m dd
          then Some (y, m, dd) else None
      | _, _, _, _, _, _, _, _ => None
      end
  | _ => None
  end.

(** A price below zero: a number, finite or infinite, that compares less
    than zero (a NaN and a negative zero do not). *)
Definition float_negative (x : spec_float) : bool :=
  match x with
  | S754_zero _ => false
  | S754_infinity s => s
  | S754_nan => false
  | S754_finite s _ _ => s
  end.

(** SQLite refuses a [LIKE] pattern of more than 50000 bytes
    ([SQLITE_MAX_LIKE_PATTERN_LENGTH]) when it evaluates it on a row; the
    bytes that follow a NUL count too.  [pattern_fits q]: the pattern of
    [column.contains(q)] is within the limit. *)
Definition pattern_fits (q : string) : bool :=
  Z.of_nat (String.length (Passlib.utf8 ("%" ++ q ++ "%"))) <=? 50000.

(** The [WHERE] clause the two listing queries build from [q] and the
    category parameter: a falsy parameter adds no condition. *)
Definition row_selected (q cat : string) (l : Listing.t) : bool :=
  (negb (str_truthy q)
   || Sql.contains (Listing.title l) q
   || Sql.contains_null (Listing.description l) q)
  && (negb (str_truthy cat) || Sql.eq_null (Listing.category l) cat).

(* ------------------------------------------------------------------ *)
(** ** Sample data for the examples *)

Module Sample.

(** Stand-ins for the two collaborators the program takes from libraries:
    a validator that asks for an [@], and a checksum that is not bcrypt. *)
Definition email_validator : Validators.EmailValidator :=
  {| Validators.Email := fun s => ci_substringb "@" s |}.

Definition backend : Passlib.BcryptBackend :=
  {| Passlib.bcrypt_digest := fun salt key => key ++ salt |}.

Definition salt : string := "abcdefghijklmnopqrstuv".

Definition noon (d : Z) : datetime := mkDatetime 2025 3 d 12 0 0 0.

Definition farmer1 : User.t :=
  User.mk 1 "farmer1" "farmer1@example.com" "$2b$12$abcdefghijklmnopqrstuvfarmerpass"
    "farmer" (noon 1).
Definition consumer1 : User.t :=
  User.mk 2 "consumer1" "consumer1@example.com" "$2b$12$abcdefghijklmnopqrstuvconsumerpass"
    "consumer" (noon 1).
(** A user whose profile row is missing. *)
Definition vet1 : User.t :=
  User.mk 3 "vet1" "vet1@example.com" "$2b$12$abcdefghijklmnopqrstuvvetpass"
    "vet" (noon 1).

Definition profile1 : Profile.t :=
  Profile.mk 1 (Some 1) (Some "Farmer1") (Some "N/A") (Some "Rajasthan") (Some "Role: farmer").
Definition profile2 : Profile.t :=
  Profile.mk 2 (Some 2) (Some "Consumer1") (Some "N/A") (Some "Rajasthan") (Some "Role: consumer").

(** 1.5 and 0.5 as binary floats. *)
Definition one_and_a_half : spec_float := S754_finite false 3 (-1).
Definition a_half : spec_float := S754_finite false 1 (-1).
Definition minus_five : spec_float := S754_finite true 5 0.

Definition raw_milk : Listing.t :=
  Listing.mk 1 "Raw camel milk - weekly supply (50 L)"
    (Some "High-quality raw camel milk from free-range camels.")
    (Some 1) (Some "milk") (Some one_and_a_half) (Some "50 L/week")
    (Some "Bikaner, Rajasthan") (noon 2).
Definition cold_chain : Listing.t :=
  Listing.mk 2 "Transport service for milk (cold chain)"
    (Some "Refrigerated transport available across districts.")
    (Some 1) (Some "transport") (Some a_half) (Some "per km")
    (Some "Rajasthan statewide") (noon 3).
Definition health_check : Listing.t :=
  Listing.mk 3 "Veterinary health check & vaccination"
    (Some "Experienced camel vet offering herd health checkups.")
    (Some 3) (Some "vet") None (Some "per visit") (Some "Rajasthan") (noon 4).

Definition workshop : Event.t :=
  Event.mk 1 (Some "Camel Conservation Workshop")
    (Some "Field workshop on camel nutrition and conservation.")
    (Some (mkDatetime 2025 4 20 0 0 0 0)) (Some 1) (noon 5).
Definition fair : Event.t :=
  Event.mk 2 (Some "Pushkar camel fair") (Some "Annual fair and livestock market.")
    (Some (mkDatetime 2025 4 2 0 0 0 0)) (Some 2) (noon 6).

Definition db : Db :=
  mkDb [farmer1; consumer1; vet1] [profile1; profile2]
       [raw_milk; cold_chain; health_check] [] [workshop; fair].

Definition post {F : Type} (f : F) : Request F := mkRequest POST true f.

(** Two passwords of 73 characters that differ in the last one only. *)
Definition seventy_two_a : string := string_of_list_ascii (repeat "a"%char 72).
Definition long_password : string := seventy_two_a ++ "b".
Definition other_long_password : string := seventy_two_a ++ "c".

(** A password of 4097 characters. *)
Definition oversized_password : string := string_of_list_ascii (repeat "a"%char 4097).

End Sample.

(* ------------------------------------------------------------------ *)
(** ** The other routes *)

(** [RoleEnum(value)]: the member with that value; [None] stands for the
    [ValueError] of a value that no member has. *)
Definition RoleEnum_of_value (value : string) : option RoleEnum :=
  find (fun r => String.eqb (RoleEnum_value r) value) RoleEnum_members.

(** [User.get_role] *)
Definition get_role (u : User.t) : option RoleEnum := RoleEnum_of_value (User.role u).

(** [column = v] on a nullable integer column. *)
Definition id_eq_null (column : option Z) (v : Z) : bool :=
  match column with Some i => i =? v | None => false end.

Definition message_created_at_desc (a b : Message.t) : bool :=
  datetime_leb (Message.created_at b) (Message.created_at a).

Module LoginForm.
Record t : Type := mk {
  username : string;
  password : string
}.
Definition validate (f : t) : bool :=
  Validators.InputRequired (username f) && Validators.InputRequired (password f).
End LoginForm.

(** What a view that touches the session leaves behind: [logged_in] is the
    user handed to [login_user], if it was called. *)
Record SessionResult : Type := mkSessionResult {
  session_response : Response;
  session_flashed : list (string * string);
  logged_in : option User.t
}.

(** [POST /login].  [u and u.check_password(...)] does not look at the
    password when no user has the name. *)
Definition login `{Passlib.BcryptBackend} (db : Db) (req : Request LoginForm.t)
  : SessionResult :=
  let f := form req in
  if validate_on_submit LoginForm.validate req then
    match user_by_username db (LoginForm.username f) with
    | Some u =>
        match check_password (User.password_hash u) (LoginForm.password f) with
        | None => mkSessionResult ServerError [] None
        | Some true =>
            mkSessionResult (Redirect "dashboard") [("Logged in.", "success")] (Some u)
        | Some false =>
            mkSessionResult (Render "login.html" [("form", CtxForm)])
              [("Invalid username or password.", "danger")] None
        end
    | None =>
        mkSessionResult (Render "login.html" [("form", CtxForm)])
          [("Invalid username or password.", "danger")] None
    end
  else mkSessionResult (Render "login.html" [("form", CtxForm)]) [] None.

(** The answer of a read-only view, with the values its template receives. *)
Inductive Page (C : Type) : Type :=
| Shown (template : string) (context : C)
| SentTo (endpoint : string) (flashes : list (string * string))
| Missing.   (* 404 *)
Arguments Shown {C} _ _.
Arguments SentTo {C} _ _.
Arguments Missing {C}.

Record DashboardContext : Type := mkDashboard {
  my_listings : list Listing.t;
  inbox : list Message.t;
  organized : list Event.t
}.

(** [GET /dashboard], behind [@login_required]. *)
Definition dashboard (db : Db) (current_user : option User.t) : Page DashboardContext :=
  match current_user with
  | None => SentTo "login" [("Please log in to access this page.", "message")]
  | Some cu =>
      Shown "dashboard.html"
        (mkDashboard
           (filter (fun l => id_eq_null (Listing.owner_id l) (User.id cu)) (listings db))
           (Sql.limit 20
              (Sql.order_by message_created_at_desc
                 (filter (fun m => id_eq_null (Message.receiver_id m) (User.id cu))
                    (messages db))))
           (filter (fun e => id_eq_null (Event.organizer_id e) (User.id cu)) (events db)))
  end.

(** [GET /listing/<int:listing_id>], for an id that the route matches and
    SQLite can bind ([bindable_id]). *)
Definition view_listing (db : Db) (listing_id : Z) : Page Listing.t :=
  match find (fun l => Listing.id l =? listing_id) (listings db) with
  | Some l => Shown "listing.html" l
  | None => Missing
  end.

(** What the default URL converter takes for [<username>]: one path
    segment, which is not empty and has no [/]. *)
Fixpoint no_slash (s : string) : bool :=
  match s with
  | EmptyString => true
  | String c s' => negb (Ascii.eqb c "/") && no_slash s'
  end.

Definition path_segment (s : string) : bool := str_truthy s && no_slash s.

(** [GET /user/<username>], for a [username] the route matches
    ([path_segment]). *)
Definition view_user (db : Db) (username : string) : Page User.t :=
  match user_by_username db username with
  | Some u => Shown "user.html" u
  | None => Missing
  end.

(** The text that [bcrypt.hash] writes for a secret it accepts. *)
Definition hash_text `{Passlib.BcryptBackend} (salt secret : string) : string :=
  Passlib.ident_rounds ++ salt ++
  Passlib.bcrypt_digest salt (Passlib.truncate72 (Passlib.utf8 secret)).

(* ------------------------------------------------------------------ *)
(** ** Seed data *)

Module Seed.

(** [str.title()] on ASCII text, which is all the program applies it to: a
    letter is put in upper case after a character that is not a letter, in
    lower case after a letter. *)
Definition is_upper (c : ascii) : bool :=
  let n := N_of_ascii c in ((65 <=? n) && (n <=? 90))%N.
Definition is_lower (c : ascii) : bool :=
  let n := N_of_ascii c in ((97 <=? n) && (n <=? 122))%N.
Definition to_upper (c : ascii) : ascii :=
  if is_lower c then ascii_of_N (N_of_ascii c - 32) else c.

Fixpoint title_from (previous_is_cased : bool) (s : string) : string :=
  match s with
  | EmptyString => EmptyString
  | String c s' =>
      if is_upper c || is_lower c then
        String (if previous_is_cased then Sql.to_lower c else to_upper c) (title_from true s')
      else String c (title_from false s')
  end.

Definition title (s : string) : string := title_from false s.

Definition sample_users : list (string * string * string * string) :=
  [("farmer1", "farmer1@example.com", "farmerpass", RoleEnum_value FARMER);
   ("producer1", "producer1@example.com", "producerpass", RoleEnum_value PRODUCER);
   ("consumer1", "consumer1@example.com", "consumerpass", RoleEnum_value CONSUMER);
   ("research1", "research1@example.com", "researchpass", RoleEnum_value RESEARCHER);
   ("vet1", "vet1@example.com", "vetpass", RoleEnum_value VET);
   ("trans1", "trans1@example.com", "transpass", RoleEnum_value TRANSPORTER);
   ("ent1", "ent1@example.com", "entpass", RoleEnum_value ENTREPRENEUR);
   ("gov1", "gov1@example.com", "govpass", RoleEnum_value GOV)].

(** The first loop: one [User] per sample, its password hashed with the
    [k]-th salt drawn.  The rows are pending until the commit. *)
Fixpoint pending_users `{Passlib.BcryptBackend} (salt : nat -> string) (k : nat)
    (samples : list (string * string * string * string))
  : option (list (string * string * string * string)) :=
  match samples with
  | [] => Some []
  | (u, e, p, r) :: rest =>
      match set_password (salt k) p, pending_users salt (S k) rest with
      | Some h, Some pending => Some ((u, e, h, r) :: pending)
      | _, _ => None
      end
  end.

(** One [INSERT INTO users]: the [unique] constraints on [username] and
    [email] refuse a row that repeats either ([None] for [IntegrityError]). *)
Definition insert_user (table : list User.t) (username email password_hash role : string)
    (now : datetime) : option (list User.t) :=
  if existsb (fun u => String.eqb (User.username u) username
                       || String.eqb (User.email u) email) table
  then None
  else Some (table ++ [User.mk (Sql.next_id (map User.id table))
                         username email password_hash role now])%list.

(** The commit of the pending users, in the order they were added; the
    [k]-th reading of the clock fills [created_at]. *)
Fixpoint flush_users (clock : nat -> datetime) (k : nat) (table : list User.t)
    (pending : list (string * string * string * string)) : option (list User.t) :=
  match pending with
  | [] => Some table
  | (u, e, h, r) :: rest =>
      match insert_user table u e h r (clock k) with
      | Some table' => flush_users clock (S k) table' rest
      | None => None
      end
  end.

(** The second loop: one profile per new user. *)
Fixpoint add_profiles (table : list Profile.t) (new_users : list User.t) : list Profile.t :=
  match new_users with
  | [] => table
  | u :: rest =>
      add_profiles
        (table ++ [Profile.mk (Sql.next_id (map Profile.id table)) (Some (User.id u))
                     (Some (title (User.username u))) (Some "N/A") (Some "Rajasthan")
                     (Some ("Role: " ++ User.role u))])
        rest
  end.

(** Prices of the sample listings (1.5, 2.0, 0.5, 20.0) as [m * 2^e]. *)
Definition price_1_5 : spec_float := S754_finite false 3 (-1).
Definition price_2_0 : spec_float := S754_finite false 1 1.
Definition price_0_5 : spec_float := S754_finite false 1 (-1).
Definition price_20_0 : spec_float := S754_finite false 5 2.

(** [seed_data()]; [None] stands for an exception ([IntegrityError] from the
    first commit, or a password that cannot be hashed). *)
Definition seed_data `{Passlib.BcryptBackend} (db : Db)
    (salt : nat -> string) (clock : nat -> datetime) : option Db :=
  match pending_users salt 0 sample_users with
  | None => None
  | Some pending =>
      match flush_users clock 0 (users db) pending with
      | None => None
      | Some users' =>
          match skipn (List.length (users db)) users' with
          | [u0; u1; u2; u3; u4; u5; u6; u7] =>
              let profiles' := add_profiles (profiles db) [u0; u1; u2; u3; u4; u5; u6; u7] in
              let n := Sql.next_id (map Listing.id (listings db)) in
              let l1 := Listing.mk n "Raw camel milk - weekly supply (50 L)"
                          (Some "High-quality raw camel milk from free-range camels. Good for research and consumers.")
                          (Some (User.id u0)) (Some "milk") (Some price_1_5)
                          (Some "50 L/week") (Some "Bikaner, Rajasthan") (clock 8%nat) in
              let l2 := Listing.mk (n + 1) "Pasteurized camel milk - 10L packs"
                          (Some "Hygienically pasteurized and packaged. Certified for sale.")
                          (Some (User.id u1)) (Some "milk") (Some price_2_0)
                          (Some "10 L packs") (Some "Jaisalmer") (clock 9%nat) in
              let l3 := Listing.mk (n + 2) "Transport service for milk (cold chain)"
                          (Some "Refrigerated transport available across districts.")
                          (Some (User.id u5)) (Some "transport") (Some price_0_5)
                          (Some "per km") (Some "Rajasthan statewide") (clock 10%nat) in
              let l4 := Listing.mk (n + 3) "Veterinary health check & vaccination"
                          (Some "Experienced camel vet offering herd health checkups.")
                          (Some (User.id u4)) (Some "vet") (Some price_20_0)
                          (Some "per visit") (Some "Rajasthan") (clock 11%nat) in
              let ev := Event.mk (Sql.next_id (map Event.id (events db)))
                          (Some "Camel Conservation Workshop")
                          (Some "Field workshop on camel nutrition and conservation.")
                          (Some (clock 12%nat)) (Some (User.id u7)) (clock 13%nat) in
              let msg := Message.mk (Sql.next_id (map Message.id (messages db)))
                           (Some (User.id u2)) (Some (User.id u0))
                           (Some "Interested in weekly milk")
                           (Some "Hi, I'd like to buy 20L/week. Can we discuss?")
                           (clock 14%nat) in
              Some (mkDb users' profiles' (listings db ++ [l1; l2; l3; l4])
                      (messages db ++ [msg]) (events db ++ [ev]))
          | _ => None
          end
      end
  end.

Definition empty_db : Db := mkDb [] [] [] [] [].

(** [flask initdb]: the tables are dropped and created again, then seeded. *)
Definition initdb_command `{Passlib.BcryptBackend}
    (salt : nat -> string) (clock : nat -> datetime) : option Db :=
  seed_data empty_db salt clock.

(** The start of the program: a store that does not exist yet is created and
    seeded, one that exists is opened as it is. *)
Definition first_run `{Passlib.BcryptBackend} (existing : option Db)
    (salt : nat -> string) (clock : nat -> datetime) : option Db :=
  match existing with
  | Some db => Some db
  | None => seed_data empty_db salt clock
  end.

End Seed.

(* ------------------------------------------------------------------ *)
(** ** The store over a run of requests *)

(** A request to one of the four views that write. *)
Inductive action : Type :=
| PostRegister (now : datetime) (salt : string) (req : Request RegisterForm.t)
| PostListing (now : datetime) (current_user : option User.t) (req : Request ListingForm.t)
| PostMessage (now : datetime) (current_user : option User.t) (req : Request MessageForm.t)
| PostEvent (now : datetime) (current_user : option User.t) (req : Request EventForm.t).

Definition handle `{Passlib.BcryptBackend} `{Validators.EmailValidator}
    (db : Db) (a : action) : Result :=
  match a with
  | PostRegister now salt req => register db now salt req
  | PostListing now cu req => new_listing db now cu req
  | PostMessage now cu req => new_message db now cu req
  | PostEvent now cu req => new_event db now cu req
  end.

(** The identity Flask-Login resolves is a stored user ([load_user] reads it
    from the store). *)
Definition identity_stored (db : Db) (a : action) : Prop :=
  match a with
  | PostRegister _ _ _ => True
  | PostListing _ cu _ | PostMessage _ cu _ | PostEvent _ cu _ =>
      forall u, cu = Some u -> In u (users db)
  end.

Fixpoint run `{Passlib.BcryptBackend} `{Validators.EmailValidator}
    (db : Db) (actions : list action) : Db :=
  match actions with
  | [] => db
  | a :: rest => run (store (handle db a)) rest
  end.

(** Every action of the run is made under an identity stored at that point. *)
Fixpoint identities_stored `{Passlib.BcryptBackend} `{Validators.EmailValidator}
    (db : Db) (actions : list action) : Prop :=
  match actions with
  | [] => True
  | a :: rest => identity_stored db a /\ identities_stored (store (handle db a)) rest
  end.

(** The shape of a store that the program keeps. *)
Record consistent (db : Db) : Prop := mkConsistent {
  unique_usernames : NoDup (map User.username (users db));
  unique_emails : NoDup (map User.email (users db));
  unique_user_ids : NoDup (map User.id (users db));
  unique_profile_ids : NoDup (map Profile.id (profiles db));
  unique_listing_ids : NoDup (map Listing.id (listings db));
  unique_message_ids : NoDup (map Message.id (messages db));
  unique_event_ids : NoDup (map Event.id (events db));
  roles_known : forall u, In u (users db) -> exists r, User.role u = RoleEnum_value r;
  one_profile_each : NoDup (map Profile.user_id (profiles db));
  profile_of_each :
    forall u, In u (users db) ->
              exists p, In p (profiles db) /\ Profile.user_id p = Some (User.id u);
  profiles_bound :
    forall p, In p (profiles db) ->
              (exists u, In u (users db) /\ Profile.user_id p = Some (User.id u)) /\
              Profile.full_name p <> None /\ Profile.phone p <> None /\
              Profile.location p <> None /\ Profile.bio p <> None;
  listings_owned :
    forall l, In l (listings db) ->
              exists u, In u (users db) /\ Listing.owner_id l = Some (User.id u);
  messages_bound :
    forall m, In m (messages db) ->
              (exists u, In u (users db) /\ Message.sender_id m = Some (User.id u)) /\
              (exists u, In u (users db) /\ Message.receiver_id m = Some (User.id u));
  events_bound :
    forall e, In e (events db) ->
              (exists u, In u (users db) /\ Event.organizer_id e = Some (User.id u)) /\
              Event.date e <> None
}.

(* ------------------------------------------------------------------ *)
(** ** A seeded store for the examples *)

Module Examples.

Definition salts (k : nat) : string := Sample.salt.
Definition clock (k : nat) : datetime := Sample.noon (Z.of_nat k).

(** The store after [flask initdb], under the stand-in backend. *)
Definition seeded : Db :=
  match @Seed.initdb_command Sample.backend salts clock with
  | Some db => db
  | None => Seed.empty_db
  end.

Definition farmer1 : User.t :=
  User.mk 1 "farmer1" "farmer1@example.com"
    (@hash_text Sample.backend Sample.salt "farmerpass") "farmer" (clock 0).
Definition consumer1 : User.t :=
  User.mk 3 "consumer1" "consumer1@example.com"
    (@hash_text Sample.backend Sample.salt "consumerpass") "consumer" (clock 2).

(** The user that registering [alice] on the seeded store creates. *)
Definition alice : User.t :=
  User.mk 9 "alice" "alice@x.com"
    (@hash_text Sample.backend Sample.salt "pw123456") "farmer" (Sample.noon 20).

Definition alice_form : RegisterForm.t :=
  RegisterForm.mk "alice" "alice@x.com" "pw123456" "farmer".

Definition milk_form : ListingForm.t :=
  ListingForm.mk "Fresh milk" "Morning milk, chilled within the hour." "milk"
    (FloatValue Seed.price_2_0) None None.

Definition hello_form : MessageForm.t :=
  MessageForm.mk "farmer1" "Hello" "Is the milk still on offer?".

Definition fair_form : EventForm.t :=
  EventForm.mk "Pushkar camel fair" "Annual fair and livestock market." "2025-1-5".

(** Alice registers, posts a listing, writes to farmer1 and announces a fair. *)
Definition session : list action :=
  [PostRegister (Sample.noon 20) Sample.salt (Sample.post alice_form);
   PostListing (Sample.noon 21) (Some alice) (Sample.post milk_form);
   PostMessage (Sample.noon 22) (Some alice) (Sample.post hello_form);
   PostEvent (Sample.noon 23) (Some alice) (Sample.post fair_form)].

End Examples.

(* ------------------------------------------------------------------ *)
(** ** Date texts *)

(** [s] is the number [n] written with one, two or four decimal digits. *)
Definition written_1 (s : string) (n : Z) : Prop :=
  exists c, s = String c EmptyString /\ Strptime.digit c = Some n.

Definition written_2 (s : string) (n : Z) : Prop :=
  exists c1 c2 e f,
    s = String c1 (String c2 EmptyString) /\
    Strptime.digit c1 = Some e /\ Strptime.digit c2 = Some f /\ n = 10 * e + f.

Definition written_4 (s : string) (n : Z) : Prop :=
  exists c1 c2 c3 c4 a b c d,
    s = String c1 (String c2 (String c3 (String c4 EmptyString))) /\
    Strptime.digit c1 = Some a /\ Strptime.digit c2 = Some b /\
    Strptime.digit c3 = Some c /\ Strptime.digit c4 = Some d /\
    n = 1000 * a + 100 * b + 10 * c + d.

(** [s] is a year of four digits, a month of one or two digits and a day of
    one or two digits (or of one digit after a space), with [-] between them. *)
Definition date_text (s : string) (y m d : Z) : Prop :=
  exists ys ms ds,
    s = ys ++ "-" ++ ms ++ "-" ++ ds /\
    written_4 ys y /\
    (written_1 ms m \/ written_2 ms m) /\
    (written_1 ds d \/ written_2 ds d \/ exists ds', ds = " " ++ ds' /\ written_1 ds' d).

(* ------------------------------------------------------------------ *)
(** ** [LIKE] and substrings *)

Section LikeFacts.

Lemma like_percent_unfold (p s : string) :
  Sql.like_text (String "%" p) s =
  Sql.like_text p s || match s with
                  | EmptyString => false
                  | String _ s' => Sql.like_text (String "%" p) s'
                  end.
Proof. destruct s; reflexivity. Qed.

Lemma like_char_unfold (c : ascii) (p s : string) :
  Sql.is_percent c = false ->
  Sql.like_text (String c p) s =
  match s with
  | EmptyString => false
  | String d s' =>
      (Sql.is_underscore c || Ascii.eqb (Sql.to_lower c) (Sql.to_lower d)) && Sql.like_text p s'
  end.
Proof. intros Hc. simpl. rewrite Hc. reflexivity. Qed.

Lemma like_percent_iff (p s : string) :
  Sql.like_text (String "%" p) s = true <->
  exists pre post, s = pre ++ post /\ Sql.like_text p post = true.
Proof.
  induction s as [|d s IH]; rewrite like_percent_unfold.
  - rewrite orb_false_r. split.
    + intros H. exists EmptyString, EmptyString. auto.
    + intros (pre & post & E & H). destruct pre; simpl in E; [subst post; exact H | discriminate].
  - rewrite orb_true_iff, IH. split.
    + intros [H | (pre & post & E & H)].
      * exists EmptyString, (String d s). auto.
      * exists (String d pre), post. simpl. subst s. auto.
    + intros (pre & post & E & H). destruct pre as [|c pre]; simpl in E.
      * left. subst post. exact H.
      * right. injection E as _ E. exists pre, post. auto.
Qed.

Lemma like_only_percent (s : string) : Sql.like_text "%" s = true.
Proof.
  apply like_percent_iff. exists s, EmptyString. split; [|reflexivity].
  induction s as [|c s IH]; simpl; congruence.
Qed.

Lemma like_literal_iff (q r s : string) :
  no_wildcard q = true ->
  (Sql.like_text (q ++ r) s = true <->
   exists m rest, s = m ++ rest /\ Sql.lower m = Sql.lower q /\ Sql.like_text r rest = true).
Proof.
  revert s. induction q as [|c q IH]; intros s Hq.
  - simpl. split.
    + intros H. exists EmptyString, s. auto.
    + intros (m & rest & E & L & H). destruct m; [|discriminate]. simpl in E. subst. exact H.
  - simpl in Hq. apply andb_true_iff in Hq as [Hc Hq].
    apply andb_true_iff in Hc as [Hp Hu].
    apply negb_true_iff in Hp, Hu.
    change (String c q ++ r) with (String c (q ++ r)).
    rewrite (like_char_unfold _ _ _ Hp), Hu. simpl orb.
    destruct s as [|d s].
    + split; [discriminate|].
      intros (m & rest & E & L & _). destruct m; discriminate.
    + rewrite andb_true_iff, (IH s Hq). split.
      * intros [Hcd (m & rest & E & L & H)].
        apply Ascii.eqb_eq in Hcd.
        exists (String d m), rest. simpl. subst s. rewrite L, Hcd. auto.
      * intros (m & rest & E & L & H). destruct m as [|d' m]; [discriminate|].
        simpl in E, L. injection E as Ed E. injection L as Lc L. subst d'.
        split; [apply Ascii.eqb_eq; congruence|].
        exists m, rest. auto.
Qed.

Lemma until_nul_nul_free (s : string) :
  Sql.nul_free s = true -> Sql.until_nul s = s.
Proof.
  induction s as [|c s IH]; simpl; [reflexivity|].
  destruct (Ascii.eqb c zero); simpl; [discriminate|].
  intros H. rewrite (IH H). reflexivity.
Qed.

Lemma until_nul_app (q r : string) :
  Sql.nul_free q = true -> Sql.until_nul (q ++ r) = q ++ Sql.until_nul r.
Proof.
  induction q as [|c q IH]; simpl; [reflexivity|].
  destruct (Ascii.eqb c zero); simpl; [discriminate|].
  intros H. rewrite (IH H). reflexivity.
Qed.

Lemma until_nul_prefix (s : string) : exists rest, s = Sql.until_nul s ++ rest.
Proof.
  induction s as [|c s [rest IH]]; simpl.
  - exists EmptyString. reflexivity.
  - destruct (Ascii.eqb c zero).
    + exists (String c s). reflexivity.
    + exists rest. simpl. rewrite <- IH. reflexivity.
Qed.

Lemma append_assoc (a b c : string) : (a ++ b) ++ c = a ++ b ++ c.
Proof. induction a as [|x a IH]; simpl; congruence. Qed.

Lemma ci_substring_until_nul (q s : string) :
  ci_substring q (Sql.until_nul s) -> ci_substring q s.
Proof.
  intros (pre & m & post & E & L).
  destruct (until_nul_prefix s) as [rest Hs].
  exists pre, m, (post ++ rest). split; [|exact L].
  rewrite Hs at 1. rewrite E, !append_assoc. reflexivity.
Qed.

Lemma like_text_contains (q s : string) :
  no_wildcard q = true ->
  (Sql.like_text ("%" ++ q ++ "%") s = true <-> ci_substring q s).
Proof.
  intros Hq. unfold ci_substring.
  change ("%" ++ q ++ "%") with (String "%" (q ++ "%")).
  rewrite like_percent_iff. split.
  - intros (pre & post & E & H).
    apply (like_literal_iff q "%" post Hq) in H as (m & rest & E' & L & _).
    exists pre, m, rest. subst. auto.
  - intros (pre & m & post & E & L).
    exists pre, (m ++ post). split; [exact E|].
    apply (like_literal_iff q "%" _ Hq). exists m, post.
    repeat split; auto using like_only_percent.
Qed.

(** Without wildcards or a NUL in [q], [column.contains(q)] is the substring
    test on what is read of the column. *)
Lemma contains_iff_ci_substring (q s : string) :
  no_wildcard q = true -> Sql.nul_free q = true ->
  (Sql.contains s q = true <-> ci_substring q (Sql.until_nul s)).
Proof.
  intros Hq Hn. unfold Sql.contains, Sql.like.
  change ("%" ++ q ++ "%") with (String "%" (q ++ "%")).
  change (Sql.until_nul (String "%" (q ++ "%"))) with (String "%" (Sql.until_nul (q ++ "%"))).
  rewrite (until_nul_app q "%" Hn).
  change (String "%" (q ++ Sql.until_nul "%")) with ("%" ++ q ++ "%").
  apply like_text_contains. exact Hq.
Qed.

Lemma ci_prefixb_iff (q s : string) :
  ci_prefixb q s = true <-> exists m post, s = m ++ post /\ Sql.lower m = Sql.lower q.
Proof.
  revert s. induction q as [|c q IH]; intros s; simpl.
  - split; [intros _; exists EmptyString, s; auto | auto].
  - destruct s as [|d s].
    + split; [discriminate|]. intros (m & post & E & L). destruct m; discriminate.
    + rewrite andb_true_iff, IH, Ascii.eqb_eq. split.
      * intros [Hcd (m & post & E & L)]. exists (String d m), post.
        simpl. subst s. rewrite L, Hcd. auto.
      * intros (m & post & E & L). destruct m as [|d' m]; [discriminate|].
        simpl in E, L. injection E as Ed E. injection L as Lc L. subst d'.
        split; [congruence|]. exists m, post. auto.
Qed.

Lemma ci_substringb_iff (q s : string) :
  ci_substringb q s = true <-> ci_substring q s.
Proof.
  unfold ci_substring. induction s as [|d s IH]; simpl.
  - rewrite orb_false_r, ci_prefixb_iff. split.
    + intros (m & post & E & L). exists EmptyString, m, post. auto.
    + intros (pre & m & post & E & L). destruct pre; [|discriminate].
      exists m, post. auto.
  - rewrite orb_true_iff, ci_prefixb_iff, IH. split.
    + intros [(m & post & E & L) | (pre & m & post & E & L)].
      * exists EmptyString, m, post. auto.
      * exists (String d pre), m, post. simpl. subst s. auto.
    + intros (pre & m & post & E & L). destruct pre as [|c pre]; simpl in E.
      * left. exists m, post. auto.
      * right. injection E as _ E. exists pre, m, post. auto.
Qed.

End LikeFacts.

(* ------------------------------------------------------------------ *)
(** ** Orders and [ORDER BY ... LIMIT] *)

Section OrderFacts.

Lemma lex_compare_opp (a b : list Z) :
  lex_compare b a = CompOpp (lex_compare a b).
Proof.
  revert b. induction a as [|x a IH]; intros [|y b]; simpl; try reflexivity.
  rewrite (Z.compare_antisym x y).
  destruct (x ?= y); simpl; auto.
Qed.

Lemma lex_compare_trans_le (a b c : list Z) :
  lex_compare a b <> Gt -> lex_compare b c <> Gt -> lex_compare a c <> Gt.
Proof.
  revert b c. induction a as [|x a IH]; intros [|y b] [|z c]; simpl; try congruence.
  destruct (Z.compare_spec x y), (Z.compare_spec y z); try congruence; intros H1 H2.
  - subst. rewrite Z.compare_refl. eauto.
  - subst. apply Z.compare_lt_iff in H0. rewrite H0. congruence.
  - subst. apply Z.compare_lt_iff in H. rewrite H. congruence.
  - assert (Hxz : x < z) by lia. apply Z.compare_lt_iff in Hxz. rewrite Hxz. congruence.
Qed.

Lemma datetime_leb_total (a b : datetime) :
  datetime_leb a b = false -> datetime_leb b a = true.
Proof.
  unfold datetime_leb, datetime_compare.
  rewrite (lex_compare_opp (datetime_fields a) (datetime_fields b)).
  destruct (lex_compare (datetime_fields a) (datetime_fields b)); simpl; congruence.
Qed.

Lemma datetime_leb_trans (a b c : datetime) :
  datetime_leb a b = true -> datetime_leb b c = true -> datetime_leb a c = true.
Proof.
  unfold datetime_leb, datetime_compare. intros H1 H2.
  assert (H : lex_compare (datetime_fields a) (datetime_fields c) <> Gt).
  { apply (lex_compare_trans_le _ (datetime_fields b)).
    - destruct (lex_compare (datetime_fields a) (datetime_fields b)); congruence.
    - destruct (lex_compare (datetime_fields b) (datetime_fields c)); congruence. }
  destruct (lex_compare (datetime_fields a) (datetime_fields c)); congruence.
Qed.



Context {A : Type}.

Lemma limit_In (n : nat) (l : list A) (x : A) : In x (Sql.limit n l) -> In x l.
Proof.
  revert l. induction n as [|n IH]; intros [|y l]; simpl; try tauto.
  intros [->|H]; auto.
Qed.

Lemma limit_length (n : nat) (l : list A) : (List.length (Sql.limit n l) <= n)%nat.
Proof. apply firstn_le_length. Qed.

Context (leb : A -> A -> bool).

Lemma insert_by_In (x y : A) (l : list A) :
  In y (Sql.insert_by leb x l) <-> y = x \/ In y l.
Proof.
  induction l as [|z l IH]; simpl.
  - intuition auto.
  - destruct (leb x z); simpl; rewrite ?IH; intuition auto.
Qed.

Lemma order_by_In (y : A) (l : list A) :
  In y (Sql.order_by leb l) <-> In y l.
Proof.
  induction l as [|x l IH]; simpl; [reflexivity|].
  rewrite insert_by_In, IH. intuition auto.
Qed.

Lemma order_by_Permutation (l : list A) : Permutation (Sql.order_by leb l) l.
Proof.
  induction l as [|x l IH]; simpl; [constructor|].
  assert (Hins : forall m, Permutation (Sql.insert_by leb x m) (x :: m)).
  { induction m as [|z m IHm]; simpl; [reflexivity|].
    destruct (leb x z); [reflexivity|].
    rewrite IHm. apply perm_swap. }
  rewrite Hins. constructor. exact IH.
Qed.

Hypothesis leb_total : forall x y, leb x y = false -> leb y x = true.
Hypothesis leb_trans : forall x y z, leb x y = true -> leb y z = true -> leb x z = true.

Let le (x y : A) : Prop := leb x y = true.

Lemma insert_by_sorted (x : A) (l : list A) :
  StronglySorted le l -> StronglySorted le (Sql.insert_by leb x l).
Proof.
  induction 1 as [|z l Hl IH Hz]; simpl.
  - repeat constructor.
  - destruct (leb x z) eqn:E.
    + constructor; [constructor; assumption|].
      constructor; [exact E|].
      rewrite Forall_forall in *. intros w Hw.
      apply (leb_trans x z w E). apply Hz. exact Hw.
    + constructor; [exact IH|].
      rewrite Forall_forall in *. intros w Hw.
      apply insert_by_In in Hw as [->|Hw]; [apply leb_total; exact E | auto].
Qed.

Lemma order_by_sorted (l : list A) : StronglySorted le (Sql.order_by leb l).
Proof.
  induction l as [|x l IH]; simpl; [constructor | apply insert_by_sorted; exact IH].
Qed.

Lemma limit_sorted (n : nat) (l : list A) :
  StronglySorted le l -> StronglySorted le (Sql.limit n l).
Proof.
  intros H. revert n. induction H as [|z l Hl IH Hz]; intros [|n]; simpl; try constructor.
  - apply IH.
  - rewrite Forall_forall in *. intros w Hw. apply Hz.
    apply (limit_In n l w). exact Hw.
Qed.

End OrderFacts.

(* ------------------------------------------------------------------ *)
(** ** Listing queries: [GET /] and [GET /api/listings] *)

Section ListingQueries.

Lemma filter_length_le {A : Type} (f : A -> bool) (l : list A) :
  (List.length (filter f l) <= List.length l)%nat.
Proof. induction l as [|x l IH]; simpl; [|destruct (f x); simpl]; lia. Qed.

Lemma filter_filter {A : Type} (f g : A -> bool) (l : list A) :
  filter g (filter f l) = filter (fun x => f x && g x) l.
Proof.
  induction l as [|x l IH]; simpl; [reflexivity|].
  destruct (f x); simpl; [destruct (g x)|]; rewrite IH; reflexivity.
Qed.

Lemma filter_true {A : Type} (l : list A) : filter (fun _ => true) l = l.
Proof. induction l as [|x l IH]; simpl; congruence. Qed.

(** Both queries select the rows of [row_selected], newest first, up to the
    cap of the route. *)
Lemma listing_query_shape (q cat : string) (rows : list Listing.t) :
  (let r1 := if str_truthy q
             then filter (fun l => Sql.contains (Listing.title l) q
                                   || Sql.contains_null (Listing.description l) q) rows
             else rows in
   if str_truthy cat then filter (fun l => Sql.eq_null (Listing.category l) cat) r1 else r1)
  = filter (row_selected q cat) rows.
Proof.
  unfold row_selected. cbv zeta.
  destruct (str_truthy q), (str_truthy cat); simpl.
  - apply filter_filter.
  - apply filter_ext. intros l. rewrite andb_true_r. reflexivity.
  - reflexivity.
  - symmetry. apply filter_true.
Qed.

Lemma index_listings_shape (db : Db) (q cat : string) :
  index_listings db q cat =
  Sql.limit 30 (Sql.order_by created_at_desc (filter (row_selected q cat) (listings db))).
Proof. unfold index_listings. cbv zeta. rewrite listing_query_shape. reflexivity. Qed.

Lemma api_listings_rows_shape (db : Db) (q cat : string) :
  api_listings_rows db q cat =
  Sql.limit 200 (Sql.order_by created_at_desc (filter (row_selected q cat) (listings db))).
Proof. unfold api_listings_rows. cbv zeta. rewrite listing_query_shape. reflexivity. Qed.

Lemma str_truthy_true (s : string) : s <> "" -> str_truthy s = true.
Proof. destruct s; [congruence | reflexivity]. Qed.

(** What [row_selected] says of a row, in words. *)
Lemma row_selected_spec (q cat : string) (l : Listing.t) :
  row_selected q cat l = true <->
  (q = "" \/ Sql.contains (Listing.title l) q = true
          \/ exists d, Listing.description l = Some d /\ Sql.contains d q = true) /\
  (cat = "" \/ Listing.category l = Some cat).
Proof.
  unfold row_selected. rewrite andb_true_iff, !orb_true_iff, !negb_true_iff.
  assert (Hd : Sql.contains_null (Listing.description l) q = true <->
               exists d, Listing.description l = Some d /\ Sql.contains d q = true).
  { destruct (Listing.description l) as [d|]; simpl.
    - split; [intros H; exists d; auto | intros (d' & E & H); congruence].
    - split; [discriminate | intros (d' & E & _); discriminate]. }
  assert (Hc : Sql.eq_null (Listing.category l) cat = true <-> Listing.category l = Some cat).
  { destruct (Listing.category l) as [c|]; simpl.
    - rewrite String.eqb_eq. split; congruence.
    - split; discriminate. }
  rewrite Hd, Hc.
  assert (Hq : str_truthy q = false <-> q = "") by (destruct q; simpl; split; congruence).
  assert (Hcat : str_truthy cat = false <-> cat = "") by (destruct cat; simpl; split; congruence).
  rewrite Hq, Hcat. tauto.
Qed.

Lemma limit_all {A : Type} (leb : A -> A -> bool) (f : A -> bool) (n : nat) (l : list A) :
  (List.length l <= n)%nat ->
  Sql.limit n (Sql.order_by leb (filter f l)) = Sql.order_by leb (filter f l).
Proof.
  intros H. apply firstn_all2.
  rewrite (Permutation_length (order_by_Permutation leb (filter f l))).
  pose proof (filter_length_le f l). lia.
Qed.

End ListingQueries.

Section ListingRoutes.


Lemma selected_rows_In (n : nat) (q cat : string) (rows : list Listing.t) (l : Listing.t) :
  In l (Sql.limit n (Sql.order_by created_at_desc (filter (row_selected q cat) rows))) ->
  In l rows /\ row_selected q cat l = true.
Proof.
  intros H. apply limit_In in H. rewrite order_by_In, filter_In in H. exact H.
Qed.

(** C1 (amended).  Let [q] be such that the pattern [%q%] is within SQLite's
    limit of 50000 bytes.  Every listing returned by the browse view or by
    the API is a stored listing; when the category parameter is not empty
    its category is exactly that value; when [q] is not empty its title or
    its description matches the pattern [%q%] of [LIKE], in which the
    characters [%] and [_] of [q] are wildcards and of which, as of the text,
    only what comes before the first NUL character is read; when [q] has
    none of the three, that is: the title or the description has [q] as a
    substring, up to the case of ASCII letters.  An empty parameter restricts
    nothing: while the table is within the cap of the route, the rows
    returned are exactly the stored rows that meet the conditions of the
    parameters that are not empty. *)
Theorem listing_filters (db : Db) (q cat : string) :
  pattern_fits q = true ->
  (forall l,
     In l (index_listings db q cat) \/ In l (api_listings_rows db q cat) ->
     In l (listings db) /\
     (cat <> "" -> Listing.category l = Some cat) /\
     (q <> "" ->
      Sql.like ("%" ++ q ++ "%") (Listing.title l) = true \/
      exists d, Listing.description l = Some d /\ Sql.like ("%" ++ q ++ "%") d = true) /\
     (q <> "" -> no_wildcard q = true -> Sql.nul_free q = true ->
      ci_substring q (Listing.title l) \/
      exists d, Listing.description l = Some d /\ ci_substring q d)) /\
  ((List.length (listings db) <= 30)%nat ->
   forall l,
     In l (index_listings db q cat) <->
     In l (listings db) /\
     (q = "" \/ Sql.contains (Listing.title l) q = true
             \/ exists d, Listing.description l = Some d /\ Sql.contains d q = true) /\
     (cat = "" \/ Listing.category l = Some cat)) /\
  ((List.length (listings db) <= 200)%nat ->
   forall l,
     In l (api_listings_rows db q cat) <->
     In l (listings db) /\
     (q = "" \/ Sql.contains (Listing.title l) q = true
             \/ exists d, Listing.description l = Some d /\ Sql.contains d q = true) /\
     (cat = "" \/ Listing.category l = Some cat)).
Proof.
  intros _. rewrite index_listings_shape, api_listings_rows_shape.
  split; [|split].
  - intros l Hl.
    assert (H : In l (listings db) /\ row_selected q cat l = true)
      by (destruct Hl as [Hl|Hl]; eapply selected_rows_In; exact Hl).
    destruct H as [Hin Hsel]. apply row_selected_spec in Hsel as [Hq Hcat].
    split; [exact Hin|]. split; [|split].
    + intros Hne. destruct Hcat; [contradiction | assumption].
    + intros Hne. destruct Hq as [Hq|Hq]; [contradiction | exact Hq].
    + intros Hne Hw Hn. destruct Hq as [Hq|[Hq|(d & Ed & Hq)]]; [contradiction | |].
      * left. apply ci_substring_until_nul, contains_iff_ci_substring; assumption.
      * right. exists d. split; [exact Ed|].
        apply ci_substring_until_nul, contains_iff_ci_substring; assumption.
  - intros Hlen l. rewrite (limit_all _ _ _ _ Hlen), order_by_In, filter_In, row_selected_spec.
    tauto.
  - intros Hlen l. rewrite (limit_all _ _ _ _ Hlen), order_by_In, filter_In, row_selected_spec.
    tauto.
Qed.

Lemma listing_filters_witness :
  In Sample.raw_milk (index_listings Sample.db "MILK" "milk") /\
  Listing.category Sample.raw_milk = Some "milk" /\
  (ci_substring "MILK" (Listing.title Sample.raw_milk) \/
   exists d, Listing.description Sample.raw_milk = Some d /\ ci_substring "MILK" d) /\
  (In Sample.cold_chain (api_listings_rows Sample.db "" "transport") <->
   In Sample.cold_chain (listings Sample.db) /\
   ("" = "" \/ Sql.contains (Listing.title Sample.cold_chain) "" = true
            \/ exists d, Listing.description Sample.cold_chain = Some d
                         /\ Sql.contains d "" = true) /\
   ("transport" = "" \/ Listing.category Sample.cold_chain = Some "transport")).
Proof.
  assert (Hin : In Sample.raw_milk (index_listings Sample.db "MILK" "milk"))
    by (vm_compute; auto).
  destruct (listing_filters Sample.db "MILK" "milk" eq_refl) as [Hsound _].
  destruct (Hsound Sample.raw_milk (or_introl Hin)) as (_ & Hcat & _ & Hsub).
  split; [exact Hin|]. split; [apply Hcat; discriminate|].
  split; [apply Hsub; [discriminate | reflexivity | reflexivity]|].
  destruct (listing_filters Sample.db "" "transport" eq_refl) as (_ & _ & Hexact).
  apply Hexact. vm_compute. lia.
Defined.

(** C1, as stated, fails: with [q = "_"] the listing "Veterinary health check
    & vaccination" is returned by both routes, although neither its title nor
    its description has an underscore in it. *)
Lemma underscore_query_returns_rows_without_it :
  In Sample.health_check (index_listings Sample.db "_" "") /\
  In Sample.health_check (api_listings_rows Sample.db "_" "") /\
  ~ ci_substring "_" (Listing.title Sample.health_check) /\
  ~ (exists d, Listing.description Sample.health_check = Some d /\ ci_substring "_" d).
Proof.
  split; [vm_compute; auto|]. split; [vm_compute; auto|]. split.
  - rewrite <- ci_substringb_iff. vm_compute. discriminate.
  - intros (d & Ed & H). injection Ed as <-.
    apply ci_substringb_iff in H. vm_compute in H. discriminate.
Qed.



End ListingRoutes.

(* ------------------------------------------------------------------ *)
(** ** Lookups *)

Section Lookups.

Context {A : Type} (f : A -> bool).

Lemma find_None_iff (l : list A) :
  find f l = None <-> forall x, In x l -> f x = false.
Proof.
  split; [apply find_none|].
  induction l as [|y l IH]; simpl; intros H; [reflexivity|].
  rewrite (H y (or_introl eq_refl)). apply IH. intros x Hx. apply H. right. exact Hx.
Qed.

Lemma find_Some_of_exists (l : list A) :
  (exists x, In x l /\ f x = true) -> exists y, find f l = Some y /\ In y l /\ f y = true.
Proof.
  intros (x & Hx & Hfx). destruct (find f l) as [y|] eqn:E.
  - exists y. apply find_some in E. tauto.
  - rewrite (find_none _ _ E x Hx) in Hfx. discriminate.
Qed.

Lemma existsb_false_iff (l : list A) :
  existsb f l = false <-> forall x, In x l -> f x = false.
Proof.
  induction l as [|y l IH]; simpl.
  - split; [intros _ x [] | reflexivity].
  - rewrite orb_false_iff, IH. split.
    + intros [Hy H] x [<-|Hx]; auto.
    + intros H. split; [apply H; auto | intros x Hx; apply H; auto].
Qed.

End Lookups.

Lemma next_id_above (ids : list Z) (i : Z) : In i ids -> i < Sql.next_id ids.
Proof.
  unfold Sql.next_id. induction ids as [|j ids IH]; cbn [fold_right In]; [tauto|].
  intros [->|H]; [|specialize (IH H)]; lia.
Qed.

Lemma has_nul_utf8_char (c : ascii) :
  Passlib.has_nul (Passlib.utf8_char c) = Ascii.eqb c zero.
Proof. destruct c as [[] [] [] [] [] [] [] []]; reflexivity. Qed.

Lemma has_nul_app (a b : string) :
  Passlib.has_nul (a ++ b) = Passlib.has_nul a || Passlib.has_nul b.
Proof.
  induction a as [|c a IH]; simpl; [reflexivity|].
  rewrite IH, orb_assoc. reflexivity.
Qed.

(** The encoded password has a NUL byte exactly when the password has a NUL
    character. *)
Lemma has_nul_utf8 (s : string) : Passlib.has_nul (Passlib.utf8 s) = Passlib.has_nul s.
Proof.
  induction s as [|c s IH]; simpl; [reflexivity|].
  rewrite has_nul_app, has_nul_utf8_char, IH. reflexivity.
Qed.

Lemma length_app (a b : string) :
  String.length (a ++ b) = (String.length a + String.length b)%nat.
Proof. induction a as [|c a IH]; simpl; congruence. Qed.

Lemma validate_secret_iff (s : string) :
  Passlib.validate_secret s = true <-> Z.of_nat (String.length s) <= 4096.
Proof. unfold Passlib.validate_secret, Passlib.MAX_PASSWORD_SIZE. apply Z.leb_le. Qed.

(** The encoded text has at least as many bytes as the text has characters,
    and at most twice as many. *)
Lemma utf8_length (s : string) :
  (String.length s <= String.length (Passlib.utf8 s) <= 2 * String.length s)%nat.
Proof.
  induction s as [|c s IH]; cbn [Passlib.utf8 String.length]; [lia|].
  rewrite length_app.
  assert (Hc : (1 <= String.length (Passlib.utf8_char c) <= 2)%nat).
  { unfold Passlib.utf8_char. cbv zeta.
    destruct (N_of_ascii c <? 128)%N; cbn [String.length]; lia. }
  lia.
Qed.

(** A key within the size limit comes from a text within the limit. *)
Lemma validate_secret_utf8 (s : string) :
  Passlib.validate_secret (Passlib.utf8 s) = true -> Passlib.validate_secret s = true.
Proof.
  rewrite !validate_secret_iff. pose proof (utf8_length s). lia.
Qed.

(** What [bcrypt.hash] returns on a secret it accepts. *)
Lemma hash_accepts {backend : Passlib.BcryptBackend} (salt secret : string) :
  Passlib.validate_secret (Passlib.utf8 secret) = true ->
  Passlib.has_nul secret = false ->
  Passlib.hash salt secret =
  Some (Passlib.ident_rounds ++ salt ++
        Passlib.bcrypt_digest salt (Passlib.truncate72 (Passlib.utf8 secret))).
Proof.
  intros Hsize Hnul. unfold Passlib.hash. cbv zeta.
  rewrite (validate_secret_utf8 _ Hsize), Hsize, has_nul_utf8, Hnul. reflexivity.
Qed.

(* ------------------------------------------------------------------ *)
(** ** Registration *)

Section Registration.

Context {backend : Passlib.BcryptBackend} {email_validator : Validators.EmailValidator}.

(** A password that passes the form checks is within passlib's size limit. *)
Lemma register_password_fits (req : Request RegisterForm.t) :
  validate_on_submit RegisterForm.validate req = true ->
  Passlib.validate_secret (Passlib.utf8 (RegisterForm.password (form req))) = true.
Proof.
  unfold validate_on_submit, RegisterForm.validate, Validators.Length.
  destruct (method req); [discriminate|].
  rewrite !andb_true_iff, !Z.leb_le. intros H.
  apply validate_secret_iff.
  pose proof (utf8_length (RegisterForm.password (form req))). lia.
Qed.

(** C3 (amended).  When the submitted username or the submitted email
    belongs to a stored user, the store after [register] is the store before:
    no User row and no Profile row is created; and the submission that passes
    the form checks is answered with the conflict: the error message is
    flashed and the response redirects back to the registration form.  A
    request that does not pass them never reaches the lookup: the form is
    shown again and nothing is flashed. *)
Theorem register_conflict_creates_nothing
    (db : Db) (now : datetime) (salt : string) (req : Request RegisterForm.t) :
  (exists u, In u (users db) /\
             (User.username u = RegisterForm.username (form req) \/
              User.email u = RegisterForm.email (form req))) ->
  store (register db now salt req) = db /\
  (validate_on_submit RegisterForm.validate req = true ->
   register db now salt req =
   mkResult (Redirect "register") [("Username or email already exists", "danger")] db) /\
  (validate_on_submit RegisterForm.validate req = false ->
   register db now salt req = mkResult (Render "register.html" [("form", CtxForm)]) [] db).
Proof.
  intros (u & Hu & Hdup).
  assert (Hex : existsb (fun u => String.eqb (User.username u) (RegisterForm.username (form req))
                                  || String.eqb (User.email u) (RegisterForm.email (form req)))
                  (users db) = true).
  { apply existsb_exists. exists u. split; [exact Hu|].
    apply orb_true_iff. destruct Hdup as [E|E]; [left|right]; apply String.eqb_eq; exact E. }
  unfold register. cbv zeta. rewrite Hex.
  destruct (validate_on_submit RegisterForm.validate req); repeat split; auto; discriminate.
Qed.

(** C4 (amended).  When the submission passes the form checks, neither the
    username nor the email is in use and the password has no NUL character,
    registration succeeds: the store gains exactly one User row, with a fresh
    id, the submitted username, email and role and the bcrypt hash of the
    submitted password, and exactly one Profile row, bound to that user, with
    the four texts empty; the success message is flashed and the response
    redirects to login. *)
Theorem register_fresh_creates_user_and_profile
    (db : Db) (now : datetime) (salt : string) (req : Request RegisterForm.t) :
  validate_on_submit RegisterForm.validate req = true ->
  (forall u, In u (users db) ->
             User.username u <> RegisterForm.username (form req) /\
             User.email u <> RegisterForm.email (form req)) ->
  Passlib.has_nul (RegisterForm.password (form req)) = false ->
  exists h u p,
    Passlib.hash salt (RegisterForm.password (form req)) = Some h /\
    u = User.mk (Sql.next_id (map User.id (users db)))
          (RegisterForm.username (form req)) (RegisterForm.email (form req)) h
          (RegisterForm.role (form req)) now /\
    p = Profile.mk (Sql.next_id (map Profile.id (profiles db)))
          (Some (User.id u)) (Some "") (Some "") (Some "") (Some "") /\
    ~ In (User.id u) (map User.id (users db)) /\
    register db now salt req =
    mkResult (Redirect "login") [("Account created. Please log in.", "success")]
      (mkDb (users db ++ [u]) (profiles db ++ [p]) (listings db) (messages db) (events db)).
Proof.
  intros Hvalid Hfresh Hnul.
  assert (Hex : existsb (fun u => String.eqb (User.username u) (RegisterForm.username (form req))
                                  || String.eqb (User.email u) (RegisterForm.email (form req)))
                  (users db) = false).
  { apply existsb_false_iff. intros u Hu. destruct (Hfresh u Hu) as [Hn He].
    apply orb_false_iff. split; apply String.eqb_neq; assumption. }
  pose proof (hash_accepts salt _ (register_password_fits req Hvalid) Hnul) as Hhash.
  unfold register, set_password. cbv zeta.
  rewrite Hvalid, Hex, Hhash.
  eexists _, _, _. split; [reflexivity|]. split; [reflexivity|]. split; [reflexivity|].
  split; [|reflexivity].
  simpl. intros Hin. apply next_id_above in Hin. lia.
Qed.

End Registration.

Lemma register_conflict_creates_nothing_witness :
  let req := Sample.post (RegisterForm.mk "farmer1" "other@example.com" "secret1" "farmer") in
  @register Sample.backend Sample.email_validator Sample.db (Sample.noon 9) Sample.salt req =
  mkResult (Redirect "register") [("Username or email already exists", "danger")] Sample.db.
Proof.
  intros req.
  destruct (@register_conflict_creates_nothing Sample.backend Sample.email_validator
              Sample.db (Sample.noon 9) Sample.salt req) as (_ & Hconflict & _).
  - exists Sample.farmer1. split; [simpl; auto | left; reflexivity].
  - apply Hconflict. reflexivity.
Defined.

Lemma register_fresh_creates_user_and_profile_witness :
  let req := Sample.post (RegisterForm.mk "alice" "alice@x.com" "pw123456" "farmer") in
  exists h u p,
    @Passlib.hash Sample.backend Sample.salt "pw123456" = Some h /\
    u = User.mk 4 "alice" "alice@x.com" h "farmer" (Sample.noon 9) /\
    p = Profile.mk 3 (Some (User.id u)) (Some "") (Some "") (Some "") (Some "") /\
    ~ In (User.id u) (map User.id (users Sample.db)) /\
    @register Sample.backend Sample.email_validator Sample.db (Sample.noon 9) Sample.salt req =
    mkResult (Redirect "login") [("Account created. Please log in.", "success")]
      (mkDb (users Sample.db ++ [u]) (profiles Sample.db ++ [p])
            (listings Sample.db) (messages Sample.db) (events Sample.db)).
Proof.
  intros req.
  apply (@register_fresh_creates_user_and_profile Sample.backend Sample.email_validator
           Sample.db (Sample.noon 9) Sample.salt req).
  - reflexivity.
  - intros u [<-|[<-|[<-|[]]]]; split; discriminate.
  - reflexivity.
Defined.

(** C3, as stated, fails: a submission under the name of a stored user that
    does not pass the form checks (here the password is too short) is not
    answered with the conflict: nothing is flashed and the form is shown
    again. *)
Lemma register_conflict_of_an_invalid_form_is_not_flashed :
  let req := Sample.post (RegisterForm.mk "farmer1" "other@example.com" "pw" "farmer") in
  (exists u, In u (users Sample.db) /\
             User.username u = RegisterForm.username (form req)) /\
  @register Sample.backend Sample.email_validator Sample.db (Sample.noon 9) Sample.salt req =
  mkResult (Render "register.html" [("form", CtxForm)]) [] Sample.db /\
  @register Sample.backend Sample.email_validator Sample.db (Sample.noon 9) Sample.salt req <>
  mkResult (Redirect "register") [("Username or email already exists", "danger")] Sample.db.
Proof.
  intros req. split; [|split].
  - exists Sample.farmer1. split; [simpl; auto | reflexivity].
  - reflexivity.
  - discriminate.
Qed.

(** C4, as stated, fails: a submission that passes every form check, with an
    unused username and email, whose password has a NUL character in it, is
    answered with a server error whatever the bcrypt backend, and no row is
    created. *)
Lemma register_nul_password_is_a_server_error :
  let req := Sample.post
               (RegisterForm.mk "alice" "alice@x.com" ("pw1234" ++ String zero "56") "farmer") in
  validate_on_submit (@RegisterForm.validate Sample.email_validator) req = true /\
  (forall u, In u (users Sample.db) ->
             User.username u <> "alice" /\ User.email u <> "alice@x.com") /\
  (forall backend : Passlib.BcryptBackend,
     @register backend Sample.email_validator Sample.db (Sample.noon 9) Sample.salt req =
     mkResult ServerError [] Sample.db).
Proof.
  split; [reflexivity|]. split.
  - intros u [<-|[<-|[<-|[]]]]; split; discriminate.
  - intros backend. reflexivity.
Qed.

(* ------------------------------------------------------------------ *)
(** ** Messages *)

Section Messages.

(** C5.  For a submission by an authenticated user that passes the form
    checks: when no stored user has the submitted receiver username, the
    error is flashed, the response redirects back to the form and the store
    is unchanged; when some user has it, the store gains exactly one Message
    row, whose sender is the current identity, whose receiver is the user
    found under that username and whose creation time is the time of the
    request. *)
Theorem new_message_needs_a_receiver
    (db : Db) (now : datetime) (cu : User.t) (req : Request MessageForm.t) :
  validate_on_submit MessageForm.validate req = true ->
  ((forall u, In u (users db) -> User.username u <> MessageForm.receiver (form req)) ->
   new_message db now (Some cu) req =
   mkResult (Redirect "new_message") [("Receiver not found.", "danger")] db) /\
  ((exists u, In u (users db) /\ User.username u = MessageForm.receiver (form req)) ->
   exists r,
     In r (users db) /\ User.username r = MessageForm.receiver (form req) /\
     new_message db now (Some cu) req =
     mkResult (Redirect "dashboard") [("Message sent.", "success")]
       (mkDb (users db) (profiles db) (listings db)
          (messages db ++
           [Message.mk (Sql.next_id (map Message.id (messages db)))
              (Some (User.id cu)) (Some (User.id r))
              (Some (MessageForm.subject (form req)))
              (Some (MessageForm.body (form req))) now])
          (events db))).
Proof.
  intros Hvalid. unfold new_message, login_required. cbv zeta. rewrite Hvalid. split.
  - intros Hnone.
    assert (E : user_by_username db (MessageForm.receiver (form req)) = None).
    { apply find_None_iff. intros u Hu. apply String.eqb_neq. auto. }
    rewrite E. reflexivity.
  - intros (u & Hu & Hname).
    destruct (find_Some_of_exists
                (fun u => String.eqb (User.username u) (MessageForm.receiver (form req)))
                (users db)) as (r & E & Hr & Hrn).
    { exists u. split; [exact Hu | apply String.eqb_eq; exact Hname]. }
    exists r. split; [exact Hr|]. split; [apply String.eqb_eq; exact Hrn|].
    unfold user_by_username. rewrite E. reflexivity.
Qed.

Lemma new_message_needs_a_receiver_witness :
  let to_nobody := Sample.post (MessageForm.mk "nobody" "Hello" "Is the milk still on offer?") in
  let to_farmer := Sample.post (MessageForm.mk "farmer1" "Hello" "Is the milk still on offer?") in
  new_message Sample.db (Sample.noon 9) (Some Sample.consumer1) to_nobody =
  mkResult (Redirect "new_message") [("Receiver not found.", "danger")] Sample.db /\
  exists r,
    In r (users Sample.db) /\ User.username r = "farmer1" /\
    new_message Sample.db (Sample.noon 9) (Some Sample.consumer1) to_farmer =
    mkResult (Redirect "dashboard") [("Message sent.", "success")]
      (mkDb (users Sample.db) (profiles Sample.db) (listings Sample.db)
         [Message.mk 1 (Some 2) (Some (User.id r)) (Some "Hello")
            (Some "Is the milk still on offer?") (Sample.noon 9)]
         (events Sample.db)).
Proof.
  intros to_nobody to_farmer. split.
  - apply (new_message_needs_a_receiver Sample.db (Sample.noon 9) Sample.consumer1 to_nobody).
    + reflexivity.
    + intros u [<-|[<-|[<-|[]]]]; discriminate.
  - apply (new_message_needs_a_receiver Sample.db (Sample.noon 9) Sample.consumer1 to_farmer).
    + reflexivity.
    + exists Sample.farmer1. split; [simpl; auto | reflexivity].
Defined.

End Messages.

(* ------------------------------------------------------------------ *)
(** ** [GET /api/users/<id>] *)

Section ApiUser.

(** C8 (amended).  For an id of the route that fits a signed 64-bit integer
    (from 0 to 2^63 - 1): when no stored user has the id, the response is
    NotFound.  When a user has it,
    the response is a JSON object whose [profile] object has the four keys
    [full_name], [phone], [location] and [bio]; each of them is the empty
    string when no Profile row is bound to the user, and each is a string (not
    [null]) while the Profile rows have their four texts filled in, as every
    row that [register] writes has. *)
Theorem api_user_profile_keys (db : Db) (user_id : Z) :
  bindable_id user_id = true ->
  ((forall u, In u (users db) -> User.id u <> user_id) ->
   api_user_route db user_id = NotFound) /\
  ((exists u, In u (users db) /\ User.id u = user_id) ->
   exists u v_full_name v_phone v_location v_bio,
     In u (users db) /\ User.id u = user_id /\
     api_user_route db user_id =
     Json (JObj
       [("id", JInt (User.id u)); ("username", JStr (User.username u));
        ("email", JStr (User.email u)); ("role", JStr (User.role u));
        ("profile", JObj [("full_name", v_full_name); ("phone", v_phone);
                          ("location", v_location); ("bio", v_bio)])]) /\
     ((forall p, In p (profiles db) -> Profile.user_id p <> Some (User.id u)) ->
      v_full_name = JStr "" /\ v_phone = JStr "" /\
      v_location = JStr "" /\ v_bio = JStr "") /\
     ((forall p, In p (profiles db) ->
                 Profile.full_name p <> None /\ Profile.phone p <> None /\
                 Profile.location p <> None /\ Profile.bio p <> None) ->
      exists a b c d,
        v_full_name = JStr a /\ v_phone = JStr b /\
        v_location = JStr c /\ v_bio = JStr d)).
Proof.
  intros Hfits. apply andb_true_iff in Hfits as [Hpos Hfits].
  unfold api_user_route. rewrite Hfits.
  replace (user_id <? 0) with false by (symmetry; apply Z.ltb_ge, Z.leb_le, Hpos).
  unfold api_user, get_user. split.
  - intros Hnone.
    assert (E : find (fun u => User.id u =? user_id) (users db) = None).
    { apply find_None_iff. intros u Hu. apply Z.eqb_neq. auto. }
    rewrite E. reflexivity.
  - intros (u0 & Hu0 & Hid0).
    destruct (find_Some_of_exists (fun u => User.id u =? user_id) (users db))
      as (u & E & Hu & Hid).
    { exists u0. split; [exact Hu0 | apply Z.eqb_eq; exact Hid0]. }
    apply Z.eqb_eq in Hid. rewrite E. cbv zeta.
    eexists u, _, _, _, _. split; [exact Hu|]. split; [exact Hid|]. split; [reflexivity|].
    split.
    + intros Hnoprofile.
      assert (Ep : profile_of db u = None).
      { apply find_None_iff. intros p Hp. specialize (Hnoprofile p Hp).
        destruct (Profile.user_id p) as [i|]; [|reflexivity].
        apply Z.eqb_neq. congruence. }
      rewrite Ep. auto.
    + intros Hfilled. destruct (profile_of db u) as [p|] eqn:Ep.
      * apply find_some in Ep as [Hp _].
        destruct (Hfilled p Hp) as (H1 & H2 & H3 & H4).
        destruct (Profile.full_name p) as [a|]; [|congruence].
        destruct (Profile.phone p) as [b|]; [|congruence].
        destruct (Profile.location p) as [c|]; [|congruence].
        destruct (Profile.bio p) as [d|]; [|congruence].
        exists a, b, c, d. auto.
      * exists "", "", "", "". auto.
Qed.

Lemma api_user_profile_keys_witness :
  api_user_route Sample.db 99 = NotFound /\
  exists u v_full_name v_phone v_location v_bio,
    In u (users Sample.db) /\ User.id u = 3 /\
    api_user_route Sample.db 3 =
    Json (JObj
      [("id", JInt (User.id u)); ("username", JStr (User.username u));
       ("email", JStr (User.email u)); ("role", JStr (User.role u));
       ("profile", JObj [("full_name", v_full_name); ("phone", v_phone);
                         ("location", v_location); ("bio", v_bio)])]) /\
    ((forall p, In p (profiles Sample.db) -> Profile.user_id p <> Some (User.id u)) ->
     v_full_name = JStr "" /\ v_phone = JStr "" /\
     v_location = JStr "" /\ v_bio = JStr "") /\
    ((forall p, In p (profiles Sample.db) ->
                Profile.full_name p <> None /\ Profile.phone p <> None /\
                Profile.location p <> None /\ Profile.bio p <> None) ->
     exists a b c d,
       v_full_name = JStr a /\ v_phone = JStr b /\
       v_location = JStr c /\ v_bio = JStr d).
Proof.
  split.
  - apply (api_user_profile_keys Sample.db 99 eq_refl).
    intros u [<-|[<-|[<-|[]]]]; discriminate.
  - apply (api_user_profile_keys Sample.db 3 eq_refl).
    exists Sample.vet1. split; [simpl; auto | reflexivity].
Defined.

(** C8, as stated, fails: no stored user has the id 2^63, which the route
    accepts, and the response is a server error, not NotFound. *)
Lemma api_user_of_an_id_that_does_not_fit_is_a_server_error :
  (forall u, In u (users Sample.db) -> User.id u <> 2 ^ 63) /\
  api_user_route Sample.db (2 ^ 63) = ServerError /\
  api_user_route Sample.db (2 ^ 63) <> NotFound.
Proof.
  split; [|split].
  - intros u [<-|[<-|[<-|[]]]]; discriminate.
  - reflexivity.
  - discriminate.
Qed.

End ApiUser.

(* ------------------------------------------------------------------ *)
(** ** Listing creation *)

Section NewListing.

Lemma new_listing_valid
    (db : Db) (now : datetime) (cu : User.t) (req : Request ListingForm.t) :
  validate_on_submit ListingForm.validate req = true ->
  new_listing db now (Some cu) req =
  mkResult (Redirect "dashboard") [("Listing created.", "success")]
    (mkDb (users db) (profiles db)
       (listings db ++
        [Listing.mk (Sql.next_id (map Listing.id (listings db)))
           (ListingForm.title (form req))
           (Some (ListingForm.description (form req)))
           (Some (User.id cu))
           (Some (ListingForm.category (form req)))
           (Sql.real_stored (or_None (float_data (ListingForm.price (form req)))))
           (ListingForm.quantity (form req))
           (ListingForm.location (form req))
           now])
       (messages db) (events db)).
Proof.
  intros Hvalid. unfold new_listing, login_required. cbv zeta. rewrite Hvalid. reflexivity.
Qed.

(** C9 (amended).  A submission by an authenticated user that passes the form
    checks creates exactly one Listing, owned by the current identity, whose
    price is either absent or the submitted float, which is then neither zero
    nor NaN.  The sign is not checked: a submitted price below zero, finite
    or infinite, is stored as it was submitted.  A submitted NaN is stored
    as no price. *)
Theorem new_listing_stores_the_submitted_price
    (db : Db) (now : datetime) (cu : User.t) (req : Request ListingForm.t) :
  validate_on_submit ListingForm.validate req = true ->
  exists l,
    new_listing db now (Some cu) req =
    mkResult (Redirect "dashboard") [("Listing created.", "success")]
      (mkDb (users db) (profiles db) (listings db ++ [l]) (messages db) (events db)) /\
    Listing.owner_id l = Some (User.id cu) /\
    (Listing.price l = None \/
     exists x, ListingForm.price (form req) = FloatValue x /\
               float_truthy x = true /\ x <> S754_nan /\ Listing.price l = Some x) /\
    (forall x, ListingForm.price (form req) = FloatValue x ->
               float_negative x = true -> Listing.price l = Some x) /\
    (ListingForm.price (form req) = FloatValue S754_nan -> Listing.price l = None).
Proof.
  intros Hvalid. eexists. split; [apply new_listing_valid; exact Hvalid|].
  split; [reflexivity|]. cbn [Listing.price]. split; [|split].
  - destruct (ListingForm.price (form req)) as [|x|]; simpl; auto.
    destruct x as [sg|sg| |sg m e]; simpl; auto;
      right; eexists; repeat split; discriminate.
  - intros x -> Hneg. destruct x; simpl in *; congruence.
  - intros ->. reflexivity.
Qed.

Lemma new_listing_stores_the_submitted_price_witness :
  let req := Sample.post (ListingForm.mk "Fresh milk" "Morning milk, chilled within the hour."
                            "milk" (FloatValue Sample.one_and_a_half) None None) in
  exists l,
    new_listing Sample.db (Sample.noon 9) (Some Sample.farmer1) req =
    mkResult (Redirect "dashboard") [("Listing created.", "success")]
      (mkDb (users Sample.db) (profiles Sample.db) (listings Sample.db ++ [l])
            (messages Sample.db) (events Sample.db)) /\
    Listing.owner_id l = Some 1 /\
    (Listing.price l = None \/
     exists x, FloatValue Sample.one_and_a_half = FloatValue x /\
               float_truthy x = true /\ x <> S754_nan /\ Listing.price l = Some x) /\
    (forall x, FloatValue Sample.one_and_a_half = FloatValue x ->
               float_negative x = true -> Listing.price l = Some x) /\
    (FloatValue Sample.one_and_a_half = FloatValue S754_nan -> Listing.price l = None).
Proof.
  intros req.
  apply (new_listing_stores_the_submitted_price
           Sample.db (Sample.noon 9) Sample.farmer1 req).
  reflexivity.
Defined.

(** C9, as stated, fails: a submission with the price -5.0 passes the form
    checks and the listing is stored with the price -5.0. *)
Lemma negative_price_is_stored :
  let req := Sample.post (ListingForm.mk "Camel wool" "Soft wool, washed and carded."
                            "other" (FloatValue Sample.minus_five) None None) in
  validate_on_submit ListingForm.validate req = true /\
  float_negative Sample.minus_five = true /\
  exists l,
    store (new_listing Sample.db (Sample.noon 9) (Some Sample.farmer1) req) =
    mkDb (users Sample.db) (profiles Sample.db) (listings Sample.db ++ [l])
         (messages Sample.db) (events Sample.db) /\
    Listing.price l = Some Sample.minus_five.
Proof.
  split; [reflexivity|]. split; [reflexivity|].
  eexists. split; reflexivity.
Qed.

(** C10.  For a submission by an authenticated user that passes the form
    checks and whose price is 0.0 (of either sign) or missing, the listing is
    stored with no price: the handler's answer is the one it gives to the same
    submission without a price, and the API shows [null] under [price]. *)
Theorem zero_price_is_stored_as_no_price
    (db : Db) (now : datetime) (cu : User.t) (req : Request ListingForm.t) :
  validate_on_submit ListingForm.validate req = true ->
  (ListingForm.price (form req) = FloatMissing \/
   exists s, ListingForm.price (form req) = FloatValue (S754_zero s)) ->
  exists l,
    store (new_listing db now (Some cu) req) =
    mkDb (users db) (profiles db) (listings db ++ [l]) (messages db) (events db) /\
    Listing.price l = None /\
    (forall db' fields,
       listing_json db' l = Some (JObj fields) -> json_get "price" fields = Some JNull) /\
    new_listing db now (Some cu) req =
    new_listing db now (Some cu)
      (mkRequest (method req) (csrf_ok req)
         (ListingForm.mk (ListingForm.title (form req)) (ListingForm.description (form req))
            (ListingForm.category (form req)) FloatMissing
            (ListingForm.quantity (form req)) (ListingForm.location (form req)))).
Proof.
  intros Hvalid Hzero.
  assert (Hprice : Sql.real_stored (or_None (float_data (ListingForm.price (form req)))) = None)
    by (destruct Hzero as [->|[s ->]]; reflexivity).
  eexists. split; [rewrite (new_listing_valid _ _ _ _ Hvalid); reflexivity|].
  cbn [Listing.price]. split; [exact Hprice|]. split.
  - intros db' fields. unfold listing_json. cbn [Listing.price]. rewrite Hprice.
    destruct (owner_of db' _); [|discriminate].
    intros H. injection H as <-. reflexivity.
  - rewrite (new_listing_valid _ _ _ _ Hvalid).
    rewrite new_listing_valid.
    + cbn [form ListingForm.title ListingForm.description ListingForm.category
           ListingForm.price ListingForm.quantity ListingForm.location float_data or_None].
      rewrite Hprice. reflexivity.
    + revert Hvalid. unfold validate_on_submit, ListingForm.validate.
      cbn [form method csrf_ok ListingForm.title ListingForm.description ListingForm.category
           ListingForm.price float_processed].
      destruct (method req); [discriminate|].
      rewrite !andb_true_iff. intros H. repeat split; try apply H.
Qed.

Lemma zero_price_is_stored_as_no_price_witness :
  let req := Sample.post (ListingForm.mk "Camel ride" "Free rides for children on Sunday."
                            "other" (FloatValue (S754_zero false)) None None) in
  exists l,
    store (new_listing Sample.db (Sample.noon 9) (Some Sample.farmer1) req) =
    mkDb (users Sample.db) (profiles Sample.db) (listings Sample.db ++ [l])
         (messages Sample.db) (events Sample.db) /\
    Listing.price l = None /\
    (forall db' fields,
       listing_json db' l = Some (JObj fields) -> json_get "price" fields = Some JNull) /\
    new_listing Sample.db (Sample.noon 9) (Some Sample.farmer1) req =
    new_listing Sample.db (Sample.noon 9) (Some Sample.farmer1)
      (Sample.post (ListingForm.mk "Camel ride" "Free rides for children on Sunday."
                      "other" FloatMissing None None)).
Proof.
  intros req.
  apply (zero_price_is_stored_as_no_price Sample.db (Sample.noon 9) Sample.farmer1 req).
  - reflexivity.
  - right. exists false. reflexivity.
Defined.

End NewListing.

(* ------------------------------------------------------------------ *)
(** ** Event creation and the date format *)

Section NewEvent.

Lemma digit_range (c : ascii) (v : Z) : Strptime.digit c = Some v -> 0 <= v <= 9.
Proof.
  unfold Strptime.digit. cbv zeta.
  destruct (Z.leb_spec 48 (Z.of_N (N_of_ascii c)));
    destruct (Z.leb_spec (Z.of_N (N_of_ascii c)) 57); simpl; intros E;
    try discriminate.
  injection E as <-. lia.
Qed.

Lemma in_class_digit (lo hi : Z) (c : ascii) (v : Z) :
  Strptime.digit c = Some v ->
  Strptime.in_class lo hi c = if (lo <=? v) && (v <=? hi) then Some v else None.
Proof. intros E. unfold Strptime.in_class. rewrite E. reflexivity. Qed.

Ltac split_leb :=
  repeat match goal with
         | |- context [Z.leb ?a ?b] => destruct (Z.leb_spec a b); try lia
         end.

(** A month written with two digits is read by the month group as that
    number, whenever the rest of the pattern then matches. *)
Lemma re_m_two_digits {R : Type} (k : Z -> string -> option R)
    (m1 m2 : ascii) (e f : Z) (rest : string) (r : R) :
  Strptime.digit m1 = Some e -> Strptime.digit m2 = Some f ->
  1 <= 10 * e + f <= 12 ->
  k (10 * e + f) rest = Some r ->
  Strptime.re_m (String m1 (String m2 rest)) k = Some r.
Proof.
  intros E1 E2 Hm Hk.
  pose proof (digit_range _ _ E1). pose proof (digit_range _ _ E2).
  unfold Strptime.re_m, Strptime.two, Strptime.one.
  rewrite !(in_class_digit _ _ m1 e E1), !(in_class_digit _ _ m2 f E2).
  split_leb; cbn [andb Strptime.orelse]; rewrite ?Hk; reflexivity.
Qed.

Lemma re_d_two_digits {R : Type} (k : Z -> string -> option R)
    (d1 d2 : ascii) (g h : Z) (rest : string) (r : R) :
  Strptime.digit d1 = Some g -> Strptime.digit d2 = Some h ->
  1 <= 10 * g + h <= 31 ->
  k (10 * g + h) rest = Some r ->
  Strptime.re_d (String d1 (String d2 rest)) k = Some r.
Proof.
  intros E1 E2 Hd Hk.
  pose proof (digit_range _ _ E1). pose proof (digit_range _ _ E2).
  unfold Strptime.re_d, Strptime.two, Strptime.one.
  rewrite !(in_class_digit _ _ d1 g E1), !(in_class_digit _ _ d2 h E2).
  split_leb; cbn [andb Strptime.orelse]; rewrite ?Hk; reflexivity.
Qed.

Lemma days_in_month_le_31 (y m : Z) : Strptime.days_in_month y m <= 31.
Proof.
  unfold Strptime.days_in_month.
  destruct (m =? 2); [destruct (Strptime.is_leap y); lia|].
  destruct ((m =? 4) || (m =? 6) || (m =? 9) || (m =? 11)); lia.
Qed.

Lemma valid_date_bounds (y m d : Z) :
  Strptime.valid_date y m d = true -> 1 <= m <= 12 /\ 1 <= d <= 31.
Proof.
  unfold Strptime.valid_date. rewrite !andb_true_iff, !Z.leb_le.
  pose proof (days_in_month_le_31 y m). lia.
Qed.

(** Every text in the strict shape that names a calendar day is parsed, to
    that day. *)
Lemma strptime_strict (s : string) (y m d : Z) :
  strict_ymd s = Some (y, m, d) ->
  Strptime.strptime s = Some (mkDatetime y m d 0 0 0 0).
Proof.
  unfold strict_ymd.
  destruct s as [|y1 [|y2 [|y3 [|y4 [|h1 [|m1 [|m2 [|h2 [|d1 [|d2 [|? ?]]]]]]]]]]];
    try discriminate.
  destruct (Strptime.digit y1) as [a|] eqn:Ea; [|discriminate].
  destruct (Strptime.digit y2) as [b|] eqn:Eb; [|discriminate].
  destruct (Strptime.digit y3) as [c|] eqn:Ec; [|discriminate].
  destruct (Strptime.digit y4) as [d0|] eqn:Ed; [|discriminate].
  destruct (Strptime.digit m1) as [e|] eqn:Ee; [|discriminate].
  destruct (Strptime.digit m2) as [f|] eqn:Ef; [|discriminate].
  destruct (Strptime.digit d1) as [g|] eqn:Eg; [|discriminate].
  destruct (Strptime.digit d2) as [h|] eqn:Eh; [|discriminate].
  cbv zeta.
  destruct (Ascii.eqb h1 "-") eqn:H1; [|discriminate].
  destruct (Ascii.eqb h2 "-") eqn:H2; [|discriminate].
  cbn [andb].
  destruct (Strptime.valid_date _ _ _) eqn:Hv; [|discriminate].
  intros E. injection E as <- <- <-.
  apply Ascii.eqb_eq in H1, H2. subst h1 h2.
  destruct (valid_date_bounds _ _ _ Hv) as [Hm Hd].
  unfold Strptime.strptime.
  assert (Hre : Strptime.regex_match
                  (String y1 (String y2 (String y3 (String y4 (String "-"
                     (String m1 (String m2 (String "-" (String d1 (String d2 "")))))))))) =
                Some (1000 * a + 100 * b + 10 * c + d0, 10 * e + f, 10 * g + h, "")).
  { unfold Strptime.regex_match, Strptime.re_Y. rewrite Ea, Eb, Ec, Ed.
    unfold Strptime.lit at 1. rewrite Ascii.eqb_refl.
    apply (re_m_two_digits _ m1 m2 e f _ _ Ee Ef Hm).
    unfold Strptime.lit. rewrite Ascii.eqb_refl.
    apply (re_d_two_digits _ d1 d2 g h _ _ Eg Eh Hd). reflexivity. }
  rewrite Hre. cbn [str_truthy]. rewrite Hv. reflexivity.
Qed.

(** What [strptime] returns is a calendar day, at midnight. *)
Lemma strptime_is_a_date (s : string) (dt : datetime) :
  Strptime.strptime s = Some dt ->
  Strptime.valid_date (year dt) (month dt) (day dt) = true /\
  dt = mkDatetime (year dt) (month dt) (day dt) 0 0 0 0.
Proof.
  unfold Strptime.strptime.
  destruct (Strptime.regex_match s) as [[[[y m] d] rest]|]; [|discriminate].
  destruct (str_truthy rest); [discriminate|].
  destruct (Strptime.valid_date y m d) eqn:Hv; [|discriminate].
  intros E. injection E as <-. simpl. auto.
Qed.

(** C2 (amended).  For a submission by an authenticated user that passes the
    form checks: when [strptime] refuses the date text under [%Y-%m-%d], the
    error is flashed, the response redirects back to the form and no Event row
    is created; when it accepts the text, exactly one Event row is created,
    whose date is the parsed day (a day of the calendar, at midnight) and
    whose organizer is the current identity.  Every text in the strict shape
    YYYY-MM-DD that names a calendar day is accepted, as that day; the parser
    accepts more than the strict shape (a month or a day of one digit, a day
    padded with a space). *)
Theorem new_event_date
    (db : Db) (now : datetime) (cu : User.t) (req : Request EventForm.t) :
  validate_on_submit EventForm.validate req = true ->
  (Strptime.strptime (EventForm.date (form req)) = None ->
   new_event db now (Some cu) req =
   mkResult (Redirect "new_event") [("Invalid date format. Use YYYY-MM-DD.", "danger")] db) /\
  (forall dt,
     Strptime.strptime (EventForm.date (form req)) = Some dt ->
     Strptime.valid_date (year dt) (month dt) (day dt) = true /\
     dt = mkDatetime (year dt) (month dt) (day dt) 0 0 0 0 /\
     new_event db now (Some cu) req =
     mkResult (Redirect "dashboard") [("Event created.", "success")]
       (mkDb (users db) (profiles db) (listings db) (messages db)
          (events db ++
           [Event.mk (Sql.next_id (map Event.id (events db)))
              (Some (EventForm.title (form req)))
              (Some (EventForm.description (form req)))
              (Some dt) (Some (User.id cu)) now]))) /\
  (forall y m d,
     strict_ymd (EventForm.date (form req)) = Some (y, m, d) ->
     Strptime.strptime (EventForm.date (form req)) = Some (mkDatetime y m d 0 0 0 0)).
Proof.
  intros Hvalid. unfold new_event, login_required. cbv zeta. rewrite Hvalid.
  split; [|split].
  - intros E. rewrite E. reflexivity.
  - intros dt E. rewrite E.
    destruct (strptime_is_a_date _ _ E) as [Hv Hdt]. auto.
  - intros y m d. apply strptime_strict.
Qed.

Lemma new_event_date_witness :
  let bad := Sample.post (EventForm.mk "Herd health day" "Free checkups for camel herds."
                            "20/04/2025") in
  let good := Sample.post (EventForm.mk "Herd health day" "Free checkups for camel herds."
                             "2025-04-20") in
  new_event Sample.db (Sample.noon 9) (Some Sample.vet1) bad =
  mkResult (Redirect "new_event") [("Invalid date format. Use YYYY-MM-DD.", "danger")]
    Sample.db /\
  Strptime.strptime "2025-04-20" = Some (mkDatetime 2025 4 20 0 0 0 0) /\
  new_event Sample.db (Sample.noon 9) (Some Sample.vet1) good =
  mkResult (Redirect "dashboard") [("Event created.", "success")]
    (mkDb (users Sample.db) (profiles Sample.db) (listings Sample.db) (messages Sample.db)
       (events Sample.db ++
        [Event.mk 3 (Some "Herd health day") (Some "Free checkups for camel herds.")
           (Some (mkDatetime 2025 4 20 0 0 0 0)) (Some 3) (Sample.noon 9)])).
Proof.
  intros bad good.
  destruct (new_event_date Sample.db (Sample.noon 9) Sample.vet1 bad eq_refl) as (Hbad & _ & _).
  destruct (new_event_date Sample.db (Sample.noon 9) Sample.vet1 good eq_refl)
    as (_ & Hgood & Hstrict).
  split; [apply Hbad; reflexivity|].
  pose proof (Hstrict 2025 4 20 eq_refl) as Hparse.
  split; [exact Hparse|].
  apply (Hgood _ Hparse).
Defined.

(** C2, as stated, fails: the text "2024-1-5" is not in the shape YYYY-MM-DD,
    and the handler accepts it and creates the Event of 5 January 2024. *)
Lemma one_digit_month_and_day_are_accepted :
  let req := Sample.post (EventForm.mk "Herd health day" "Free checkups for camel herds."
                            "2024-1-5") in
  validate_on_submit EventForm.validate req = true /\
  strict_ymd "2024-1-5" = None /\
  new_event Sample.db (Sample.noon 9) (Some Sample.vet1) req =
  mkResult (Redirect "dashboard") [("Event created.", "success")]
    (mkDb (users Sample.db) (profiles Sample.db) (listings Sample.db) (messages Sample.db)
       (events Sample.db ++
        [Event.mk 3 (Some "Herd health day") (Some "Free checkups for camel herds.")
           (Some (mkDatetime 2024 1 5 0 0 0 0)) (Some 3) (Sample.noon 9)])).
Proof. repeat split. Qed.

End NewEvent.

(* ------------------------------------------------------------------ *)
(** ** Passwords *)

Section Passwords.

Lemma substring_whole (b : string) : substring 0 (String.length b) b = b.
Proof. induction b as [|c b IH]; simpl; congruence. Qed.

Lemma substring_app_l (a b : string) : substring 0 (String.length a) (a ++ b) = a.
Proof.
  induction a as [|c a IH]; simpl; [destruct b; reflexivity | congruence].
Qed.

Lemma substring_app_r (a b : string) :
  substring (String.length a) (String.length b) (a ++ b) = b.
Proof. induction a as [|c a IH]; simpl; [apply substring_whole | exact IH]. Qed.

Context {backend : Passlib.BcryptBackend}.

(** Verifying against a text that [hash] wrote: the salt is read back and the
    two checksums are compared. *)
Lemma verify_after_hash (salt password other : string) :
  String.length salt = 22%nat ->
  Passlib.validate_secret (Passlib.utf8 other) = true ->
  Passlib.has_nul other = false ->
  Passlib.verify other
    (Passlib.ident_rounds ++ salt ++
     Passlib.bcrypt_digest salt (Passlib.truncate72 (Passlib.utf8 password))) =
  Some (String.eqb
          (Passlib.bcrypt_digest salt (Passlib.truncate72 (Passlib.utf8 other)))
          (Passlib.bcrypt_digest salt (Passlib.truncate72 (Passlib.utf8 password)))).
Proof.
  intros Hsalt Hsize Hnul. unfold Passlib.verify. cbv zeta.
  rewrite (validate_secret_utf8 _ Hsize), Hsize, has_nul_utf8, Hnul. cbn [negb].
  set (d := Passlib.bcrypt_digest salt (Passlib.truncate72 (Passlib.utf8 password))).
  change (Passlib.strip_prefix Passlib.ident_rounds (Passlib.ident_rounds ++ salt ++ d))
    with (Some (salt ++ d)).
  cbv iota beta.
  rewrite length_app, Hsalt.
  replace (22 + String.length d <? 22)%nat with false
    by (symmetry; apply Nat.ltb_ge; lia).
  replace (22 + String.length d - 22)%nat with (String.length d) by lia.
  rewrite <- Hsalt, substring_app_l, substring_app_r. reflexivity.
Qed.

(** C7 (amended).  A password of at most 4096 bytes in UTF-8 with no NUL
    character has a hash, and verifying that password against its hash
    returns true.  Verifying another such password returns whether its bcrypt
    checksum under the stored salt is the checksum stored; bcrypt reads the
    first 72 bytes of the encoded password only, so every such password that
    agrees with the hashed one on these bytes is verified as well. *)
Theorem password_round_trip (salt password : string) :
  String.length salt = 22%nat ->
  Passlib.validate_secret (Passlib.utf8 password) = true ->
  Passlib.has_nul password = false ->
  exists h,
    set_password salt password = Some h /\
    check_password h password = Some true /\
    (forall other,
       Passlib.validate_secret (Passlib.utf8 other) = true ->
       Passlib.has_nul other = false ->
       check_password h other =
       Some (String.eqb
               (Passlib.bcrypt_digest salt (Passlib.truncate72 (Passlib.utf8 other)))
               (Passlib.bcrypt_digest salt (Passlib.truncate72 (Passlib.utf8 password))))) /\
    (forall other,
       Passlib.validate_secret (Passlib.utf8 other) = true ->
       Passlib.has_nul other = false ->
       Passlib.truncate72 (Passlib.utf8 other) = Passlib.truncate72 (Passlib.utf8 password) ->
       check_password h other = Some true).
Proof.
  intros Hsalt Hsize Hnul. unfold set_password, check_password.
  rewrite (hash_accepts salt password Hsize Hnul). eexists. split; [reflexivity|].
  split; [|split].
  - rewrite (verify_after_hash salt password password Hsalt Hsize Hnul), String.eqb_refl.
    reflexivity.
  - intros other Hfits Hother. apply verify_after_hash; assumption.
  - intros other Hfits Hother Htrunc.
    rewrite (verify_after_hash salt password other Hsalt Hfits Hother), Htrunc,
      String.eqb_refl.
    reflexivity.
Qed.

End Passwords.

Lemma password_round_trip_witness :
  exists h,
    @set_password Sample.backend Sample.salt "farmerpass" = Some h /\
    @check_password Sample.backend h "farmerpass" = Some true /\
    @check_password Sample.backend h "farmerpasS" = Some false /\
    @check_password Sample.backend h Sample.long_password = Some false.
Proof.
  destruct (@password_round_trip Sample.backend Sample.salt "farmerpass"
              eq_refl eq_refl eq_refl)
    as (h & Hset & Hsame & Hother & _).
  exists h. split; [exact Hset|]. split; [exact Hsame|]. split.
  - rewrite (Hother "farmerpasS" eq_refl eq_refl). reflexivity.
  - rewrite (Hother Sample.long_password eq_refl eq_refl). reflexivity.
Defined.

(** C7, as stated, fails: two passwords of 73 characters that differ in the
    last character only are different, and the second is verified against the
    hash of the first, whatever the bcrypt backend and the salt; and a
    password with a NUL character in it, or one of 4097 characters, has no
    hash to verify against. *)
Lemma passwords_alike_on_72_bytes_verify :
  Sample.other_long_password <> Sample.long_password /\
  (forall (backend : Passlib.BcryptBackend) (salt : string),
     String.length salt = 22%nat ->
     exists h,
       @set_password backend salt Sample.long_password = Some h /\
       @check_password backend h Sample.other_long_password = Some true) /\
  (forall (backend : Passlib.BcryptBackend) (salt : string),
     @set_password backend salt ("pw1234" ++ String zero "56") = None) /\
  (forall (backend : Passlib.BcryptBackend) (salt : string),
     @set_password backend salt Sample.oversized_password = None).
Proof.
  split; [vm_compute; discriminate|]. split; [|split; [reflexivity|]].
  2: { intros backend salt. vm_compute. reflexivity. }
  intros backend salt Hsalt. eexists. split; [reflexivity|].
  unfold check_password.
  rewrite (@verify_after_hash backend salt Sample.long_password Sample.other_long_password
             Hsalt eq_refl eq_refl).
  change (Passlib.truncate72 (Passlib.utf8 Sample.other_long_password))
    with (Passlib.truncate72 (Passlib.utf8 Sample.long_password)).
  rewrite String.eqb_refl. reflexivity.
Qed.

(* ------------------------------------------------------------------ *)
(** ** What the write handlers keep *)

Section Consistency.

Lemma NoDup_map_snoc {A B : Type} (f : A -> B) (l : list A) (x : A) :
  NoDup (map f l) -> ~ In (f x) (map f l) -> NoDup (map f (l ++ [x])).
Proof.
  intros Hl Hx. rewrite map_app. apply NoDup_app.
  - exact Hl.
  - repeat constructor. simpl. tauto.
  - intros a Ha [<-|[]]. contradiction.
Qed.

Lemma next_id_fresh (ids : list Z) : ~ In (Sql.next_id ids) ids.
Proof. intros H. apply next_id_above in H. lia. Qed.

Lemma In_snoc {A : Type} (l : list A) (x y : A) : In y (l ++ [x]) <-> In y l \/ y = x.
Proof. rewrite in_app_iff. simpl. intuition auto. Qed.

Lemma consistent_add_listing (db : Db) (l : Listing.t) :
  consistent db ->
  Listing.id l = Sql.next_id (map Listing.id (listings db)) ->
  (exists u, In u (users db) /\ Listing.owner_id l = Some (User.id u)) ->
  consistent (add_listing db l).
Proof.
  intros H Hid Hown. destruct H. constructor; cbn; try assumption.
  - apply NoDup_map_snoc; [assumption|]. rewrite Hid. apply next_id_fresh.
  - intros l' Hl'. apply In_snoc in Hl' as [Hl'| ->]; auto.
Qed.

Lemma consistent_add_message (db : Db) (m : Message.t) :
  consistent db ->
  Message.id m = Sql.next_id (map Message.id (messages db)) ->
  (exists u, In u (users db) /\ Message.sender_id m = Some (User.id u)) ->
  (exists u, In u (users db) /\ Message.receiver_id m = Some (User.id u)) ->
  consistent (add_message db m).
Proof.
  intros H Hid Hs Hr. destruct H. constructor; cbn; try assumption.
  - apply NoDup_map_snoc; [assumption|]. rewrite Hid. apply next_id_fresh.
  - intros m' Hm'. apply In_snoc in Hm' as [Hm'| ->]; auto.
Qed.

Lemma consistent_add_event (db : Db) (e : Event.t) :
  consistent db ->
  Event.id e = Sql.next_id (map Event.id (events db)) ->
  (exists u, In u (users db) /\ Event.organizer_id e = Some (User.id u)) ->
  Event.date e <> None ->
  consistent (add_event db e).
Proof.
  intros H Hid Ho Hd. destruct H. constructor; cbn; try assumption.
  - apply NoDup_map_snoc; [assumption|]. rewrite Hid. apply next_id_fresh.
  - intros e' He'. apply In_snoc in He' as [He'| ->]; auto.
Qed.

(** A new user with an unused name, an unused email and a known role, and
    the empty profile bound to it. *)
Lemma consistent_add_user_and_profile (db : Db) (u : User.t) (p : Profile.t) :
  consistent db ->
  User.id u = Sql.next_id (map User.id (users db)) ->
  ~ In (User.username u) (map User.username (users db)) ->
  ~ In (User.email u) (map User.email (users db)) ->
  (exists r, User.role u = RoleEnum_value r) ->
  p = Profile.mk (Sql.next_id (map Profile.id (profiles db)))
        (Some (User.id u)) (Some "") (Some "") (Some "") (Some "") ->
  consistent (add_profile (add_user db u) p).
Proof.
  intros H Hid Hname Hemail Hrole ->. destruct H.
  assert (Hwiden : forall (P : User.t -> Prop),
            (exists v, In v (users db) /\ P v) -> exists v, In v (users db ++ [u]) /\ P v).
  { intros P (v & Hv & HP). exists v. split; [apply In_snoc; auto | exact HP]. }
  constructor; cbn; try assumption.
  - apply NoDup_map_snoc; assumption.
  - apply NoDup_map_snoc; assumption.
  - apply NoDup_map_snoc; [assumption|]. rewrite Hid. apply next_id_fresh.
  - apply NoDup_map_snoc; [assumption|]. apply next_id_fresh.
  - intros v Hv. apply In_snoc in Hv as [Hv| ->]; auto.
  - apply NoDup_map_snoc; [assumption|]. cbn.
    intros Hin. apply in_map_iff in Hin as (q & Hq & Hqin).
    destruct (profiles_bound0 q Hqin) as ((v & Hv & Hqv) & _).
    assert (User.id v = User.id u) by congruence.
    apply (next_id_fresh (map User.id (users db))). rewrite <- Hid, <- H.
    apply in_map. exact Hv.
  - intros v Hv. apply In_snoc in Hv as [Hv| ->].
    + destruct (profile_of_each0 v Hv) as (q & Hq & Hqv).
      exists q. split; [apply In_snoc; auto | exact Hqv].
    + eexists. split; [apply In_snoc; right; reflexivity | reflexivity].
  - intros q Hq. apply In_snoc in Hq as [Hq| ->].
    + destruct (profiles_bound0 q Hq) as (Hb & Hrest). split; [|exact Hrest].
      apply Hwiden. exact Hb.
    + cbn. split; [exists u; split; [apply In_snoc; auto | reflexivity]|].
      repeat split; discriminate.
  - intros l Hl. apply Hwiden. auto.
  - intros m Hm. destruct (messages_bound0 m Hm). split; apply Hwiden; assumption.
  - intros e He. destruct (events_bound0 e He). split; [apply Hwiden|]; assumption.
Qed.

Lemma choice_role (role : string) :
  Validators.choice (map RoleEnum_value RoleEnum_members) role = true ->
  exists r, role = RoleEnum_value r.
Proof.
  unfold Validators.choice. intros H. apply existsb_exists in H as (v & Hv & E).
  apply String.eqb_eq in E. subst v. apply in_map_iff in Hv as (r & Hr & _).
  exists r. auto.
Qed.

Context {backend : Passlib.BcryptBackend} {email_validator : Validators.EmailValidator}.

Lemma register_consistent (db : Db) (now : datetime) (salt : string)
    (req : Request RegisterForm.t) :
  consistent db -> consistent (store (register db now salt req)).
Proof.
  intros H. unfold register. cbv zeta.
  destruct (validate_on_submit RegisterForm.validate req) eqn:Hvalid; [|exact H].
  destruct (existsb _ (users db)) eqn:Hex; [exact H|].
  destruct (set_password salt (RegisterForm.password (form req))) as [h|]; [|exact H].
  cbn [store]. apply consistent_add_user_and_profile; try reflexivity; try exact H.
  - cbn. intros Hin. apply in_map_iff in Hin as (v & Hv & Hvin).
    pose proof (proj1 (existsb_false_iff _ _) Hex v Hvin) as Hf.
    apply orb_false_iff in Hf as [Hf _]. apply String.eqb_neq in Hf. contradiction.
  - cbn. intros Hin. apply in_map_iff in Hin as (v & Hv & Hvin).
    pose proof (proj1 (existsb_false_iff _ _) Hex v Hvin) as Hf.
    apply orb_false_iff in Hf as [_ Hf]. apply String.eqb_neq in Hf. contradiction.
  - cbn. apply choice_role.
    unfold validate_on_submit, RegisterForm.validate in Hvalid.
    destruct (method req); [discriminate|].
    rewrite !andb_true_iff in Hvalid. apply Hvalid.
Qed.

Lemma new_listing_consistent (db : Db) (now : datetime) (cu : option User.t)
    (req : Request ListingForm.t) :
  consistent db -> (forall u, cu = Some u -> In u (users db)) ->
  consistent (store (new_listing db now cu req)).
Proof.
  intros H Hcu. unfold new_listing, login_required.
  destruct cu as [u|]; [|exact H]. cbv zeta.
  destruct (validate_on_submit ListingForm.validate req); [|exact H].
  cbn [store]. apply consistent_add_listing; [exact H | reflexivity |].
  exists u. split; [apply Hcu; reflexivity | reflexivity].
Qed.

Lemma new_message_consistent (db : Db) (now : datetime) (cu : option User.t)
    (req : Request MessageForm.t) :
  consistent db -> (forall u, cu = Some u -> In u (users db)) ->
  consistent (store (new_message db now cu req)).
Proof.
  intros H Hcu. unfold new_message, login_required.
  destruct cu as [u|]; [|exact H]. cbv zeta.
  destruct (validate_on_submit MessageForm.validate req); [|exact H].
  destruct (user_by_username db (MessageForm.receiver (form req))) as [r|] eqn:Er; [|exact H].
  apply find_some in Er as [Hr _].
  cbn [store]. apply consistent_add_message; [exact H | reflexivity | |].
  - exists u. split; [apply Hcu; reflexivity | reflexivity].
  - exists r. split; [exact Hr | reflexivity].
Qed.

Lemma new_event_consistent (db : Db) (now : datetime) (cu : option User.t)
    (req : Request EventForm.t) :
  consistent db -> (forall u, cu = Some u -> In u (users db)) ->
  consistent (store (new_event db now cu req)).
Proof.
  intros H Hcu. unfold new_event, login_required.
  destruct cu as [u|]; [|exact H]. cbv zeta.
  destruct (validate_on_submit EventForm.validate req); [|exact H].
  destruct (Strptime.strptime (EventForm.date (form req))) as [dt|]; [|exact H].
  cbn [store]. apply consistent_add_event; [exact H | reflexivity | | discriminate].
  exists u. split; [apply Hcu; reflexivity | reflexivity].
Qed.

Lemma handle_consistent (db : Db) (a : action) :
  consistent db -> identity_stored db a -> consistent (store (handle db a)).
Proof.
  intros H Ha. destruct a; cbn [handle].
  - apply register_consistent; exact H.
  - apply new_listing_consistent; assumption.
  - apply new_message_consistent; assumption.
  - apply new_event_consistent; assumption.
Qed.

End Consistency.

(* ------------------------------------------------------------------ *)
(** ** Seeding *)

Section Seeding.

Context {backend : Passlib.BcryptBackend}.

Lemma set_password_accepts (salt password : string) :
  Passlib.validate_secret (Passlib.utf8 password) = true ->
  Passlib.has_nul password = false ->
  set_password salt password = Some (hash_text salt password).
Proof. intros Hsize H. unfold set_password. apply hash_accepts; assumption. Qed.

Lemma check_password_hash_text (salt password other : string) :
  String.length salt = 22%nat ->
  Passlib.validate_secret (Passlib.utf8 other) = true ->
  Passlib.has_nul other = false ->
  check_password (hash_text salt password) other =
  Some (String.eqb
          (Passlib.bcrypt_digest salt (Passlib.truncate72 (Passlib.utf8 other)))
          (Passlib.bcrypt_digest salt (Passlib.truncate72 (Passlib.utf8 password)))).
Proof. intros Hs Hsize Hn. apply verify_after_hash; assumption. Qed.

Lemma check_password_same (salt password : string) :
  String.length salt = 22%nat ->
  Passlib.validate_secret (Passlib.utf8 password) = true ->
  Passlib.has_nul password = false ->
  check_password (hash_text salt password) password = Some true.
Proof.
  intros Hs Hsize Hn. rewrite check_password_hash_text by assumption.
  rewrite String.eqb_refl. reflexivity.
Qed.

Ltac seed_store :=
  unfold Seed.initdb_command, Seed.seed_data, Seed.sample_users;
  cbn [Seed.pending_users];
  rewrite !set_password_accepts by reflexivity;
  cbv -[hash_text]; reflexivity.

Ltac each_row H :=
  cbn in H; repeat (destruct H as [<-|H]); try contradiction.

Ltac pick_row := cbn; ((left; reflexivity) + (right; pick_row)).
Ltac row_with := eexists; split; [pick_row | reflexivity].

Lemma seeded_store (salt : nat -> string) (clock : nat -> datetime) :
  exists db,
    Seed.initdb_command salt clock = Some db /\
    consistent db /\
    map User.username (users db) =
      ["farmer1"; "producer1"; "consumer1"; "research1"; "vet1"; "trans1"; "ent1"; "gov1"] /\
    map User.role (users db) = map RoleEnum_value RoleEnum_members /\
    List.length (profiles db) = 8%nat /\ List.length (listings db) = 4%nat /\
    List.length (events db) = 1%nat /\ List.length (messages db) = 1%nat.
Proof.
  eexists. split; [seed_store|].
  split; [|repeat split].
  constructor; cbn -[hash_text].
  - repeat constructor; cbn; intuition discriminate.
  - repeat constructor; cbn; intuition discriminate.
  - repeat constructor; cbn; intuition discriminate.
  - repeat constructor; cbn; intuition discriminate.
  - repeat constructor; cbn; intuition discriminate.
  - repeat constructor; cbn; intuition discriminate.
  - repeat constructor; cbn; intuition discriminate.
  - intros u Hu. each_row Hu;
      first [ exists FARMER; reflexivity | exists PRODUCER; reflexivity
            | exists CONSUMER; reflexivity | exists RESEARCHER; reflexivity
            | exists VET; reflexivity | exists TRANSPORTER; reflexivity
            | exists ENTREPRENEUR; reflexivity | exists GOV; reflexivity ].
  - repeat constructor; cbn; intuition discriminate.
  - intros u Hu. each_row Hu; row_with.
  - intros p Hp. each_row Hp; (split; [row_with | repeat split; discriminate]).
  - intros l Hl. each_row Hl; row_with.
  - intros m Hm. each_row Hm; split; row_with.
  - intros e He. each_row He; (split; [row_with | discriminate]).
Qed.

(** X1.  Seeding a store that was just created never fails, whatever the
    bcrypt backend, the salts and the clock: it leaves eight users, one per
    role, each with one profile, four listings, one event and one message, in
    a store that is consistent (names, emails and ids are unique, every
    reference points to a stored user, no profile text is null). *)
Theorem seeding_an_empty_store (salt : nat -> string) (clock : nat -> datetime) :
  exists db,
    Seed.initdb_command salt clock = Some db /\
    Seed.first_run None salt clock = Some db /\
    consistent db /\
    map User.username (users db) =
      ["farmer1"; "producer1"; "consumer1"; "research1"; "vet1"; "trans1"; "ent1"; "gov1"] /\
    map User.role (users db) = map RoleEnum_value RoleEnum_members /\
    List.length (profiles db) = 8%nat /\ List.length (listings db) = 4%nat /\
    List.length (events db) = 1%nat /\ List.length (messages db) = 1%nat.
Proof.
  destruct (seeded_store salt clock) as (db & Hdb & Hrest).
  exists db. split; [exact Hdb|]. split; [exact Hdb | exact Hrest].
Qed.

Lemma pending_users_rows (salt : nat -> string) (k : nat)
    (samples pending : list (string * string * string * string)) :
  Seed.pending_users salt k samples = Some pending ->
  forall n e p r, In (n, e, p, r) samples -> exists h, In (n, e, h, r) pending.
Proof.
  revert k pending. induction samples as [|[[[n0 e0] p0] r0] samples IH];
    intros k pending Hp n e p r Hin; [destruct Hin|].
  cbn [Seed.pending_users] in Hp.
  destruct (set_password (salt k) p0) as [h0|]; [|discriminate].
  destruct (Seed.pending_users salt (S k) samples) as [rest|] eqn:Er; [|discriminate].
  injection Hp as <-. destruct Hin as [E|Hin].
  - injection E as <- <- <- <-. exists h0. left. reflexivity.
  - destruct (IH _ _ Er n e p r Hin) as (h & Hh). exists h. right. exact Hh.
Qed.

Lemma flush_users_clash (clock : nat -> datetime) (k : nat) (table : list User.t)
    (pending : list (string * string * string * string)) :
  (exists u n e h r,
     In u table /\ In (n, e, h, r) pending /\
     (User.username u = n \/ User.email u = e)) ->
  Seed.flush_users clock k table pending = None.
Proof.
  revert k table. induction pending as [|[[[n0 e0] h0] r0] pending IH];
    intros k table (u & n & e & h & r & Hu & Hrow & Hclash); [destruct Hrow|].
  cbn [Seed.flush_users]. unfold Seed.insert_user.
  destruct (existsb _ table) eqn:Ex; [reflexivity|].
  apply IH. destruct Hrow as [E|Hrow].
  - exfalso. injection E as -> -> -> ->.
    pose proof (proj1 (existsb_false_iff _ _) Ex u Hu) as Hf.
    apply orb_false_iff in Hf as [Hf1 Hf2].
    apply String.eqb_neq in Hf1, Hf2. tauto.
  - exists u, n, e, h, r. split; [apply In_snoc; auto | auto].
Qed.

(** X2.  Seeding is refused by the [unique] constraints of [users] as soon
    as a stored user has the name or the email of a sample user: the first
    commit raises and nothing is written.  So seeding a store that was seeded
    before always fails. *)
Theorem seeding_twice_is_refused (db : Db) (salt : nat -> string) (clock : nat -> datetime) :
  ((exists u n e p r,
      In u (users db) /\ In (n, e, p, r) Seed.sample_users /\
      (User.username u = n \/ User.email u = e)) ->
   Seed.seed_data db salt clock = None) /\
  (forall salt0 clock0,
     Seed.initdb_command salt0 clock0 = Some db -> Seed.seed_data db salt clock = None).
Proof.
  assert (Hclash : (exists u n e p r,
                      In u (users db) /\ In (n, e, p, r) Seed.sample_users /\
                      (User.username u = n \/ User.email u = e)) ->
                   Seed.seed_data db salt clock = None).
  { intros (u & n & e & p & r & Hu & Hrow & Hc). unfold Seed.seed_data.
    destruct (Seed.pending_users salt 0 Seed.sample_users) as [pending|] eqn:Ep;
      [|reflexivity].
    destruct (pending_users_rows _ _ _ _ Ep n e p r Hrow) as (h & Hh).
    rewrite (flush_users_clash clock 0 (users db) pending); [reflexivity|].
    exists u, n, e, h, r. auto. }
  split; [exact Hclash|].
  intros salt0 clock0 Hseed. apply Hclash.
  destruct (seeded_store salt0 clock0) as (db0 & Hdb0 & _ & Hnames & _).
  rewrite Hseed in Hdb0. injection Hdb0 as <-.
  destruct (users db) as [|u us]; [discriminate|].
  exists u, "farmer1", "farmer1@example.com", "farmerpass", (RoleEnum_value FARMER).
  split; [left; reflexivity|]. split; [left; reflexivity|].
  left. cbn in Hnames. congruence.
Qed.

End Seeding.

(* ------------------------------------------------------------------ *)
(** ** Consistent stores *)

Section ConsistentStores.

Context {backend : Passlib.BcryptBackend} {email_validator : Validators.EmailValidator}.

(** X3.  The write handlers keep the store consistent: after any run of
    registrations and of listing, message and event submissions, each made
    under an identity that is stored at that point (or under none), names,
    emails and ids are still unique, every user still has exactly one profile
    with its texts filled in, and every listing, message and event still
    points to stored users. *)
Theorem run_keeps_the_store_consistent (db : Db) (actions : list action) :
  consistent db -> identities_stored db actions -> consistent (run db actions).
Proof.
  revert db. induction actions as [|a actions IH]; intros db H Hids; [exact H|].
  destruct Hids as [Ha Hrest]. cbn [run]. apply IH; [|exact Hrest].
  apply handle_consistent; assumption.
Qed.

End ConsistentStores.

Lemma examples_seeded_consistent : consistent Examples.seeded.
Proof.
  destruct (@seeded_store Sample.backend Examples.salts Examples.clock) as (db & H & C & _).
  unfold Examples.seeded. rewrite H. exact C.
Qed.

Lemma run_keeps_the_store_consistent_witness :
  consistent (@run Sample.backend Sample.email_validator Examples.seeded Examples.session).
Proof.
  apply (@run_keeps_the_store_consistent Sample.backend Sample.email_validator).
  - exact examples_seeded_consistent.
  - vm_compute. repeat split; intros u E; injection E as <-; tauto.
Defined.

Section Lookups2.

Lemma find_unique_key {A K : Type} (key : A -> K) (eqb : K -> K -> bool)
    (l : list A) (x : A) :
  (forall a b, eqb a b = true <-> a = b) ->
  NoDup (map key l) -> In x l ->
  find (fun y => eqb (key y) (key x)) l = Some x.
Proof.
  intros Heq. induction l as [|a l IH]; cbn; intros Hnd Hin; [contradiction|].
  apply NoDup_cons_iff in Hnd as [Ha Hnd]. destruct Hin as [->|Hin].
  - rewrite (proj2 (Heq _ _) eq_refl). reflexivity.
  - destruct (eqb (key a) (key x)) eqn:E.
    + apply Heq in E. exfalso. apply Ha. rewrite E. apply in_map. exact Hin.
    + apply IH; assumption.
Qed.

Lemma get_user_stored (db : Db) (u : User.t) :
  consistent db -> In u (users db) -> get_user db (User.id u) = Some u.
Proof.
  intros H Hu. unfold get_user.
  apply (find_unique_key User.id Z.eqb); [apply Z.eqb_eq | apply H | exact Hu].
Qed.

Lemma user_by_username_stored (db : Db) (u : User.t) :
  consistent db -> In u (users db) -> user_by_username db (User.username u) = Some u.
Proof.
  intros H Hu. unfold user_by_username.
  apply (find_unique_key User.username String.eqb); [apply String.eqb_eq | apply H | exact Hu].
Qed.

Lemma owner_of_stored (db : Db) (l : Listing.t) :
  consistent db -> In l (listings db) ->
  exists o, In o (users db) /\ Listing.owner_id l = Some (User.id o) /\ owner_of db l = Some o.
Proof.
  intros H Hl. destruct (listings_owned db H l Hl) as (o & Ho & E).
  exists o. split; [exact Ho|]. split; [exact E|].
  unfold owner_of. rewrite E. apply get_user_stored; assumption.
Qed.

Lemma profile_of_stored (db : Db) (u : User.t) :
  consistent db -> In u (users db) ->
  exists p a b c d,
    profile_of db u = Some p /\ In p (profiles db) /\
    Profile.user_id p = Some (User.id u) /\
    Profile.full_name p = Some a /\ Profile.phone p = Some b /\
    Profile.location p = Some c /\ Profile.bio p = Some d.
Proof.
  intros H Hu. destruct (profile_of_each db H u Hu) as (p0 & Hp0 & E0).
  destruct (find_Some_of_exists
              (fun p => match Profile.user_id p with
                        | Some i => i =? User.id u
                        | None => false
                        end) (profiles db)) as (p & Ep & Hp & Hid).
  { exists p0. split; [exact Hp0|]. rewrite E0. apply Z.eqb_refl. }
  destruct (profiles_bound db H p Hp) as (_ & H1 & H2 & H3 & H4).
  destruct (Profile.user_id p) as [i|] eqn:Ei; [|discriminate].
  apply Z.eqb_eq in Hid. subst i.
  destruct (Profile.full_name p) as [a|] eqn:Ea; [|congruence].
  destruct (Profile.phone p) as [b|] eqn:Eb; [|congruence].
  destruct (Profile.location p) as [c|] eqn:Ec; [|congruence].
  destruct (Profile.bio p) as [d|] eqn:Ed; [|congruence].
  exists p, a, b, c, d. unfold profile_of. auto 10.
Qed.

(** X4.  On a consistent store [GET /api/listings], for a [q] whose pattern
    is within SQLite's limit of 50000 bytes, does not end in a server error:
    it answers with a JSON array that has one object per selected row, in
    order, and the [owner] of each object names the stored user that the
    row's [owner_id] points to. *)
Theorem api_listings_answers_on_a_consistent_store (db : Db) (q cat : string) :
  consistent db ->
  pattern_fits q = true ->
  exists results,
    api_listings db q cat = Json (JArr results) /\
    Forall2
      (fun l j =>
         exists o fields,
           In o (users db) /\ Listing.owner_id l = Some (User.id o) /\
           j = JObj fields /\
           json_get "id" fields = Some (JInt (Listing.id l)) /\
           json_get "title" fields = Some (JStr (Listing.title l)) /\
           json_get "owner" fields =
             Some (JObj [("id", JInt (User.id o)); ("username", JStr (User.username o))]))
      (api_listings_rows db q cat) results.
Proof.
  intros H _. unfold api_listings.
  assert (Hrows : forall l, In l (api_listings_rows db q cat) -> In l (listings db)).
  { intros l Hl. rewrite api_listings_rows_shape in Hl.
    apply selected_rows_In in Hl. apply Hl. }
  induction (api_listings_rows db q cat) as [|l rows IH]; cbn [results_loop].
  - exists []. split; [reflexivity | constructor].
  - destruct (owner_of_stored db l H (Hrows l (or_introl eq_refl))) as (o & Ho & Eo & Eown).
    destruct IH as (results & Eres & HF); [intros l' Hl'; apply Hrows; right; exact Hl'|].
    unfold listing_json. rewrite Eown.
    destruct (results_loop db rows) as [js|]; [|discriminate].
    injection Eres as <-. eexists. split; [reflexivity|].
    constructor; [|exact HF].
    eexists o, _. repeat split; try eassumption; reflexivity.
Qed.

Lemma api_listings_answers_on_a_consistent_store_witness :
  exists results,
    api_listings Examples.seeded "" "milk" = Json (JArr results) /\
    List.length results = 2%nat.
Proof.
  destruct (api_listings_answers_on_a_consistent_store Examples.seeded "" "milk"
              examples_seeded_consistent eq_refl) as (results & E & HF).
  exists results. split; [exact E|].
  rewrite <- (Forall2_length HF). vm_compute. reflexivity.
Defined.

(** X5.  On a consistent store [GET /api/users/<id>] for the id of a stored
    user answers with that very user (ids are unique) and with the four texts
    of the one profile bound to it, none of which is [null]. *)
Theorem api_user_on_a_consistent_store (db : Db) (u : User.t) :
  consistent db -> In u (users db) ->
  exists p a b c d,
    In p (profiles db) /\ Profile.user_id p = Some (User.id u) /\
    Profile.full_name p = Some a /\ Profile.phone p = Some b /\
    Profile.location p = Some c /\ Profile.bio p = Some d /\
    api_user db (User.id u) =
    Json (JObj
      [("id", JInt (User.id u)); ("username", JStr (User.username u));
       ("email", JStr (User.email u)); ("role", JStr (User.role u));
       ("profile", JObj [("full_name", JStr a); ("phone", JStr b);
                         ("location", JStr c); ("bio", JStr d)])]).
Proof.
  intros H Hu.
  destruct (profile_of_stored db u H Hu) as (p & a & b & c & d & Ep & Hp & Hid & Ea & Eb & Ec & Ed).
  exists p, a, b, c, d. repeat (split; [assumption|]).
  unfold api_user. rewrite (get_user_stored db u H Hu). cbv zeta.
  rewrite Ep, Ea, Eb, Ec, Ed. reflexivity.
Qed.

Lemma api_user_on_a_consistent_store_witness :
  exists p a b c d,
    In p (profiles Examples.seeded) /\ Profile.user_id p = Some 1 /\
    Profile.full_name p = Some a /\ Profile.phone p = Some b /\
    Profile.location p = Some c /\ Profile.bio p = Some d /\
    api_user Examples.seeded 1 =
    Json (JObj
      [("id", JInt 1); ("username", JStr "farmer1");
       ("email", JStr "farmer1@example.com"); ("role", JStr "farmer");
       ("profile", JObj [("full_name", JStr a); ("phone", JStr b);
                         ("location", JStr c); ("bio", JStr d)])]).
Proof.
  apply (api_user_on_a_consistent_store Examples.seeded Examples.farmer1
           examples_seeded_consistent).
  vm_compute. tauto.
Defined.

End Lookups2.

(* ------------------------------------------------------------------ *)
(** ** Roles and the read-only views *)

Section RolesAndViews.

(** X6.  [RoleEnum(value)] finds a member exactly for the eight values, and
    then the member whose value it is: looking up the value of a member gives
    the member back, and any other text (another case, the empty text) is
    refused. *)
Theorem RoleEnum_round_trip (value : string) (r : RoleEnum) :
  RoleEnum_of_value value = Some r <-> value = RoleEnum_value r.
Proof.
  unfold RoleEnum_of_value. split.
  - intros H. apply find_some in H as [_ H]. apply String.eqb_eq in H. auto.
  - intros ->. destruct r; reflexivity.
Qed.

(** X7.  On a consistent store [get_role] never raises: the role of a stored
    user is the value of a member of [RoleEnum], and [get_role] returns it. *)
Theorem get_role_of_a_stored_user (db : Db) (u : User.t) :
  consistent db -> In u (users db) ->
  exists r, get_role u = Some r /\ RoleEnum_value r = User.role u.
Proof.
  intros H Hu. destruct (roles_known db H u Hu) as (r & Hr).
  exists r. split; [|auto]. unfold get_role. rewrite Hr.
  destruct r; reflexivity.
Qed.

Lemma get_role_of_a_stored_user_witness :
  exists r, get_role Examples.consumer1 = Some r /\ RoleEnum_value r = "consumer".
Proof.
  apply (get_role_of_a_stored_user Examples.seeded Examples.consumer1
           examples_seeded_consistent).
  vm_compute. tauto.
Defined.

(** X8.  For a name that the route matches (one path segment: not empty, no
    [/]) and an id from 0 to 2^63 - 1, [GET /user/<username>]
    and [GET /listing/<id>] answer 404 exactly when no stored row has the
    name or the id; on a consistent store the page of such a name of a stored
    user shows that very user, and the page of such an id of a stored listing
    that very listing. *)
Theorem views_show_the_stored_row (db : Db) :
  (forall name, path_segment name = true ->
                (view_user db name = Missing <->
                 forall u, In u (users db) -> User.username u <> name)) /\
  (forall i, bindable_id i = true ->
             (view_listing db i = Missing <->
              forall l, In l (listings db) -> Listing.id l <> i)) /\
  (consistent db ->
   (forall u, In u (users db) -> path_segment (User.username u) = true ->
              view_user db (User.username u) = Shown "user.html" u) /\
   (forall l, In l (listings db) -> bindable_id (Listing.id l) = true ->
              view_listing db (Listing.id l) = Shown "listing.html" l)).
Proof.
  split; [|split].
  - intros name _. unfold view_user, user_by_username.
    destruct (find _ (users db)) as [u|] eqn:E.
    + split; [discriminate|]. intros Hnone. apply find_some in E as [Hu Hn].
      apply String.eqb_eq in Hn. destruct (Hnone u Hu Hn).
    + split; [|reflexivity]. intros _ u Hu.
      apply String.eqb_neq. apply (proj1 (find_None_iff _ _) E u Hu).
  - intros i _. unfold view_listing.
    destruct (find _ (listings db)) as [l|] eqn:E.
    + split; [discriminate|]. intros Hnone. apply find_some in E as [Hl Hi].
      apply Z.eqb_eq in Hi. destruct (Hnone l Hl Hi).
    + split; [|reflexivity]. intros _ l Hl.
      apply Z.eqb_neq. apply (proj1 (find_None_iff _ _) E l Hl).
  - intros H. split.
    + intros u Hu _. unfold view_user.
      rewrite (user_by_username_stored db u H Hu). reflexivity.
    + intros l Hl _. unfold view_listing.
      rewrite (find_unique_key Listing.id Z.eqb (listings db) l);
        [reflexivity | apply Z.eqb_eq | apply H | exact Hl].
Qed.

Lemma views_show_the_stored_row_witness :
  view_user Examples.seeded "nobody" = Missing /\
  view_listing Examples.seeded 99 = Missing /\
  view_user Examples.seeded (User.username Examples.consumer1) =
    Shown "user.html" Examples.consumer1.
Proof.
  destruct (views_show_the_stored_row Examples.seeded) as (Huser & Hlisting & Hshown).
  split; [|split].
  - apply (Huser "nobody" eq_refl). vm_compute. intros u H.
    repeat (destruct H as [<-|H]; [discriminate|]). destruct H.
  - apply (Hlisting 99 eq_refl). vm_compute. intros l H.
    repeat (destruct H as [<-|H]; [discriminate|]). destruct H.
  - apply (Hshown examples_seeded_consistent); [vm_compute; tauto | reflexivity].
Defined.

End RolesAndViews.

(* ------------------------------------------------------------------ *)
(** ** Logging in *)

Section Logins.

Context {backend : Passlib.BcryptBackend}.

Lemma find_app_skip {A : Type} (f : A -> bool) (l l' : list A) :
  (forall x, In x l -> f x = false) -> find f (l ++ l') = find f l'.
Proof.
  induction l as [|a l IH]; cbn; intros H; [reflexivity|].
  rewrite (H a (or_introl eq_refl)). apply IH. intros x Hx. apply H. right. exact Hx.
Qed.

(** X9.  [login] hands a user to [login_user] only on a submission that
    passes the form checks, and only a stored user that has the submitted
    name and whose stored hash verifies the submitted password; on a
    consistent store it is exactly then that it does, and the answer is the
    redirect to the dashboard. *)
Theorem login_identifies_the_user (db : Db) (req : Request LoginForm.t) (u : User.t) :
  (logged_in (login db req) = Some u ->
   validate_on_submit LoginForm.validate req = true /\
   In u (users db) /\ User.username u = LoginForm.username (form req) /\
   check_password (User.password_hash u) (LoginForm.password (form req)) = Some true /\
   login db req = mkSessionResult (Redirect "dashboard") [("Logged in.", "success")] (Some u)) /\
  (consistent db ->
   validate_on_submit LoginForm.validate req = true ->
   In u (users db) -> User.username u = LoginForm.username (form req) ->
   check_password (User.password_hash u) (LoginForm.password (form req)) = Some true ->
   login db req = mkSessionResult (Redirect "dashboard") [("Logged in.", "success")] (Some u)).
Proof.
  unfold login. cbv zeta. split.
  - destruct (validate_on_submit LoginForm.validate req); [|discriminate].
    destruct (user_by_username db (LoginForm.username (form req))) as [v|] eqn:Ev;
      [|discriminate].
    destruct (check_password (User.password_hash v) (LoginForm.password (form req)))
      as [[|]|] eqn:Ec; try discriminate.
    cbn. intros E. injection E as <-.
    apply find_some in Ev as [Hv Hn]. apply String.eqb_eq in Hn. auto.
  - intros H Hvalid Hu Hname Hcheck. rewrite Hvalid, <- Hname.
    rewrite (user_by_username_stored db u H Hu), Hcheck. reflexivity.
Qed.

(** X10.  On a submission that passes the form checks: a name that no stored
    user has is answered with the invalid-credentials message whatever the
    password is, and nobody is logged in; a stored name with a password of
    more than 4096 characters, or with one that has a NUL character in it, is
    a server error (passlib refuses to verify either); a stored name with a
    password that passlib accepts (at most 4096 bytes in UTF-8, no NUL) and
    whose checksum differs is answered with the invalid-credentials
    message. *)
Theorem login_refusals (db : Db) (req : Request LoginForm.t) :
  validate_on_submit LoginForm.validate req = true ->
  ((forall u, In u (users db) -> User.username u <> LoginForm.username (form req)) ->
   login db req =
   mkSessionResult (Render "login.html" [("form", CtxForm)])
     [("Invalid username or password.", "danger")] None) /\
  (forall u,
     user_by_username db (LoginForm.username (form req)) = Some u ->
     (Passlib.validate_secret (LoginForm.password (form req)) = false ->
      login db req = mkSessionResult ServerError [] None) /\
     (Passlib.has_nul (LoginForm.password (form req)) = true ->
      login db req = mkSessionResult ServerError [] None) /\
     (forall salt password,
        String.length salt = 22%nat ->
        User.password_hash u = hash_text salt password ->
        Passlib.validate_secret (Passlib.utf8 (LoginForm.password (form req))) = true ->
        Passlib.has_nul (LoginForm.password (form req)) = false ->
        Passlib.bcrypt_digest salt
          (Passlib.truncate72 (Passlib.utf8 (LoginForm.password (form req)))) <>
        Passlib.bcrypt_digest salt (Passlib.truncate72 (Passlib.utf8 password)) ->
        login db req =
        mkSessionResult (Render "login.html" [("form", CtxForm)])
          [("Invalid username or password.", "danger")] None)).
Proof.
  intros Hvalid. unfold login. cbv zeta. rewrite Hvalid. split.
  - intros Hnone.
    assert (E : user_by_username db (LoginForm.username (form req)) = None).
    { apply find_None_iff. intros u Hu. apply String.eqb_neq. auto. }
    rewrite E. reflexivity.
  - intros u Eu. rewrite Eu. split; [|split].
    + intros Hsize. unfold check_password, Passlib.verify.
      rewrite Hsize. reflexivity.
    + intros Hnul. unfold check_password, Passlib.verify. cbv zeta.
      rewrite has_nul_utf8, Hnul.
      destruct (Passlib.validate_secret (LoginForm.password _));
        destruct (Passlib.validate_secret (Passlib.utf8 _)); reflexivity.
    + intros salt password Hsalt Hhash Hsize Hnul Hdiff.
      rewrite Hhash, (check_password_hash_text salt password _ Hsalt Hsize Hnul).
      apply String.eqb_neq in Hdiff. rewrite Hdiff. reflexivity.
Qed.

Ltac pick_row := cbn; ((left; reflexivity) + (right; pick_row)).

Lemma seeded_users (salt : nat -> string) (clock : nat -> datetime) (db : Db) :
  Seed.initdb_command salt clock = Some db ->
  users db =
  [User.mk 1 "farmer1" "farmer1@example.com" (hash_text (salt 0%nat) "farmerpass")
     "farmer" (clock 0%nat);
   User.mk 2 "producer1" "producer1@example.com" (hash_text (salt 1%nat) "producerpass")
     "producer" (clock 1%nat);
   User.mk 3 "consumer1" "consumer1@example.com" (hash_text (salt 2%nat) "consumerpass")
     "consumer" (clock 2%nat);
   User.mk 4 "research1" "research1@example.com" (hash_text (salt 3%nat) "researchpass")
     "researcher" (clock 3%nat);
   User.mk 5 "vet1" "vet1@example.com" (hash_text (salt 4%nat) "vetpass")
     "vet" (clock 4%nat);
   User.mk 6 "trans1" "trans1@example.com" (hash_text (salt 5%nat) "transpass")
     "transporter" (clock 5%nat);
   User.mk 7 "ent1" "ent1@example.com" (hash_text (salt 6%nat) "entpass")
     "entrepreneur" (clock 6%nat);
   User.mk 8 "gov1" "gov1@example.com" (hash_text (salt 7%nat) "govpass")
     "gov" (clock 7%nat)].
Proof.
  unfold Seed.initdb_command, Seed.seed_data, Seed.sample_users.
  cbn [Seed.pending_users]. rewrite !set_password_accepts by reflexivity.
  cbv -[hash_text]. intros E. injection E as <-. reflexivity.
Qed.

(** X11.  After seeding with salts of the length bcrypt draws, each of the
    eight sample users can log in with its sample password, whatever the
    bcrypt backend: the user found under the sample name has the sample email
    and role and is the one logged in. *)
Theorem seeded_users_can_log_in (salt : nat -> string) (clock : nat -> datetime) (db : Db) :
  (forall k, String.length (salt k) = 22%nat) ->
  Seed.initdb_command salt clock = Some db ->
  forall name email password role,
    In (name, email, password, role) Seed.sample_users ->
    exists u,
      In u (users db) /\ User.username u = name /\ User.email u = email /\
      User.role u = role /\
      login db (mkRequest POST true (LoginForm.mk name password)) =
      mkSessionResult (Redirect "dashboard") [("Logged in.", "success")] (Some u).
Proof.
  intros Hsalt Hseed name email password role Hin.
  pose proof (seeded_users salt clock db Hseed) as Husers.
  unfold login, user_by_username. cbv zeta. rewrite Husers.
  cbn in Hin.
  repeat (destruct Hin as [E|Hin];
          [injection E as <- <- <- <-;
           eexists; split; [pick_row|];
           repeat (split; [reflexivity|]);
           cbv -[hash_text check_password];
           rewrite check_password_same by (auto; reflexivity); reflexivity|]).
  destruct Hin.
Qed.

End Logins.

Lemma login_identifies_the_user_witness :
  @login Sample.backend Examples.seeded (Sample.post (LoginForm.mk "farmer1" "farmerpass")) =
  mkSessionResult (Redirect "dashboard") [("Logged in.", "success")] (Some Examples.farmer1).
Proof.
  apply (@login_identifies_the_user Sample.backend Examples.seeded
           (Sample.post (LoginForm.mk "farmer1" "farmerpass")) Examples.farmer1).
  - exact examples_seeded_consistent.
  - reflexivity.
  - vm_compute. tauto.
  - reflexivity.
  - vm_compute. reflexivity.
Defined.

Lemma login_refusals_witness :
  @login Sample.backend Examples.seeded
    (Sample.post (LoginForm.mk "nobody" ("pw" ++ String zero ""))) =
  mkSessionResult (Render "login.html" [("form", CtxForm)])
    [("Invalid username or password.", "danger")] None /\
  @login Sample.backend Examples.seeded
    (Sample.post (LoginForm.mk "farmer1" Sample.oversized_password)) =
  mkSessionResult ServerError [] None /\
  @login Sample.backend Examples.seeded
    (Sample.post (LoginForm.mk "farmer1" ("pw" ++ String zero ""))) =
  mkSessionResult ServerError [] None /\
  @login Sample.backend Examples.seeded (Sample.post (LoginForm.mk "farmer1" "farmerpasS")) =
  mkSessionResult (Render "login.html" [("form", CtxForm)])
    [("Invalid username or password.", "danger")] None.
Proof.
  destruct (@login_refusals Sample.backend Examples.seeded
              (Sample.post (LoginForm.mk "nobody" ("pw" ++ String zero ""))) eq_refl)
    as [Hunknown _].
  destruct (@login_refusals Sample.backend Examples.seeded
              (Sample.post (LoginForm.mk "farmer1" Sample.oversized_password)) eq_refl)
    as [_ Hsize].
  destruct (@login_refusals Sample.backend Examples.seeded
              (Sample.post (LoginForm.mk "farmer1" ("pw" ++ String zero ""))) eq_refl)
    as [_ Hnul].
  destruct (@login_refusals Sample.backend Examples.seeded
              (Sample.post (LoginForm.mk "farmer1" "farmerpasS")) eq_refl)
    as [_ Hwrong].
  split; [|split; [|split]].
  - apply Hunknown. vm_compute. intros u H.
    repeat (destruct H as [<-|H]; [discriminate|]). destruct H.
  - apply (proj1 (Hsize Examples.farmer1 ltac:(vm_compute; reflexivity))).
    vm_compute. reflexivity.
  - apply (proj1 (proj2 (Hnul Examples.farmer1 ltac:(vm_compute; reflexivity)))).
    reflexivity.
  - apply (proj2 (proj2 (Hwrong Examples.farmer1 ltac:(vm_compute; reflexivity)))
             Sample.salt "farmerpass");
      [reflexivity | reflexivity | reflexivity | reflexivity | vm_compute; discriminate].
Defined.

Lemma seeded_users_can_log_in_witness :
  exists u,
    In u (users Examples.seeded) /\ User.username u = "vet1" /\
    User.email u = "vet1@example.com" /\ User.role u = "vet" /\
    @login Sample.backend Examples.seeded (mkRequest POST true (LoginForm.mk "vet1" "vetpass")) =
    mkSessionResult (Redirect "dashboard") [("Logged in.", "success")] (Some u).
Proof.
  apply (@seeded_users_can_log_in Sample.backend Examples.salts Examples.clock Examples.seeded).
  - intros k. reflexivity.
  - vm_compute. reflexivity.
  - vm_compute. tauto.
Defined.

(* ------------------------------------------------------------------ *)
(** ** After a registration *)

Section AfterRegistration.

Context {backend : Passlib.BcryptBackend} {email_validator : Validators.EmailValidator}.

Lemma register_accepts (db : Db) (now : datetime) (salt : string)
    (req : Request RegisterForm.t) :
  validate_on_submit RegisterForm.validate req = true ->
  (forall u, In u (users db) ->
             User.username u <> RegisterForm.username (form req) /\
             User.email u <> RegisterForm.email (form req)) ->
  Passlib.has_nul (RegisterForm.password (form req)) = false ->
  register db now salt req =
  mkResult (Redirect "login") [("Account created. Please log in.", "success")]
    (mkDb
       (users db ++
        [User.mk (Sql.next_id (map User.id (users db)))
           (RegisterForm.username (form req)) (RegisterForm.email (form req))
           (hash_text salt (RegisterForm.password (form req)))
           (RegisterForm.role (form req)) now])
       (profiles db ++
        [Profile.mk (Sql.next_id (map Profile.id (profiles db)))
           (Some (Sql.next_id (map User.id (users db))))
           (Some "") (Some "") (Some "") (Some "")])
       (listings db) (messages db) (events db)).
Proof.
  intros Hvalid Hfresh Hnul.
  assert (Hex : existsb (fun u => String.eqb (User.username u) (RegisterForm.username (form req))
                                  || String.eqb (User.email u) (RegisterForm.email (form req)))
                  (users db) = false).
  { apply existsb_false_iff. intros u Hu. destruct (Hfresh u Hu) as [Hn He].
    apply orb_false_iff. split; apply String.eqb_neq; assumption. }
  unfold register. cbv zeta.
  rewrite Hvalid, Hex, (set_password_accepts _ _ (register_password_fits req Hvalid) Hnul).
  reflexivity.
Qed.

Lemma register_form_fields (req : Request RegisterForm.t) :
  validate_on_submit RegisterForm.validate req = true ->
  Validators.InputRequired (RegisterForm.username (form req)) = true /\
  Validators.InputRequired (RegisterForm.password (form req)) = true.
Proof.
  unfold validate_on_submit, RegisterForm.validate.
  destruct (method req); [discriminate|].
  rewrite !andb_true_iff. tauto.
Qed.

(** X12.  A user that has just registered can log in: after a registration
    that succeeds (the submission passes the form checks, name and email are
    unused, the password has no NUL character, the salt has the length bcrypt
    draws), logging in with the same name and password is answered with the
    redirect to the dashboard, and the user logged in is the new user. *)
Theorem registered_user_can_log_in (db : Db) (now : datetime) (salt : string)
    (req : Request RegisterForm.t) :
  validate_on_submit RegisterForm.validate req = true ->
  (forall u, In u (users db) ->
             User.username u <> RegisterForm.username (form req) /\
             User.email u <> RegisterForm.email (form req)) ->
  Passlib.has_nul (RegisterForm.password (form req)) = false ->
  String.length salt = 22%nat ->
  exists u,
    In u (users (store (register db now salt req))) /\
    ~ In u (users db) /\
    User.username u = RegisterForm.username (form req) /\
    User.email u = RegisterForm.email (form req) /\
    User.role u = RegisterForm.role (form req) /\
    login (store (register db now salt req))
      (mkRequest POST true
         (LoginForm.mk (RegisterForm.username (form req)) (RegisterForm.password (form req)))) =
    mkSessionResult (Redirect "dashboard") [("Logged in.", "success")] (Some u).
Proof.
  intros Hvalid Hfresh Hnul Hsalt.
  rewrite (register_accepts db now salt req Hvalid Hfresh Hnul). cbn [store users].
  eexists. split; [apply In_snoc; right; reflexivity|].
  split; [|repeat (split; [reflexivity|])].
  - intros Hin. destruct (Hfresh _ Hin) as [Hn _]. apply Hn. reflexivity.
  - destruct (register_form_fields req Hvalid) as [Hu Hp].
    unfold login, validate_on_submit, LoginForm.validate, user_by_username.
    cbn [method csrf_ok form LoginForm.username LoginForm.password users]. rewrite Hu, Hp.
    cbn [andb]. rewrite find_app_skip.
    + cbn [find User.username]. rewrite String.eqb_refl.
      cbn [User.password_hash LoginForm.password].
      rewrite (check_password_same _ _ Hsalt (register_password_fits req Hvalid) Hnul).
      reflexivity.
    + intros u Hin. apply String.eqb_neq. apply (Hfresh u Hin).
Qed.

(** X13.  A user that has just registered on a consistent store is served by
    the API, and has a profile page when the name has no [/] in it:
    [GET /api/users/<id>] for the new id answers with the submitted name,
    email and role and with the four profile texts empty, and
    [GET /user/<username>], which the route matches for such a name only,
    shows the new user. *)
Theorem registered_user_is_served (db : Db) (now : datetime) (salt : string)
    (req : Request RegisterForm.t) :
  consistent db ->
  validate_on_submit RegisterForm.validate req = true ->
  (forall u, In u (users db) ->
             User.username u <> RegisterForm.username (form req) /\
             User.email u <> RegisterForm.email (form req)) ->
  Passlib.has_nul (RegisterForm.password (form req)) = false ->
  exists u,
    User.id u = Sql.next_id (map User.id (users db)) /\
    api_user (store (register db now salt req)) (User.id u) =
    Json (JObj
      [("id", JInt (User.id u));
       ("username", JStr (RegisterForm.username (form req)));
       ("email", JStr (RegisterForm.email (form req)));
       ("role", JStr (RegisterForm.role (form req)));
       ("profile", JObj [("full_name", JStr ""); ("phone", JStr "");
                         ("location", JStr ""); ("bio", JStr "")])]) /\
    (path_segment (RegisterForm.username (form req)) = true ->
     view_user (store (register db now salt req)) (RegisterForm.username (form req)) =
     Shown "user.html" u).
Proof.
  intros H Hvalid Hfresh Hnul.
  pose proof (register_consistent db now salt req H) as H'.
  rewrite (register_accepts db now salt req Hvalid Hfresh Hnul) in *. cbn [store] in *.
  set (u := User.mk (Sql.next_id (map User.id (users db)))
              (RegisterForm.username (form req)) (RegisterForm.email (form req))
              (hash_text salt (RegisterForm.password (form req)))
              (RegisterForm.role (form req)) now) in *.
  set (db' := mkDb _ _ _ _ _) in *.
  assert (Hu : In u (users db')) by (apply In_snoc; right; reflexivity).
  exists u. split; [reflexivity|]. split.
  - destruct (profile_of_stored db' u H' Hu)
      as (p & a & b & c & d & Ep & Hp & Hid & Ea & Eb & Ec & Ed).
    unfold api_user. rewrite (get_user_stored db' u H' Hu). cbv zeta. rewrite Ep.
    assert (Hnew : p = Profile.mk (Sql.next_id (map Profile.id (profiles db)))
                         (Some (User.id u)) (Some "") (Some "") (Some "") (Some "")).
    { apply In_snoc in Hp as [Hp|Hp]; [|exact Hp]. exfalso.
      destruct (profiles_bound db H p Hp) as ((v & Hv & Hpv) & _).
      assert (Hvid : User.id v = User.id u) by congruence.
      apply (next_id_fresh (map User.id (users db))).
      change (Sql.next_id (map User.id (users db))) with (User.id u).
      rewrite <- Hvid. apply in_map. exact Hv. }
    rewrite Hnew. reflexivity.
  - intros _. unfold view_user.
    change (RegisterForm.username (form req)) with (User.username u).
    rewrite (user_by_username_stored db' u H' Hu). reflexivity.
Qed.

End AfterRegistration.

Lemma registered_user_can_log_in_witness :
  exists u,
    In u (users (store (@register Sample.backend Sample.email_validator Examples.seeded
                          (Sample.noon 20) Sample.salt (Sample.post Examples.alice_form)))) /\
    ~ In u (users Examples.seeded) /\
    User.username u = "alice" /\ User.email u = "alice@x.com" /\ User.role u = "farmer" /\
    @login Sample.backend
      (store (@register Sample.backend Sample.email_validator Examples.seeded
                (Sample.noon 20) Sample.salt (Sample.post Examples.alice_form)))
      (mkRequest POST true (LoginForm.mk "alice" "pw123456")) =
    mkSessionResult (Redirect "dashboard") [("Logged in.", "success")] (Some u).
Proof.
  apply (@registered_user_can_log_in Sample.backend Sample.email_validator Examples.seeded
           (Sample.noon 20) Sample.salt (Sample.post Examples.alice_form)).
  - reflexivity.
  - vm_compute. intros u H.
    repeat (destruct H as [<-|H]; [split; discriminate|]). destruct H.
  - reflexivity.
  - reflexivity.
Defined.

Lemma registered_user_is_served_witness :
  exists u,
    User.id u = 9 /\
    api_user (store (@register Sample.backend Sample.email_validator Examples.seeded
                       (Sample.noon 20) Sample.salt (Sample.post Examples.alice_form)))
      (User.id u) =
    Json (JObj
      [("id", JInt (User.id u)); ("username", JStr "alice"); ("email", JStr "alice@x.com");
       ("role", JStr "farmer");
       ("profile", JObj [("full_name", JStr ""); ("phone", JStr "");
                         ("location", JStr ""); ("bio", JStr "")])]) /\
    view_user (store (@register Sample.backend Sample.email_validator Examples.seeded
                        (Sample.noon 20) Sample.salt (Sample.post Examples.alice_form)))
      "alice" = Shown "user.html" u.
Proof.
  destruct (@registered_user_is_served Sample.backend Sample.email_validator Examples.seeded
              (Sample.noon 20) Sample.salt (Sample.post Examples.alice_form))
    as (u & Hid & Hapi & Hpage).
  - exact examples_seeded_consistent.
  - reflexivity.
  - vm_compute. intros u H.
    repeat (destruct H as [<-|H]; [split; discriminate|]). destruct H.
  - reflexivity.
  - exists u. split; [exact Hid|]. split; [exact Hapi|]. apply Hpage. reflexivity.
Defined.

(* ------------------------------------------------------------------ *)
(** ** The dashboard *)

Section Dashboard.

Lemma id_eq_null_iff (column : option Z) (v : Z) :
  id_eq_null column v = true <-> column = Some v.
Proof.
  destruct column as [i|]; cbn.
  - rewrite Z.eqb_eq. split; congruence.
  - split; discriminate.
Qed.

Lemma limit_order_by_all {A : Type} (leb : A -> A -> bool) (n : nat) (l : list A) :
  (List.length l <= n)%nat -> Sql.limit n (Sql.order_by leb l) = Sql.order_by leb l.
Proof.
  intros H. apply firstn_all2.
  rewrite (Permutation_length (order_by_Permutation leb l)). exact H.
Qed.

Lemma message_order_sorted (n : nat) (rows : list Message.t) :
  StronglySorted
    (fun a b => datetime_leb (Message.created_at b) (Message.created_at a) = true)
    (Sql.limit n (Sql.order_by message_created_at_desc rows)).
Proof.
  apply (limit_sorted message_created_at_desc), (order_by_sorted message_created_at_desc).
  - intros x y. apply datetime_leb_total.
  - intros x y z Hxy Hyz. unfold message_created_at_desc in *.
    eapply datetime_leb_trans; eauto.
Qed.

(** X14.  Without an identity the dashboard redirects to the login view.
    With one, it shows exactly the stored listings owned by the current user
    and exactly the stored events organized by it; the inbox holds only
    messages addressed to the current user, newest first, at most 20 of them,
    and all of them while the user has received no more than 20. *)
Theorem dashboard_shows_the_users_rows (db : Db) (cu : User.t) :
  dashboard db None = SentTo "login" [("Please log in to access this page.", "message")] /\
  exists ctx,
    dashboard db (Some cu) = Shown "dashboard.html" ctx /\
    (forall l, In l (my_listings ctx) <->
               In l (listings db) /\ Listing.owner_id l = Some (User.id cu)) /\
    (forall e, In e (organized ctx) <->
               In e (events db) /\ Event.organizer_id e = Some (User.id cu)) /\
    (forall m, In m (inbox ctx) ->
               In m (messages db) /\ Message.receiver_id m = Some (User.id cu)) /\
    StronglySorted
      (fun a b => datetime_leb (Message.created_at b) (Message.created_at a) = true)
      (inbox ctx) /\
    (List.length (inbox ctx) <= 20)%nat /\
    ((List.length
        (filter (fun m => id_eq_null (Message.receiver_id m) (User.id cu)) (messages db))
      <= 20)%nat ->
     forall m, In m (messages db) -> Message.receiver_id m = Some (User.id cu) ->
               In m (inbox ctx)).
Proof.
  split; [reflexivity|]. eexists. split; [reflexivity|]. cbn [my_listings organized inbox].
  split; [|split; [|split; [|split; [|split]]]].
  - intros l. rewrite filter_In, id_eq_null_iff. reflexivity.
  - intros e. rewrite filter_In, id_eq_null_iff. reflexivity.
  - intros m Hm. apply limit_In in Hm. rewrite order_by_In, filter_In, id_eq_null_iff in Hm.
    exact Hm.
  - apply message_order_sorted.
  - apply limit_length.
  - intros Hlen m Hm Hr. rewrite (limit_order_by_all _ _ _ Hlen), order_by_In, filter_In.
    split; [exact Hm | apply id_eq_null_iff; exact Hr].
Qed.

End Dashboard.

Lemma dashboard_shows_the_users_rows_witness :
  exists ctx,
    dashboard Examples.seeded (Some Examples.farmer1) = Shown "dashboard.html" ctx /\
    In (Message.mk 1 (Some 3) (Some 1) (Some "Interested in weekly milk")
          (Some "Hi, I'd like to buy 20L/week. Can we discuss?") (Examples.clock 14))
       (inbox ctx).
Proof.
  destruct (dashboard_shows_the_users_rows Examples.seeded Examples.farmer1)
    as (_ & ctx & Hctx & _ & _ & _ & _ & _ & Hall).
  exists ctx. split; [exact Hctx|]. apply Hall.
  - vm_compute. lia.
  - vm_compute. tauto.
  - reflexivity.
Defined.

(* ------------------------------------------------------------------ *)
(** ** What is written can be read back *)

Section ReadBack.

Lemma filter_snoc {A : Type} (f : A -> bool) (l : list A) (x : A) :
  f x = true -> filter f (l ++ [x]) = (filter f l ++ [x])%list.
Proof. intros H. rewrite filter_app. cbn. rewrite H. reflexivity. Qed.

Lemma find_snoc_fresh {A : Type} (key : A -> Z) (l : list A) (x : A) :
  key x = Sql.next_id (map key l) ->
  find (fun y => key y =? key x) (l ++ [x]) = Some x.
Proof.
  intros Hx. rewrite find_app_skip.
  - cbn. rewrite Z.eqb_refl. reflexivity.
  - intros y Hy. apply Z.eqb_neq. rewrite Hx.
    pose proof (next_id_above (map key l) (key y) (in_map key l y Hy)). lia.
Qed.

(** X15.  A listing that was just created can be read back.  After a
    submission that passes the form checks, made by a stored user on a
    consistent store that has fewer than 200 listings, the new listing is
    among the rows of [GET /api/listings] filtered by its category, its JSON
    object names the submitting user as owner and has the price as the
    [REAL] column stores it ([null] for a price that is missing, zero or
    NaN), [GET /listing/<id>] shows it, and it is among the listings of the
    owner's dashboard. *)
Theorem new_listing_is_read_back
    (db : Db) (now : datetime) (cu : User.t) (req : Request ListingForm.t) :
  consistent db -> In cu (users db) ->
  validate_on_submit ListingForm.validate req = true ->
  (List.length (listings db) < 200)%nat ->
  exists l db' ctx,
    store (new_listing db now (Some cu) req) = db' /\
    listings db' = (listings db ++ [l])%list /\
    Listing.title l = ListingForm.title (form req) /\
    In l (api_listings_rows db' "" (ListingForm.category (form req))) /\
    listing_json db' l =
      Some (JObj [("id", JInt (Listing.id l)); ("title", JStr (ListingForm.title (form req)));
                  ("description", JStr (ListingForm.description (form req)));
                  ("category", JStr (ListingForm.category (form req)));
                  ("price", json_of_opt_float
                              (Sql.real_stored
                                 (or_None (float_data (ListingForm.price (form req))))));
                  ("quantity", json_of_opt_str (ListingForm.quantity (form req)));
                  ("location", json_of_opt_str (ListingForm.location (form req)));
                  ("owner", JObj [("id", JInt (User.id cu));
                                  ("username", JStr (User.username cu))])]) /\
    view_listing db' (Listing.id l) = Shown "listing.html" l /\
    dashboard db' (Some cu) = Shown "dashboard.html" ctx /\ In l (my_listings ctx).
Proof.
  intros H Hcu Hvalid Hlen.
  rewrite (new_listing_valid db now cu req Hvalid). cbn [store].
  eexists _, _, _. split; [reflexivity|]. cbn [listings].
  split; [reflexivity|]. split; [reflexivity|]. split; [|split; [|split; [|split]]].
  - rewrite api_listings_rows_shape. cbn [listings].
    rewrite limit_all by (rewrite List.length_app; cbn; lia).
    apply order_by_In, filter_In. split; [apply In_snoc; right; reflexivity|].
    unfold row_selected. cbn. rewrite String.eqb_refl, orb_true_r. reflexivity.
  - unfold listing_json, owner_of, get_user. cbn [Listing.owner_id users].
    change (find (fun u => User.id u =? User.id cu) (users db))
      with (get_user db (User.id cu)).
    rewrite (get_user_stored db cu H Hcu). reflexivity.
  - unfold view_listing. cbn [listings].
    rewrite (find_snoc_fresh Listing.id); reflexivity.
  - reflexivity.
  - cbn [my_listings listings]. apply filter_In.
    split; [apply In_snoc; right; reflexivity|]. cbn. apply Z.eqb_refl.
Qed.

(** X16.  A message that was just sent reaches the inbox.  After a submission
    that passes the form checks, made by a stored user on a consistent store
    to the name of a stored user that has received fewer than 20 messages, the
    receiver's dashboard has the new message in its inbox, with the sender,
    the subject and the body that were submitted. *)
Theorem new_message_reaches_the_inbox
    (db : Db) (now : datetime) (cu r : User.t) (req : Request MessageForm.t) :
  consistent db -> In cu (users db) -> In r (users db) ->
  User.username r = MessageForm.receiver (form req) ->
  validate_on_submit MessageForm.validate req = true ->
  (List.length
     (filter (fun m => id_eq_null (Message.receiver_id m) (User.id r)) (messages db))
   < 20)%nat ->
  exists m ctx,
    messages (store (new_message db now (Some cu) req)) = (messages db ++ [m])%list /\
    Message.sender_id m = Some (User.id cu) /\
    Message.receiver_id m = Some (User.id r) /\
    Message.subject m = Some (MessageForm.subject (form req)) /\
    Message.body m = Some (MessageForm.body (form req)) /\
    dashboard (store (new_message db now (Some cu) req)) (Some r) =
      Shown "dashboard.html" ctx /\
    In m (inbox ctx).
Proof.
  intros H Hcu Hr Hname Hvalid Hlen.
  unfold new_message, login_required. cbv zeta. rewrite Hvalid, <- Hname.
  rewrite (user_by_username_stored db r H Hr). cbn [store messages add_message].
  eexists _, _. repeat (split; [reflexivity|]). unfold add_message. cbn [inbox messages].
  rewrite filter_snoc by (cbn; apply Z.eqb_refl).
  rewrite limit_order_by_all by (rewrite List.length_app; cbn; lia).
  apply order_by_In, In_snoc. right. reflexivity.
Qed.

(** X17.  An event that was just created is announced.  After a submission
    that passes the form checks, with a date text that [strptime] accepts,
    made by a stored user on a store with fewer than 10 events, the new event
    is among the events of the browse view and among the events the organizer's
    dashboard shows. *)
Theorem new_event_is_announced
    (db : Db) (now : datetime) (cu : User.t) (req : Request EventForm.t) (dt : datetime) :
  validate_on_submit EventForm.validate req = true ->
  Strptime.strptime (EventForm.date (form req)) = Some dt ->
  (List.length (events db) < 10)%nat ->
  exists e ctx,
    events (store (new_event db now (Some cu) req)) = (events db ++ [e])%list /\
    Event.date e = Some dt /\ Event.organizer_id e = Some (User.id cu) /\
    In e (index_events (store (new_event db now (Some cu) req))) /\
    dashboard (store (new_event db now (Some cu) req)) (Some cu) =
      Shown "dashboard.html" ctx /\
    In e (organized ctx).
Proof.
  intros Hvalid Hdate Hlen.
  unfold new_event, login_required. cbv zeta. rewrite Hvalid, Hdate.
  cbn [store events add_event].
  eexists _, _. split; [reflexivity|]. split; [reflexivity|]. split; [reflexivity|].
  split; [|split; [reflexivity|]].
  - unfold index_events, add_event. cbn [events].
    rewrite limit_order_by_all by (rewrite List.length_app; cbn; lia).
    apply order_by_In, In_snoc. right. reflexivity.
  - unfold add_event. cbn [organized events]. apply filter_In.
    split; [apply In_snoc; right; reflexivity|]. cbn. apply Z.eqb_refl.
Qed.

Context {backend : Passlib.BcryptBackend} {email_validator : Validators.EmailValidator}.

Lemma handle_appends (db : Db) (a : action) :
  exists us ps ls ms es,
    store (handle db a) =
    mkDb (users db ++ us) (profiles db ++ ps) (listings db ++ ls)
         (messages db ++ ms) (events db ++ es) /\
    List.length us = List.length ps /\
    (List.length us + List.length ls + List.length ms + List.length es <= 1)%nat.
Proof.
  assert (Hsame : exists us ps ls ms es,
            db = mkDb (users db ++ us) (profiles db ++ ps) (listings db ++ ls)
                   (messages db ++ ms) (events db ++ es) /\
            List.length us = List.length ps /\
            (List.length us + List.length ls + List.length ms + List.length es <= 1)%nat).
  { exists [], [], [], [], []. rewrite !app_nil_r. destruct db. cbn. auto. }
  destruct a as [now salt req|now cu req|now cu req|now cu req]; cbn [handle].
  - unfold register. cbv zeta.
    destruct (validate_on_submit RegisterForm.validate req); [|exact Hsame].
    destruct (existsb _ (users db)); [exact Hsame|].
    destruct (set_password salt _); [|exact Hsame].
    cbn [store]. unfold add_profile, add_user. cbn [users profiles listings messages events].
    eexists [_], [_], [], [], []. rewrite !app_nil_r.
    split; [reflexivity|]. split; [reflexivity | cbn [List.length]; lia].
  - unfold new_listing, login_required. destruct cu; [|exact Hsame]. cbv zeta.
    destruct (validate_on_submit ListingForm.validate req); [|exact Hsame].
    cbn [store]. unfold add_listing.
    eexists [], [], [_], [], []. rewrite !app_nil_r.
    split; [reflexivity|]. split; [reflexivity | cbn [List.length]; lia].
  - unfold new_message, login_required. destruct cu; [|exact Hsame]. cbv zeta.
    destruct (validate_on_submit MessageForm.validate req); [|exact Hsame].
    destruct (user_by_username db _); [|exact Hsame].
    cbn [store]. unfold add_message.
    eexists [], [], [], [_], []. rewrite !app_nil_r.
    split; [reflexivity|]. split; [reflexivity | cbn [List.length]; lia].
  - unfold new_event, login_required. destruct cu; [|exact Hsame]. cbv zeta.
    destruct (validate_on_submit EventForm.validate req); [|exact Hsame].
    destruct (Strptime.strptime _); [|exact Hsame].
    cbn [store]. unfold add_event.
    eexists [], [], [], [], [_]. rewrite !app_nil_r.
    split; [reflexivity|]. split; [reflexivity | cbn [List.length]; lia].
Qed.

(** X18.  The write handlers only append.  Whatever the requests of a run
    are, every row that was stored before is still stored after, unchanged and
    in its place: each table after the run is the table before followed by
    new rows, at most one request's worth per request (one user with its
    profile, or one listing, or one message, or one event). *)
Theorem run_only_appends (db : Db) (actions : list action) :
  exists us ps ls ms es,
    run db actions =
    mkDb (users db ++ us) (profiles db ++ ps) (listings db ++ ls)
         (messages db ++ ms) (events db ++ es) /\
    List.length us = List.length ps /\
    (List.length us + List.length ls + List.length ms + List.length es
     <= List.length actions)%nat.
Proof.
  revert db. induction actions as [|a actions IH]; intros db.
  - exists [], [], [], [], []. rewrite !app_nil_r. destruct db. cbn. auto.
  - cbn [run]. destruct (handle_appends db a) as (us & ps & ls & ms & es & E & Hup & Hn).
    destruct (IH (store (handle db a))) as (us' & ps' & ls' & ms' & es' & E' & Hup' & Hn').
    rewrite E in *. cbn [users profiles listings messages events] in E'.
    exists (us ++ us')%list, (ps ++ ps')%list, (ls ++ ls')%list, (ms ++ ms')%list,
      (es ++ es')%list.
    rewrite E', <- !app_assoc. split; [reflexivity|].
    rewrite !List.length_app. cbn [List.length]. split; lia.
Qed.

End ReadBack.

Lemma new_listing_is_read_back_witness :
  exists l db' ctx,
    store (new_listing Examples.seeded (Sample.noon 21) (Some Examples.farmer1)
             (Sample.post Examples.milk_form)) = db' /\
    listings db' = (listings Examples.seeded ++ [l])%list /\
    Listing.title l = "Fresh milk" /\
    In l (api_listings_rows db' "" "milk") /\
    listing_json db' l =
      Some (JObj [("id", JInt (Listing.id l)); ("title", JStr "Fresh milk");
                  ("description", JStr "Morning milk, chilled within the hour.");
                  ("category", JStr "milk");
                  ("price", JFloat Seed.price_2_0);
                  ("quantity", json_of_opt_str None);
                  ("location", json_of_opt_str None);
                  ("owner", JObj [("id", JInt 1); ("username", JStr "farmer1")])]) /\
    view_listing db' (Listing.id l) = Shown "listing.html" l /\
    dashboard db' (Some Examples.farmer1) = Shown "dashboard.html" ctx /\
    In l (my_listings ctx).
Proof.
  apply (new_listing_is_read_back Examples.seeded (Sample.noon 21) Examples.farmer1
           (Sample.post Examples.milk_form)).
  - exact examples_seeded_consistent.
  - vm_compute. tauto.
  - reflexivity.
  - vm_compute. lia.
Defined.

Lemma new_message_reaches_the_inbox_witness :
  exists m ctx,
    messages (store (new_message Examples.seeded (Sample.noon 22) (Some Examples.consumer1)
                       (Sample.post Examples.hello_form))) =
      (messages Examples.seeded ++ [m])%list /\
    Message.sender_id m = Some 3 /\
    Message.receiver_id m = Some 1 /\
    Message.subject m = Some "Hello" /\
    Message.body m = Some "Is the milk still on offer?" /\
    dashboard (store (new_message Examples.seeded (Sample.noon 22) (Some Examples.consumer1)
                        (Sample.post Examples.hello_form))) (Some Examples.farmer1) =
      Shown "dashboard.html" ctx /\
    In m (inbox ctx).
Proof.
  apply (new_message_reaches_the_inbox Examples.seeded (Sample.noon 22)
           Examples.consumer1 Examples.farmer1 (Sample.post Examples.hello_form)).
  - exact examples_seeded_consistent.
  - vm_compute. tauto.
  - vm_compute. tauto.
  - reflexivity.
  - reflexivity.
  - vm_compute. lia.
Defined.

Lemma new_event_is_announced_witness :
  exists e ctx,
    events (store (new_event Examples.seeded (Sample.noon 23) (Some Examples.consumer1)
                     (Sample.post Examples.fair_form))) =
      (events Examples.seeded ++ [e])%list /\
    Event.date e = Some (mkDatetime 2025 1 5 0 0 0 0) /\
    Event.organizer_id e = Some 3 /\
    In e (index_events (store (new_event Examples.seeded (Sample.noon 23)
                                 (Some Examples.consumer1) (Sample.post Examples.fair_form)))) /\
    dashboard (store (new_event Examples.seeded (Sample.noon 23) (Some Examples.consumer1)
                        (Sample.post Examples.fair_form))) (Some Examples.consumer1) =
      Shown "dashboard.html" ctx /\
    In e (organized ctx).
Proof.
  apply (new_event_is_announced Examples.seeded (Sample.noon 23) Examples.consumer1
           (Sample.post Examples.fair_form) (mkDatetime 2025 1 5 0 0 0 0)).
  - reflexivity.
  - reflexivity.
  - vm_compute. lia.
Defined.

(* ------------------------------------------------------------------ *)
(** ** The case of the search text *)

Section SearchCase.

Lemma to_lower_wildcards (c c' : ascii) :
  Sql.to_lower c = Sql.to_lower c' ->
  Sql.is_percent c = Sql.is_percent c' /\ Sql.is_underscore c = Sql.is_underscore c'.
Proof.
  assert (H : forall x, Sql.is_percent (Sql.to_lower x) = Sql.is_percent x /\
                        Sql.is_underscore (Sql.to_lower x) = Sql.is_underscore x).
  { intros x. destruct x as [[] [] [] [] [] [] [] []]; split; reflexivity. }
  intros E. destruct (H c) as [<- <-]. destruct (H c') as [<- <-]. rewrite E. auto.
Qed.

Lemma to_lower_nul (c c' : ascii) :
  Sql.to_lower c = Sql.to_lower c' -> Ascii.eqb c zero = Ascii.eqb c' zero.
Proof.
  assert (H : forall x, Ascii.eqb (Sql.to_lower x) zero = Ascii.eqb x zero).
  { intros x. destruct x as [[] [] [] [] [] [] [] []]; reflexivity. }
  intros E. rewrite <- (H c), <- (H c'), E. reflexivity.
Qed.

Lemma lower_until_nul (p p' : string) :
  Sql.lower p = Sql.lower p' ->
  Sql.lower (Sql.until_nul p) = Sql.lower (Sql.until_nul p').
Proof.
  revert p'. induction p as [|c p IH]; intros [|c' p'] E; try discriminate.
  - reflexivity.
  - cbn [Sql.lower] in E. injection E as Ec Ep.
    cbn [Sql.until_nul]. rewrite (to_lower_nul c c' Ec).
    destruct (Ascii.eqb c' zero); [reflexivity|].
    cbn [Sql.lower]. rewrite Ec, (IH p' Ep). reflexivity.
Qed.

Lemma like_text_same_case (p p' s : string) :
  Sql.lower p = Sql.lower p' -> Sql.like_text p s = Sql.like_text p' s.
Proof.
  revert p' s. induction p as [|c p IH]; intros [|c' p'] s E; try discriminate.
  - reflexivity.
  - cbn [Sql.lower] in E. injection E as Ec Ep.
    destruct (to_lower_wildcards c c' Ec) as [Hp Hu].
    destruct (Sql.is_percent c) eqn:Ecp.
    + assert (c = "%"%char) by (apply Ascii.eqb_eq; exact Ecp).
      assert (c' = "%"%char) by (apply Ascii.eqb_eq; symmetry; exact Hp).
      subst c c'. induction s as [|d s IHs].
      * rewrite !like_percent_unfold. rewrite (IH p' _ Ep). reflexivity.
      * rewrite (like_percent_unfold p), (like_percent_unfold p'), IHs, (IH p' _ Ep).
        reflexivity.
    + rewrite (like_char_unfold c p s Ecp), (like_char_unfold c' p' s (eq_sym Hp)).
      destruct s as [|d s]; [reflexivity|].
      rewrite Hu, Ec, (IH p' s Ep). reflexivity.
Qed.

Lemma like_same_case (p p' s : string) :
  Sql.lower p = Sql.lower p' -> Sql.like p s = Sql.like p' s.
Proof.
  intros E. unfold Sql.like. apply like_text_same_case, lower_until_nul, E.
Qed.

Lemma lower_app (a b : string) : Sql.lower (a ++ b) = Sql.lower a ++ Sql.lower b.
Proof. induction a as [|c a IH]; cbn; congruence. Qed.

Lemma contains_same_case (s q q' : string) :
  Sql.lower q = Sql.lower q' -> Sql.contains s q = Sql.contains s q'.
Proof.
  intros E. unfold Sql.contains. apply like_same_case.
  rewrite !lower_app, E. reflexivity.
Qed.

(** X19.  The search text is read without regard to the case of its ASCII
    letters: two values of [q] that differ only in that case select the same
    listings, in the browse view and in the API. *)
Theorem search_ignores_the_case_of_q (db : Db) (q q' cat : string) :
  Sql.lower q = Sql.lower q' ->
  index_listings db q cat = index_listings db q' cat /\
  api_listings_rows db q cat = api_listings_rows db q' cat /\
  api_listings db q cat = api_listings db q' cat.
Proof.
  intros E.
  assert (Hsel : forall l, row_selected q cat l = row_selected q' cat l).
  { intros l. unfold row_selected.
    assert (Ht : str_truthy q = str_truthy q') by (destruct q, q'; try discriminate; reflexivity).
    rewrite Ht, (contains_same_case _ q q' E).
    destruct (Listing.description l) as [d|]; cbn [Sql.contains_null];
      [rewrite (contains_same_case d q q' E)|]; reflexivity. }
  assert (Hrows : api_listings_rows db q cat = api_listings_rows db q' cat).
  { rewrite !api_listings_rows_shape. rewrite (filter_ext _ _ Hsel). reflexivity. }
  split; [|split].
  - rewrite !index_listings_shape. rewrite (filter_ext _ _ Hsel). reflexivity.
  - exact Hrows.
  - unfold api_listings. rewrite Hrows. reflexivity.
Qed.

End SearchCase.

Lemma search_ignores_the_case_of_q_witness :
  index_listings Examples.seeded "MILK" "" = index_listings Examples.seeded "milk" "" /\
  api_listings_rows Examples.seeded "MILK" "" = api_listings_rows Examples.seeded "milk" "" /\
  api_listings Examples.seeded "MILK" "" = api_listings Examples.seeded "milk" "".
Proof.
  apply (search_ignores_the_case_of_q Examples.seeded "MILK" "milk" ""). reflexivity.
Defined.

(* ------------------------------------------------------------------ *)
(** ** The date texts that are accepted *)

Section DateTexts.

Ltac split_leb :=
  repeat match goal with
         | |- context [Z.leb ?a ?b] => destruct (Z.leb_spec a b); try lia
         end.

Lemma in_class_inv (lo hi : Z) (c : ascii) (v : Z) :
  Strptime.in_class lo hi c = Some v -> Strptime.digit c = Some v /\ lo <= v <= hi.
Proof.
  unfold Strptime.in_class. destruct (Strptime.digit c) as [w|]; [|discriminate].
  destruct (Z.leb_spec lo w); destruct (Z.leb_spec w hi); cbn; intros E;
    try discriminate.
  injection E as <-. split; [reflexivity | lia].
Qed.

Lemma two_inv {R : Type} (lo1 hi1 lo2 hi2 : Z) (s : string)
    (k : Z -> string -> option R) (r : R) :
  Strptime.two lo1 hi1 lo2 hi2 s k = Some r ->
  exists c1 c2 rest e f,
    s = String c1 (String c2 rest) /\
    Strptime.digit c1 = Some e /\ Strptime.digit c2 = Some f /\
    lo1 <= e <= hi1 /\ lo2 <= f <= hi2 /\ k (10 * e + f) rest = Some r.
Proof.
  unfold Strptime.two. destruct s as [|c1 [|c2 rest]]; try discriminate.
  destruct (Strptime.in_class lo1 hi1 c1) as [e|] eqn:E1; [|discriminate].
  destruct (Strptime.in_class lo2 hi2 c2) as [f|] eqn:E2; [|discriminate].
  apply in_class_inv in E1 as [D1 B1]. apply in_class_inv in E2 as [D2 B2].
  intros Hk. exists c1, c2, rest, e, f. auto 10.
Qed.

Lemma one_inv {R : Type} (lo hi : Z) (s : string) (k : Z -> string -> option R) (r : R) :
  Strptime.one lo hi s k = Some r ->
  exists c rest e,
    s = String c rest /\ Strptime.digit c = Some e /\ lo <= e <= hi /\ k e rest = Some r.
Proof.
  unfold Strptime.one. destruct s as [|c rest]; [discriminate|].
  destruct (Strptime.in_class lo hi c) as [e|] eqn:E; [|discriminate].
  apply in_class_inv in E as [D B]. intros Hk. exists c, rest, e. auto.
Qed.

Lemma lit_inv {R : Type} (c : ascii) (s : string) (k : string -> option R) (r : R) :
  Strptime.lit c s k = Some r -> exists rest, s = String c rest /\ k rest = Some r.
Proof.
  unfold Strptime.lit. destruct s as [|d rest]; [discriminate|].
  destruct (Ascii.eqb c d) eqn:E; [|discriminate].
  apply Ascii.eqb_eq in E. subst d. intros Hk. exists rest. auto.
Qed.

Lemma orelse_inv {A : Type} (x y : option A) (r : A) :
  Strptime.orelse x y = Some r -> x = Some r \/ y = Some r.
Proof. destruct x; cbn; auto. Qed.

Lemma re_m_inv {R : Type} (s : string) (k : Z -> string -> option R) (r : R) :
  Strptime.re_m s k = Some r ->
  exists ms rest n,
    s = ms ++ rest /\ (written_1 ms n \/ written_2 ms n) /\ k n rest = Some r.
Proof.
  unfold Strptime.re_m. intros H.
  apply orelse_inv in H as [H|H]; [|apply orelse_inv in H as [H|H]].
  - apply two_inv in H as (c1 & c2 & rest & e & f & -> & D1 & D2 & _ & _ & Hk).
    exists (String c1 (String c2 "")), rest, (10 * e + f).
    split; [reflexivity|]. split; [right; exists c1, c2, e, f; auto | exact Hk].
  - apply two_inv in H as (c1 & c2 & rest & e & f & -> & D1 & D2 & _ & _ & Hk).
    exists (String c1 (String c2 "")), rest, (10 * e + f).
    split; [reflexivity|]. split; [right; exists c1, c2, e, f; auto | exact Hk].
  - apply one_inv in H as (c & rest & e & -> & D & _ & Hk).
    exists (String c ""), rest, e.
    split; [reflexivity|]. split; [left; exists c; auto | exact Hk].
Qed.

Lemma re_d_inv {R : Type} (s : string) (k : Z -> string -> option R) (r : R) :
  Strptime.re_d s k = Some r ->
  exists ds rest n,
    s = ds ++ rest /\
    (written_1 ds n \/ written_2 ds n \/ exists ds', ds = " " ++ ds' /\ written_1 ds' n) /\
    k n rest = Some r.
Proof.
  unfold Strptime.re_d. intros H.
  apply orelse_inv in H as [H|H]; [|apply orelse_inv in H as [H|H];
    [|apply orelse_inv in H as [H|H]; [|apply orelse_inv in H as [H|H]]]].
  1-3: apply two_inv in H as (c1 & c2 & rest & e & f & -> & D1 & D2 & _ & _ & Hk);
       exists (String c1 (String c2 "")), rest, (10 * e + f);
       (split; [reflexivity|]); (split; [right; left; exists c1, c2, e, f; auto | exact Hk]).
  - apply one_inv in H as (c & rest & e & -> & D & _ & Hk).
    exists (String c ""), rest, e.
    split; [reflexivity|]. split; [left; exists c; auto | exact Hk].
  - apply lit_inv in H as (s' & -> & H).
    apply one_inv in H as (c & rest & e & -> & D & _ & Hk).
    exists (String " " (String c "")), rest, e.
    split; [reflexivity|]. split; [|exact Hk].
    right. right. exists (String c ""). split; [reflexivity | exists c; auto].
Qed.

Lemma append_empty (s : string) : s ++ "" = s.
Proof. induction s as [|c s IH]; cbn; congruence. Qed.

Lemma strptime_date_text (s : string) (dt : datetime) :
  Strptime.strptime s = Some dt ->
  date_text s (year dt) (month dt) (day dt).
Proof.
  unfold Strptime.strptime.
  destruct (Strptime.regex_match s) as [[[[y m] d] rest]|] eqn:E; [|discriminate].
  destruct rest as [|? ?]; [|discriminate]. cbn [str_truthy].
  destruct (Strptime.valid_date y m d); [|discriminate].
  intros H. injection H as <-. cbn [year month day].
  unfold Strptime.regex_match, Strptime.re_Y in E.
  destruct s as [|c1 [|c2 [|c3 [|c4 s1]]]]; try discriminate.
  destruct (Strptime.digit c1) as [a|] eqn:D1; [|discriminate].
  destruct (Strptime.digit c2) as [b|] eqn:D2; [|discriminate].
  destruct (Strptime.digit c3) as [c|] eqn:D3; [|discriminate].
  destruct (Strptime.digit c4) as [d0|] eqn:D4; [|discriminate].
  apply lit_inv in E as (s2 & -> & E).
  apply re_m_inv in E as (ms & s3 & n & -> & Hms & E).
  apply lit_inv in E as (s4 & -> & E).
  apply re_d_inv in E as (ds & rest & n' & -> & Hds & E).
  injection E as <- <- <- ->.
  exists (String c1 (String c2 (String c3 (String c4 "")))), ms, ds.
  rewrite append_empty. split; [reflexivity|]. split; [|split; assumption].
  exists c1, c2, c3, c4, a, b, c, d0. auto 10.
Qed.

Lemma digit_not_dash : Strptime.digit "-" = None.
Proof. reflexivity. Qed.

Lemma digit_not_space : Strptime.digit " " = None.
Proof. reflexivity. Qed.

Lemma in_class_dash (lo hi : Z) : Strptime.in_class lo hi "-" = None.
Proof. reflexivity. Qed.

Lemma in_class_space (lo hi : Z) : Strptime.in_class lo hi " " = None.
Proof. reflexivity. Qed.

(** A month of one digit, before the second [-]. *)
Lemma re_m_one_digit {R : Type} (k : Z -> string -> option R)
    (c : ascii) (m : Z) (rest : string) (r : R) :
  Strptime.digit c = Some m -> 1 <= m <= 9 ->
  k m (String "-" rest) = Some r ->
  Strptime.re_m (String c (String "-" rest)) k = Some r.
Proof.
  intros D Hm Hk. pose proof (digit_range _ _ D).
  unfold Strptime.re_m, Strptime.two, Strptime.one.
  rewrite !in_class_dash, !(in_class_digit _ _ c m D).
  split_leb; cbn [andb Strptime.orelse]; rewrite ?Hk; reflexivity.
Qed.

(** A day of one digit, at the end of the text. *)
Lemma re_d_one_digit {R : Type} (k : Z -> string -> option R) (c : ascii) (d : Z) (r : R) :
  Strptime.digit c = Some d -> 1 <= d <= 9 ->
  k d "" = Some r ->
  Strptime.re_d (String c "") k = Some r.
Proof.
  intros D Hd Hk. pose proof (digit_range _ _ D).
  unfold Strptime.re_d, Strptime.two, Strptime.one, Strptime.lit.
  rewrite !(in_class_digit _ _ c d D).
  split_leb; cbn [andb Strptime.orelse]; rewrite ?Hk;
    try reflexivity; destruct (Ascii.eqb " " c); reflexivity.
Qed.

(** A day of one digit after a space, at the end of the text. *)
Lemma re_d_space_digit {R : Type} (k : Z -> string -> option R) (c : ascii) (d : Z) (r : R) :
  Strptime.digit c = Some d -> 1 <= d <= 9 ->
  k d "" = Some r ->
  Strptime.re_d (String " " (String c "")) k = Some r.
Proof.
  intros D Hd Hk. pose proof (digit_range _ _ D).
  unfold Strptime.re_d, Strptime.two, Strptime.one, Strptime.lit.
  rewrite !in_class_space, !(in_class_digit _ _ c d D).
  cbn [Strptime.orelse]. rewrite Ascii.eqb_refl.
  split_leb; cbn [andb]; exact Hk.
Qed.

Lemma date_text_strptime (s : string) (y m d : Z) :
  date_text s y m d -> Strptime.valid_date y m d = true ->
  Strptime.strptime s = Some (mkDatetime y m d 0 0 0 0).
Proof.
  intros (ys & ms & ds & -> & Hy & Hm & Hd) Hv.
  destruct Hy as (c1 & c2 & c3 & c4 & a & b & c & d0 & -> & D1 & D2 & D3 & D4 & ->).
  destruct (valid_date_bounds _ _ _ Hv) as [Bm Bd].
  unfold Strptime.strptime.
  assert (Hre : Strptime.regex_match
                  (String c1 (String c2 (String c3 (String c4 "")))
                   ++ "-" ++ ms ++ "-" ++ ds) =
                Some (1000 * a + 100 * b + 10 * c + d0, m, d, "")).
  { cbn [String.append]. unfold Strptime.regex_match, Strptime.re_Y.
    rewrite D1, D2, D3, D4. unfold Strptime.lit at 1. rewrite Ascii.eqb_refl.
    assert (Hday : forall y0 m0,
              Strptime.re_d ds (fun d1 rest => Some (y0, m0, d1, rest)) =
              Some (y0 : Z, m0 : Z, d, "")).
    { intros y0 m0.
      destruct Hd as [(e & -> & De)|[(e1 & e2 & g & h & -> & Dg & Dh & ->)|(ds' & -> & e & -> & De)]].
      - apply (re_d_one_digit _ e d _ De); [|reflexivity].
        pose proof (digit_range _ _ De). lia.
      - apply (re_d_two_digits _ e1 e2 g h _ _ Dg Dh Bd). reflexivity.
      - apply (re_d_space_digit _ e d _ De); [|reflexivity].
        pose proof (digit_range _ _ De). lia. }
    destruct Hm as [(e & -> & De)|(e1 & e2 & g & h & -> & Dg & Dh & ->)].
    - cbn [String.append]. apply (re_m_one_digit _ e m _ _ De).
      + pose proof (digit_range _ _ De). lia.
      + unfold Strptime.lit. rewrite Ascii.eqb_refl. apply Hday.
    - cbn [String.append]. apply (re_m_two_digits _ e1 e2 g h _ _ Dg Dh Bm).
      unfold Strptime.lit. rewrite Ascii.eqb_refl. apply Hday. }
  rewrite Hre. cbn [str_truthy]. rewrite Hv. reflexivity.
Qed.

(** X20.  The date texts that [new_event] accepts are exactly these: a year
    of four digits, [-], a month of one or two digits, [-], and a day of one
    or two digits or of one digit after a space, that name a day of the
    calendar (year 1 to 9999); the parsed date is that day at midnight.
    Anything else (a year of two digits, other separators, text before or
    after the date, the 30th of February) is refused. *)
Theorem strptime_accepts_exactly (s : string) (dt : datetime) :
  Strptime.strptime s = Some dt <->
  date_text s (year dt) (month dt) (day dt) /\
  Strptime.valid_date (year dt) (month dt) (day dt) = true /\
  dt = mkDatetime (year dt) (month dt) (day dt) 0 0 0 0.
Proof.
  split.
  - intros H. split; [apply strptime_date_text; exact H | exact (strptime_is_a_date s dt H)].
  - intros (Ht & Hv & ->). apply date_text_strptime; assumption.
Qed.

End DateTexts.

Lemma strptime_accepts_exactly_witness :
  Strptime.strptime "2024-1- 5" = Some (mkDatetime 2024 1 5 0 0 0 0).
Proof.
  apply strptime_accepts_exactly. split; [|split; reflexivity].
  exists "2024", "1", " 5". split; [reflexivity|]. split; [|split].
  - exists "2"%char, "0"%char, "2"%char, "4"%char, 2, 0, 2, 4. repeat split.
  - left. exists "1"%char. split; reflexivity.
  - right. right. exists "5". split; [reflexivity|]. exists "5"%char. split; reflexivity.
Defined.

Lemma RoleEnum_round_trip_witness :
  RoleEnum_of_value "vet" = Some VET /\ (RoleEnum_of_value "Vet" = Some VET -> False).
Proof.
  split.
  - apply RoleEnum_round_trip. reflexivity.
  - intros H. apply RoleEnum_round_trip in H. discriminate.
Defined.

(* ------------------------------------------------------------------ *)
(** ** What the forms let through *)

Section FormConstraints.

Context {backend : Passlib.BcryptBackend} {email_validator : Validators.EmailValidator}.

Lemma Length_bounds (lo hi : Z) (s : string) :
  Validators.Length lo hi s = true -> lo <= Z.of_nat (String.length s) <= hi.
Proof. unfold Validators.Length. rewrite andb_true_iff, !Z.leb_le. tauto. Qed.

Lemma choice_In (choices : list string) (v : string) :
  Validators.choice choices v = true -> In v choices.
Proof.
  unfold Validators.choice. intros H. apply existsb_exists in H as (c & Hc & E).
  apply String.eqb_eq in E. subst. exact Hc.
Qed.

(** X21.  Every row that a handler writes meets the constraints its form
    declares.  A user that [register] adds has a name of 3 to 80 characters,
    an email the validator accepts, one of the eight roles, and a stored hash
    that is the bcrypt text of a password of 6 to 128 characters.  A listing
    that [new_listing] adds has a title of 2 to
    200 characters, a description of 10 to 2000 and one of the five
    categories; a message has a subject of 1 to 200 characters and a body of 1
    to 2000; an event has a title of 2 to 200 characters, a description of 10
    to 2000 and a date. *)
Theorem written_rows_meet_the_form_constraints (db : Db) :
  (forall now salt req u,
     In u (users (store (register db now salt req))) ->
     In u (users db) \/
     (3 <= Z.of_nat (String.length (User.username u)) <= 80 /\
      Validators.Email (User.email u) = true /\
      (exists r, User.role u = RoleEnum_value r) /\
      exists password,
        6 <= Z.of_nat (String.length password) <= 128 /\
        User.password_hash u = hash_text salt password)) /\
  (forall now cu req l,
     In l (listings (store (new_listing db now cu req))) ->
     In l (listings db) \/
     (2 <= Z.of_nat (String.length (Listing.title l)) <= 200 /\
      (exists d, Listing.description l = Some d /\
                 10 <= Z.of_nat (String.length d) <= 2000) /\
      exists c, Listing.category l = Some c /\ In c ListingForm.choices)) /\
  (forall now cu req m,
     In m (messages (store (new_message db now cu req))) ->
     In m (messages db) \/
     ((exists s, Message.subject m = Some s /\ 1 <= Z.of_nat (String.length s) <= 200) /\
      exists b, Message.body m = Some b /\ 1 <= Z.of_nat (String.length b) <= 2000)) /\
  (forall now cu req e,
     In e (events (store (new_event db now cu req))) ->
     In e (events db) \/
     ((exists t, Event.title e = Some t /\ 2 <= Z.of_nat (String.length t) <= 200) /\
      (exists d, Event.description e = Some d /\
                 10 <= Z.of_nat (String.length d) <= 2000) /\
      exists dt, Event.date e = Some dt /\
                 Strptime.valid_date (year dt) (month dt) (day dt) = true)).
Proof.
  split; [|split; [|split]].
  - intros now salt req u. unfold register. cbv zeta.
    destruct (validate_on_submit RegisterForm.validate req) eqn:Hvalid; [|auto].
    destruct (existsb _ (users db)); [auto|].
    unfold set_password, Passlib.hash. cbv zeta.
    destruct (Passlib.validate_secret (RegisterForm.password _)); cbn [negb]; [|auto].
    destruct (Passlib.validate_secret (Passlib.utf8 _)); cbn [negb]; [|auto].
    destruct (Passlib.has_nul _); [auto|].
    cbn [store]. unfold add_profile, add_user. cbn [users].
    intros Hu. apply In_snoc in Hu as [Hu| ->]; [auto|]. right.
    unfold validate_on_submit, RegisterForm.validate in Hvalid.
    destruct (method req); [discriminate|].
    rewrite !andb_true_iff in Hvalid.
    destruct Hvalid as (_ & (((((_ & Hn) & _) & He) & _) & Hp) & Hr).
    cbn [User.username User.email User.role User.password_hash].
    split; [apply Length_bounds; exact Hn|]. split; [exact He|].
    split; [apply choice_role; exact Hr|].
    exists (RegisterForm.password (form req)).
    split; [apply Length_bounds; exact Hp | reflexivity].
  - intros now cu req l. unfold new_listing, login_required.
    destruct cu as [u|]; [|auto]. cbv zeta.
    destruct (validate_on_submit ListingForm.validate req) eqn:Hvalid; [|auto].
    cbn [store]. unfold add_listing. cbn [listings].
    intros Hl. apply In_snoc in Hl as [Hl| ->]; [auto|]. right.
    unfold validate_on_submit, ListingForm.validate in Hvalid.
    destruct (method req); [discriminate|].
    rewrite !andb_true_iff in Hvalid.
    destruct Hvalid as (_ & ((((_ & Ht) & _) & Hd) & Hc) & _).
    cbn [Listing.title Listing.description Listing.category].
    split; [apply Length_bounds; exact Ht|]. split.
    + eexists. split; [reflexivity | apply Length_bounds; exact Hd].
    + eexists. split; [reflexivity | apply choice_In; exact Hc].
  - intros now cu req m. unfold new_message, login_required.
    destruct cu as [u|]; [|auto]. cbv zeta.
    destruct (validate_on_submit MessageForm.validate req) eqn:Hvalid; [|auto].
    destruct (user_by_username db _); [|auto].
    cbn [store]. unfold add_message. cbn [messages].
    intros Hm. apply In_snoc in Hm as [Hm| ->]; [auto|]. right.
    unfold validate_on_submit, MessageForm.validate in Hvalid.
    destruct (method req); [discriminate|].
    rewrite !andb_true_iff in Hvalid.
    destruct Hvalid as (_ & (((_ & Hs) & _) & Hb)).
    cbn [Message.subject Message.body].
    split; eexists; (split; [reflexivity | apply Length_bounds; assumption]).
  - intros now cu req e. unfold new_event, login_required.
    destruct cu as [u|]; [|auto]. cbv zeta.
    destruct (validate_on_submit EventForm.validate req) eqn:Hvalid; [|auto].
    destruct (Strptime.strptime _) as [dt|] eqn:Hdt; [|auto].
    cbn [store]. unfold add_event. cbn [events].
    intros He. apply In_snoc in He as [He| ->]; [auto|]. right.
    unfold validate_on_submit, EventForm.validate in Hvalid.
    destruct (method req); [discriminate|].
    rewrite !andb_true_iff in Hvalid.
    destruct Hvalid as (_ & ((((_ & Ht) & _) & Hd) & _)).
    cbn [Event.title Event.description Event.date].
    split; [eexists; split; [reflexivity | apply Length_bounds; exact Ht]|].
    split; [eexists; split; [reflexivity | apply Length_bounds; exact Hd]|].
    exists dt. split; [reflexivity | apply (strptime_is_a_date _ _ Hdt)].
Qed.

End FormConstraints.

Lemma written_rows_meet_the_form_constraints_witness :
  3 <= Z.of_nat (String.length (User.username Examples.alice)) <= 80 /\
  Validators.Email (EmailValidator := Sample.email_validator) (User.email Examples.alice) = true.
Proof.
  destruct (@written_rows_meet_the_form_constraints Sample.backend Sample.email_validator
              Examples.seeded) as (Hreg & _).
  destruct (Hreg (Sample.noon 20) Sample.salt (Sample.post Examples.alice_form) Examples.alice)
    as [Hold|(Hn & He & _)].
  - vm_compute. tauto.
  - exfalso. vm_compute in Hold.
    repeat (destruct Hold as [Hold|Hold]; [discriminate|]). destruct Hold.
  - split; assumption.
Defined.

Lemma seeding_twice_is_refused_witness :
  @Seed.seed_data Sample.backend Examples.seeded Examples.salts Examples.clock = None.
Proof.
  apply (proj2 (@seeding_twice_is_refused Sample.backend Examples.seeded
                  Examples.salts Examples.clock) Examples.salts Examples.clock).
  vm_compute. reflexivity.
Defined.
